(** * sqlWrapper: a shallow embedding of [iodb] and its properties

    The development follows [sqlWrapper.py]: Python values and classes,
    the process environment the module talks to (filesystem, clock, host
    identity, standard output, the SQL driver), the [iodb] object, and then
    the methods [detectType], [appendType], [createTable], [lock],
    [release], [_getUniqueName], [_adapt_array], [_typecast_array] and
    [_typecast_array_ext].

    Conventions.
    - A Python [str] is a Rocq [string] holding its UTF-8 bytes (on which
      byte order and code-point order agree); a [bytes] object is a
      [list byte].
    - A Python [int] is a [Z].  A float is carried by its IEEE-754 bit
      pattern: no method of [iodb] computes with it.
    - An attribute that [__init__] or [start] may leave unset is an
      [option]; reading it when unset raises [AttributeError].
    - Effects are explicit: a method is a function from the environment to
      an outcome and the environment afterwards, and the environment keeps
      the trace of what was printed, probed, slept, read and written.
    - The only loop, in [lock], runs on fuel; its properties hold for every
      amount of fuel above the number of iterations the loop makes.
    - numpy, gzip, the interpreter's codecs and psycopg2 are libraries: the
      adapters take what they compute as parameters.
    - The module-level [import os] and [import socket] are commented out in
      the checked-in file, with the remark that they are needed for the
      external storage.  The environment records whether they were enabled;
      using [os] or [socket] without the import raises [NameError]. *)

From Stdlib Require Import ZArith List String Ascii Bool Lia.
From Stdlib.Strings Require Import Byte.
From Stdlib Require Import Decimal DecimalString DecimalZ.
From stdpp Require Import base option list gmap strings sorting.

Local Open Scope Z_scope.

(** ** Python values *)

Module Py.

(** The classes the module tests values against. *)
Inductive pyclass :=
  | C_object | C_NoneType | C_bool | C_int | C_float | C_str | C_bytes
  | C_list | C_tuple | C_function
  | C_np_int8 | C_np_int16 | C_np_int32 | C_np_int64
  | C_np_float16 | C_np_float32 | C_np_float64
  | C_np_ndarray
  | C_ndarray_ext
  | C_psycopg2_Binary.

#[export] Instance pyclass_eq_dec : EqDecision pyclass.
Proof. solve_decision. Defined.

(** Method resolution order.  [bool] derives from [int] and [np.float64]
    from [float]; [class ndarray_ext:] (line 104) names no base, so it
    derives from [object] alone. *)
Definition mro (c : pyclass) : list pyclass :=
  match c with
  | C_object => [C_object]
  | C_bool => [C_bool; C_int; C_object]
  | C_np_float64 => [C_np_float64; C_float; C_object]
  | _ => [c; C_object]
  end.

Definition issubclass (c d : pyclass) : bool := bool_decide (d ∈ mro c).

(** A numpy array: element type descriptor, shape, memory order and the
    raw element bytes. *)
Record ndarray := Ndarray {
  dtype : string;
  shape : list nat;
  fortran_order : bool;
  data : list byte
}.

#[warnings="-register-all"]
Inductive pyvalue :=
  | VNone
  | VBool (b : bool)
  | VInt (z : Z)
  | VFloat (bits : Z)
  | VStr (s : string)
  | VBytes (b : list byte)
  | VNpInt8 (z : Z) | VNpInt16 (z : Z) | VNpInt32 (z : Z) | VNpInt64 (z : Z)
  | VNpFloat16 (bits : Z) | VNpFloat32 (bits : Z) | VNpFloat64 (bits : Z)
  | VNdarray (a : ndarray)
  | VNdarrayExt (arr : pyvalue)        (* ndarray_ext(arr): self.data = arr *)
  | VFunction (source : string)
  | VPgBinary (b : list byte)          (* psycopg2.Binary(b) *)
  | VList (items : list pyvalue)
  | VTuple (items : list pyvalue).

(** [type(value)] *)
Definition type_of (v : pyvalue) : pyclass :=
  match v with
  | VNone => C_NoneType
  | VBool _ => C_bool
  | VInt _ => C_int
  | VFloat _ => C_float
  | VStr _ => C_str
  | VBytes _ => C_bytes
  | VNpInt8 _ => C_np_int8
  | VNpInt16 _ => C_np_int16
  | VNpInt32 _ => C_np_int32
  | VNpInt64 _ => C_np_int64
  | VNpFloat16 _ => C_np_float16
  | VNpFloat32 _ => C_np_float32
  | VNpFloat64 _ => C_np_float64
  | VNdarray _ => C_np_ndarray
  | VNdarrayExt _ => C_ndarray_ext
  | VFunction _ => C_function
  | VPgBinary _ => C_psycopg2_Binary
  | VList _ => C_list
  | VTuple _ => C_tuple
  end.

(** [isinstance(value, (c1, ..., cn))] *)
Definition isinstance (v : pyvalue) (cs : list pyclass) : bool :=
  existsb (issubclass (type_of v)) cs.

(** [value == "text"] for a text literal *)
Definition str_eq (v : pyvalue) (text : string) : bool :=
  match v with VStr s => String.eqb s text | _ => false end.

(** [value is None] *)
Definition is_None (v : pyvalue) : bool :=
  match v with VNone => true | _ => false end.

(** [callable(value)]: of the values above only functions have [__call__]. *)
Definition callable (v : pyvalue) : bool :=
  match v with VFunction _ => true | _ => false end.

(** Arguments of [str.format] and [print], kept symbolic: the text of
    [str(value)] for arbitrary values is not needed anywhere. *)
Inductive fmtarg :=
  | AStr (s : string)
  | AInt (z : Z)
  | AVal (v : pyvalue)
  | AType (c : pyclass).

(** [template.format(args)] *)
Record message := Msg { template : string; margs : list fmtarg }.

Definition lit (s : string) : message := Msg s [].

Inductive exn :=
  | TypeError (m : message)
  | FileNotFoundError (m : message)
  | FileExistsError (path : string)
  | IsADirectoryError (path : string)
  | NotADirectoryError (path : string)
  | NameError (name : string)
  | AttributeError (attr : string)
  | UnboundLocalError (name : string)
  | KeyError (key : string)
  | UnicodeDecodeError
  | ValueError (m : message)
  | OSError (m : message)
  | FormatError
  | UnsupportedDtypeError.

End Py.
Export Py.

(** ** The process environment and the effect monad *)

Module Env.

(** What a path names on disk. *)
Inductive fnode :=
  | RegularFile (content : list byte)
  | Directory.

(** Broken-down local time, as [time.strftime] reads it. *)
Record tm := Tm {
  tm_year : Z; tm_mon : Z; tm_mday : Z; tm_hour : Z; tm_min : Z
}.

(** Everything the module does to the outside, in the order it does it. *)
Inductive event :=
  | EPrint (parts : list message)
  | ESleep (milliseconds : Z)          (* time.sleep(milliseconds/1000) *)
  | EExists (path : string)
  | EIsFile (path : string)
  | EMknod (path : string)
  | ERemove (path : string)
  | EMakedirs (path : string)
  | EOpenRead (path : string)
  | EWriteFile (path : string)
  | EExecute (query : string) (params : list pyvalue)
  | ECommit.

Record world := World {
  os_imported : bool;
  socket_imported : bool;
  fs : gmap string fnode;
  hostname : string;
  pid : Z;
  localtime : tm;
  log : list event
}.

Definition emit (e : event) (w : world) : world :=
  World (os_imported w) (socket_imported w) (fs w) (hostname w) (pid w)
        (localtime w) (log w ++ [e]).

Definition emits (es : list event) (w : world) : world :=
  World (os_imported w) (socket_imported w) (fs w) (hostname w) (pid w)
        (localtime w) (log w ++ es).

Definition set_fs (f : gmap string fnode) (w : world) : world :=
  World (os_imported w) (socket_imported w) f (hostname w) (pid w)
        (localtime w) (log w).

(** How a call ends: a value, an exception, or no answer within the
    number of loop iterations granted. *)
Inductive outcome (A : Type) :=
  | Return (a : A)
  | Raise (e : exn)
  | OutOfFuel.
Arguments Return {A} a.
Arguments Raise {A} e.
Arguments OutOfFuel {A}.

Definition M (A : Type) : Type := world -> outcome A * world.

Definition ret {A} (a : A) : M A := fun w => (Return a, w).

Definition raise {A} (e : exn) : M A := fun w => (Raise e, w).

Definition out_of_fuel {A} : M A := fun w => (OutOfFuel, w).

Definition bind {A B} (m : M A) (k : A -> M B) : M B :=
  fun w =>
    match m w with
    | (Return a, w') => k a w'
    | (Raise e, w') => (Raise e, w')
    | (OutOfFuel, w') => (OutOfFuel, w')
    end.

Notation "'let*' x ':=' m 'in' k" := (bind m (fun x => k))
  (at level 10, x name, m at level 100, k at level 200).
Notation "m ';;' k" := (bind m (fun _ => k))
  (at level 100, k at level 200, right associativity).

(** [print(parts...)] *)
Definition print (parts : list message) : M unit :=
  fun w => (Return tt, emit (EPrint parts) w).

(** Reading an attribute that may be unset. *)
Definition getattr {A} (name : string) (field : option A) : M A :=
  match field with
  | Some a => ret a
  | None => raise (AttributeError name)
  end.

(** Name lookup of the modules whose import is optional. *)
Definition use_os : M unit :=
  fun w => if os_imported w then (Return tt, w) else (Raise (NameError "os"), w).

Definition use_socket : M unit :=
  fun w => if socket_imported w then (Return tt, w)
           else (Raise (NameError "socket"), w).

(** [os.path.exists(path)] *)
Definition os_path_exists (path : string) : M bool :=
  use_os ;;
  fun w => (Return (bool_decide (is_Some (fs w !! path))), emit (EExists path) w).

(** [os.path.isfile(path)] *)
Definition os_path_isfile (path : string) : M bool :=
  use_os ;;
  fun w =>
    (Return (match fs w !! path with Some (RegularFile _) => true | _ => false end),
     emit (EIsFile path) w).

(** [os.mknod(path)]: a new empty regular file; fails on an existing path. *)
Definition os_mknod (path : string) : M unit :=
  use_os ;;
  fun w =>
    match fs w !! path with
    | Some _ => (Raise (FileExistsError path), emit (EMknod path) w)
    | None => (Return tt, emit (EMknod path) (set_fs (<[path := RegularFile []]> (fs w)) w))
    end.

(** [os.remove(path)] *)
Definition os_remove (path : string) : M unit :=
  use_os ;;
  fun w =>
    match fs w !! path with
    | Some (RegularFile _) =>
        (Return tt, emit (ERemove path) (set_fs (delete path (fs w)) w))
    | Some Directory => (Raise (IsADirectoryError path), emit (ERemove path) w)
    | None => (Raise (FileNotFoundError (Msg "{}" [AStr path])), emit (ERemove path) w)
    end.

(** Directories are kept under their path text with one closing slash,
    which is how [__init__] names the folder it creates.  The root and the
    working directory are always there. *)
Fixpoint drop_while (f : ascii -> bool) (l : list ascii) : list ascii :=
  match l with
  | [] => []
  | c :: rest => if f c then drop_while f rest else l
  end.

Fixpoint take_while (f : ascii -> bool) (l : list ascii) : list ascii :=
  match l with
  | [] => []
  | c :: rest => if f c then c :: take_while f rest else []
  end.

Definition is_sep (c : ascii) : bool := Ascii.eqb c "/".

(** The head of [os.path.split] (taken again when the path ends in a
    slash, as [os.makedirs] does): the directory above [path], nothing
    for a bare name and for the root. *)
Definition parent_of (path : string) : string :=
  let r1 := drop_while is_sep (rev (list_ascii_of_string path)) in
  let r2 := drop_while (fun c => negb (is_sep c)) r1 in
  match r2 with
  | [] => EmptyString
  | _ => string_of_list_ascii (rev (drop_while is_sep r2) ++ ["/"%char])
  end.

(** The tail of the same split: the last component of [path]. *)
Definition last_component (path : string) : string :=
  let r1 := drop_while is_sep (rev (list_ascii_of_string path)) in
  string_of_list_ascii (rev (take_while (fun c => negb (is_sep c)) r1)).

(** The directories above [path], the nearest first. *)
Fixpoint ancestors_aux (fuel : nat) (path : string) : list string :=
  match fuel with
  | O => []
  | S fuel' =>
      let parent := parent_of path in
      if String.eqb parent "" then [] else parent :: ancestors_aux fuel' parent
  end.

Definition ancestors (path : string) : list string :=
  ancestors_aux (S (String.length path)) path.

Definition always_there (path : string) : bool :=
  String.eqb path "" || String.eqb path "/" || String.eqb path "./".

Definition occupied (files : gmap string fnode) (path : string) : bool :=
  always_there path || bool_decide (is_Some (files !! path)).

Definition holds_directory (files : gmap string fnode) (path : string) : bool :=
  always_there path
  || match files !! path with Some Directory => true | _ => false end.

(** [os.mkdir(path)]: the files afterwards and the error, if any. *)
Definition mkdir_in (path : string) (files : gmap string fnode)
    : gmap string fnode * option exn :=
  if String.eqb path "" then
    (files, Some (FileNotFoundError (Msg "{}" [AStr path])))
  else if occupied files path then (files, Some (FileExistsError path))
  else if holds_directory files (parent_of path) then
    (<[path := Directory]> files, None)
  else if occupied files (parent_of path) then
    (files, Some (NotADirectoryError path))
  else (files, Some (FileNotFoundError (Msg "{}" [AStr path]))).

(** The recursion of [os.makedirs(name)] along the directories above
    [name]: a missing head is made first, with its own missing heads; a
    [FileExistsError] of that recursion is passed over; a last component
    [.] under a head just made is left at that; then the leaf is made. *)
Fixpoint makedirs_chain (parents : list string) (name : string)
    (files : gmap string fnode) : gmap string fnode * option exn :=
  match parents with
  | head :: up =>
      if occupied files head then mkdir_in name files
      else
        match makedirs_chain up head files with
        | (files', None) | (files', Some (FileExistsError _)) =>
            if String.eqb (last_component name) "." then (files', None)
            else mkdir_in name files'
        | failed => failed
        end
  | [] => mkdir_in name files
  end.

(** [os.makedirs(path)]: creates the leaf and every missing directory
    above it; fails on an existing leaf. *)
Definition os_makedirs (path : string) : M unit :=
  use_os ;;
  fun w =>
    match makedirs_chain (ancestors path) path (fs w) with
    | (files, None) => (Return tt, emit (EMakedirs path) (set_fs files w))
    | (files, Some e) => (Raise e, emit (EMakedirs path) (set_fs files w))
    end.

(** [os.getpid()] *)
Definition os_getpid : M Z := use_os ;; fun w => (Return (pid w), w).

(** [socket.gethostname()] *)
Definition socket_gethostname : M string :=
  use_socket ;; fun w => (Return (hostname w), w).

(** [time.sleep(milliseconds/1000)] *)
Definition time_sleep_ms (milliseconds : Z) : M unit :=
  fun w => (Return tt, emit (ESleep milliseconds) w).

(** The whole content of a regular file opened for reading. *)
Definition read_file (path : string) : M (list byte) :=
  fun w =>
    match fs w !! path with
    | Some (RegularFile content) => (Return content, emit (EOpenRead path) w)
    | Some Directory => (Raise (IsADirectoryError path), emit (EOpenRead path) w)
    | None => (Raise (FileNotFoundError (Msg "{}" [AStr path])), emit (EOpenRead path) w)
    end.

(** Creating or overwriting a regular file. *)
Definition write_file (path : string) (content : list byte) : M unit :=
  fun w =>
    match fs w !! path with
    | Some Directory => (Raise (IsADirectoryError path), emit (EWriteFile path) w)
    | _ => (Return tt,
            emit (EWriteFile path) (set_fs (<[path := RegularFile content]> (fs w)) w))
    end.

End Env.
Export Env.

(** ** Text helpers *)

Module Text.

(** [str(z)] for an integer. *)
Definition str_of_Z (z : Z) : string := NilZero.string_of_int (Z.to_int z).

(** A decimal numeral left-padded with zeros to [width] characters. *)
Definition zpad (width : nat) (z : Z) : string :=
  let s := str_of_Z z in
  String.concat "" (replicate (width - String.length s) "0"%string) +:+ s.

(** [time.strftime(format)] for the directives the module uses. *)
Fixpoint strftime_at (format : string) (t : tm) : string :=
  match format with
  | String "%" (String d rest) =>
      (if Ascii.eqb d "Y" then zpad 4 (tm_year t)
       else if Ascii.eqb d "m" then zpad 2 (tm_mon t)
       else if Ascii.eqb d "d" then zpad 2 (tm_mday t)
       else if Ascii.eqb d "H" then zpad 2 (tm_hour t)
       else if Ascii.eqb d "M" then zpad 2 (tm_min t)
       else String "%" (String d EmptyString))
      +:+ strftime_at rest t
  | String c rest => String c (strftime_at rest t)
  | EmptyString => EmptyString
  end.

Definition time_strftime (format : string) : M string :=
  fun w => (Return (strftime_at format (localtime w)), w).

(** [sep.join(parts)] *)
Definition join (sep : string) (parts : list string) : string :=
  String.concat sep parts.

Definition quote : string := "'".

End Text.
Export Text.

(** ** The [iodb] object *)

Module Iodb.

Record iodb := Iodb {
  driver : option string;
  _timestamp : option string;
  _rowid : option string;
  _arrayType : option string;
  _arrayType_ext : option string;
  loadZipped : bool;
  storage : string;
  _spath : string;
  _counter : option Z;
  _folder : option string;
  _fname : option string
}.

Definition set_counter (c : Z) (self : iodb) : iodb :=
  Iodb (driver self) (_timestamp self) (_rowid self) (_arrayType self)
       (_arrayType_ext self) (loadZipped self) (storage self) (_spath self)
       (Some c) (_folder self) (_fname self).

Definition set_folder (f : string) (self : iodb) : iodb :=
  Iodb (driver self) (_timestamp self) (_rowid self) (_arrayType self)
       (_arrayType_ext self) (loadZipped self) (storage self) (_spath self)
       (_counter self) (Some f) (_fname self).

(** [iodb.__init__] (lines 122-190).  The calls that register adapters with
    the driver module leave the object untouched; the adapters themselves
    are the methods below. *)
Definition __init__ (driver storage storagePath : string)
    (loadZipped readOnly : bool) : M iodb :=
  let driverlist := ["sqlite"; "postgre"]%string in
  let* self :=
    if bool_decide (driver ∈ driverlist) then
      if String.eqb driver "sqlite" then
        ret (Iodb (Some driver)
                  (Some "timestamp datetime default current_timestamp"%string)
                  (Some "rowid"%string) (Some "ARRAY"%string)
                  (Some "ARRAY_EXT"%string)
                  loadZipped storage storagePath None None None)
      else if String.eqb driver "postgre" then
        ret (Iodb (Some driver)
                  (Some "timestamp timestamp default current_timestamp"%string)
                  (Some "oid"%string)
                  (Some (if String.eqb storage "intern" then "BYTEA" else "TEXT")%string)
                  (Some "TEXT"%string)
                  loadZipped storage storagePath None None None)
      else
        ret (Iodb (Some driver) None None None None
                  loadZipped storage storagePath None None None)
    else
      print [Msg "Unknown database driver '{0}'. Possible driver are {1}"
                 [AStr driver; AVal (VList (map VStr driverlist))]] ;;
      ret (Iodb None None None None None
                loadZipped storage storagePath None None None)
  in
  if String.eqb storage "extern" || String.eqb storage "mixed" then
    let self := set_counter 1 self in
    let* date := time_strftime "%Y-%m-%d" in
    let self := set_folder (date +:+ "/") self in
    let fullpath := storagePath +:+ (date +:+ "/") in
    let* present := os_path_exists fullpath in
    if negb present && negb readOnly then
      os_makedirs fullpath ;; ret self
    else ret self
  else ret self.

(** The exception of lines 535-537 and 540-542: it names the class of the
    value and the value. *)
Definition unrecognized_type (value : pyvalue) : exn :=
  TypeError (Msg ("iodb::detectType: Unrecognized type '{}'"
                  +:+ String "010" EmptyString +:+ "With value: {}")
                 [AType (type_of value); AVal value]).

(** What lines 530-532 print. *)
Definition single_element_warning (value : pyvalue) : list message :=
  [lit "WARNING: iodb::detectType:";
   Msg ("list or tuple with exactly one element detected."
        +:+ String "010" EmptyString
        +:+ String.concat "" (replicate 27 " "%string)
        +:+ "I'll save just the single element: {}")
       [AVal value]].

(** [iodb.detectType] (lines 480-542).  The result is the type name, or
    [None] when a branch falls off its inner [if]/[elif] without a
    [return]. *)
Fixpoint detectType (self : iodb) (value : pyvalue) (dbdriver : string)
    {struct value} : M (option string) :=
  if isinstance value [C_bool] then
    if String.eqb dbdriver "sqlite" then ret (Some "INTEGER"%string)
    else if String.eqb dbdriver "postgre" then ret (Some "BOOL"%string)
    else ret None
  else if isinstance value [C_int; C_np_int32; C_np_int16] then
    ret (Some "INTEGER"%string)
  else if isinstance value [C_np_int64] then
    if String.eqb dbdriver "sqlite" then ret (Some "INTEGER"%string)
    else if String.eqb dbdriver "postgre" then ret (Some "BIGINT"%string)
    else ret None
  else if isinstance value [C_np_int8] then
    if String.eqb dbdriver "sqlite" then ret (Some "INTEGER"%string)
    else if String.eqb dbdriver "postgre" then ret (Some "SMALLINT"%string)
    else ret None
  else if isinstance value [C_str] then
    if str_eq value "ndarray" then
      print [lit "iodb::detectType: (internal) numpy array detected";
             Msg "{}" [AVal value]] ;;
      let* t := getattr "_arrayType" (_arrayType self) in ret (Some t)
    else if str_eq value "ndarray_ext" then
      print [lit "iodb::detectType: (external) numpy array detected";
             Msg "{}" [AVal value]] ;;
      let* t := getattr "_arrayType_ext" (_arrayType_ext self) in ret (Some t)
    else ret (Some "TEXT"%string)
  else if isinstance value [C_float; C_np_float64] then
    if String.eqb dbdriver "sqlite" then ret (Some "REAL"%string)
    else if String.eqb dbdriver "postgre" then ret (Some "DOUBLE PRECISION"%string)
    else ret None
  else if isinstance value [C_np_float16; C_np_float32] then
    ret (Some "REAL"%string)
  else if isinstance value [C_np_ndarray] then
    if bool_decide (type_of value = C_ndarray_ext) then
      let* t := getattr "_arrayType_ext" (_arrayType_ext self) in ret (Some t)
    else
      let* t := getattr "_arrayType" (_arrayType self) in ret (Some t)
  else if callable value then
    ret (Some "TEXT"%string)
  else
    match value with
    | VList items | VTuple items =>
        (* isinstance(value, list) or isinstance(value, tuple) *)
        match items with
        | [element] =>                                   (* len(value) == 1 *)
            print (single_element_warning value) ;;
            detectType self element dbdriver
        | _ =>
            raise (unrecognized_type value)
        end
    | _ =>
        raise (unrecognized_type value)
    end.

(** What line 443 prints. *)
Definition timeout_warning : list message :=
  [lit "WARNING:iodb:lock: Cannot create new lock file. Timeout reached"].

(** [iodb.lock] (lines 417-451): the body of [while(True)], run at most
    [fuel] times.  [counter] is the loop's local counter; the value bound
    to [success] is what the method returns. *)
Fixpoint lock_loop (fuel : nat) (lockfilename : string)
    (repeat timeoutCounter counter : Z) : M pyvalue :=
  match fuel with
  | O => out_of_fuel
  | S fuel' =>
      let* present := os_path_exists lockfilename in
      let* success :=
        if present then ret (VBool false)
        else (os_mknod lockfilename ;; ret (VStr lockfilename)) in
      (* prepare for next loop *)
      if 0 <? repeat then
        if timeoutCounter <? counter then
          print timeout_warning ;;
          ret success
        else
          time_sleep_ms repeat ;;
          lock_loop fuel' lockfilename repeat timeoutCounter (counter + 1)
      else ret success
  end.

Definition lock (fuel : nat) (self : iodb) (suffix : string)
    (repeat timeoutCounter : Z) : M pyvalue :=
  let* drv := getattr "driver" (driver self) in
  if String.eqb drv "sqlite" then
    let* fname := getattr "_fname" (_fname self) in
    let lockfilename := fname +:+ suffix in
    lock_loop fuel lockfilename repeat timeoutCounter 0
  else ret VNone.

(** [iodb.release] (lines 453-472) *)
Definition release (self : iodb) (lockfilename : option string)
    (suffix : string) : M pyvalue :=
  let* drv := getattr "driver" (driver self) in
  if String.eqb drv "sqlite" then
    let* lockfilename :=
      match lockfilename with
      | None => let* fname := getattr "_fname" (_fname self) in ret (fname +:+ suffix)
      | Some name => ret name
      end in
    let* present := os_path_exists lockfilename in
    if present then os_remove lockfilename ;; ret (VBool true)
    else ret (VBool false)
  else ret VNone.

(** The text of ["{0}T{1}_{2}_{3}_{4}".format(...)] (line 322). *)
Definition unique_name_format (curDate curTime host : string) (pid counter : Z)
    : string :=
  curDate +:+ "T" +:+ curTime +:+ "_" +:+ host +:+ "_" +:+ str_of_Z pid
          +:+ "_" +:+ str_of_Z counter.

(** [iodb._getUniqueName] (lines 315-326): the name, and the object with
    its counter advanced. *)
Definition _getUniqueName (self : iodb) : M (string * iodb) :=
  let* host := socket_gethostname in
  let* pid := os_getpid in
  let* curDate := time_strftime "%Y-%m-%d" in
  let* curTime := time_strftime "%H%M" in
  let* counter := getattr "_counter" (_counter self) in
  let fname := unique_name_format curDate curTime host pid counter in
  ret (fname, set_counter (counter + 1) self).

(** [n] successive calls on one object; the environment may change
    arbitrarily between two calls, so each call gets its own. *)
Fixpoint allocate (self : iodb) (envs : list world)
    : outcome (list string * iodb) :=
  match envs with
  | [] => Return ([], self)
  | w :: envs' =>
      match _getUniqueName self w with
      | (Return (name, self'), _) =>
          match allocate self' envs' with
          | Return (names, self'') => Return (name :: names, self'')
          | Raise e => Raise e
          | OutOfFuel => OutOfFuel
          end
      | (Raise e, _) => Raise e
      | (OutOfFuel, _) => OutOfFuel
      end
  end.

(** *** Statement building *)

(** A [dict] with text keys: its items in iteration (insertion) order.
    Keys of a dict are pairwise distinct; the theorems that need it say
    so. *)
Definition pydict : Type := list (string * pyvalue).

Definition dict_keys (d : pydict) : list string := map fst d.

(** [d[key]] *)
Fixpoint dict_get (d : pydict) (key : string) : M pyvalue :=
  match d with
  | [] => raise (KeyError key)
  | (k, v) :: d' => if String.eqb k key then ret v else dict_get d' key
  end.

(** An element read back from a numpy array of fixed-width text has lost
    its trailing NUL code points. *)
Fixpoint rstrip_nul (s : string) : string :=
  match s with
  | EmptyString => EmptyString
  | String c rest =>
      match rstrip_nul rest with
      | EmptyString => if Ascii.eqb c Ascii.zero then EmptyString else String c EmptyString
      | rest' => String c rest'
      end
  end.

(** [np.sort(list(keys))], iterated: ascending in code-point order, which
    is [String.le]. *)
Definition np_sort (keys : list string) : list string :=
  merge_sort String.le (map rstrip_nul keys).

(** The loop of [appendType] (lines 555-557). *)
Fixpoint appendType_loop (self : iodb) (indict : pydict) (keys : list string)
    : M (list string) :=
  match keys with
  | [] => ret []
  | key :: keys' =>
      let* value := dict_get indict key in
      let* drv := getattr "driver" (driver self) in
      let* valtype := detectType self value drv in
      let column :=
        (quote +:+ key +:+ quote +:+ " "
         +:+ match valtype with Some t => t | None => "None" end)%string in
      let* parameterNames := appendType_loop self indict keys' in
      ret (column :: parameterNames)
  end.

(** [iodb.appendType] (lines 544-558) *)
Definition appendType (self : iodb) (indict : pydict)
    (useTypes sortBefore : bool) : M string :=
  let keys := dict_keys indict in
  let keys := if sortBefore then np_sort keys else keys in
  let* untyped :=
    if negb useTypes then
      let* drv := getattr "driver" (driver self) in ret (String.eqb drv "sqlite")
    else ret false in
  if untyped then ret (join ", " keys)
  else
    let* parameterNames := appendType_loop self indict keys in
    ret (join ", " parameterNames).

(** The statement text [createTable] composes (lines 622-636). *)
Definition createTable_query (self : iodb) (tablename : string)
    (indict : pydict) (useTypes : bool) (before after : string)
    (sortBefore : bool) : M string :=
  let* parameterNames := appendType self indict useTypes sortBefore in
  let* drv := getattr "driver" (driver self) in
  if String.eqb drv "sqlite" then
    ret ("CREATE TABLE IF NOT EXISTS " +:+ tablename +:+ " ("
         +:+ (before +:+ parameterNames +:+ after) +:+ ")")
  else if String.eqb drv "postgre" then
    let* rowid := getattr "_rowid" (_rowid self) in
    ret ("CREATE TABLE IF NOT EXISTS " +:+ tablename +:+ " ("
         +:+ rowid +:+ " SERIAL PRIMARY KEY, "
         +:+ (before +:+ parameterNames +:+ after) +:+ ")")
  else raise (UnboundLocalError "query").

(** [iodb.execute] hands the statement to the cursor; what the driver does
    with it is outside the module. *)
Definition execute (query : string) (params : list pyvalue) : M unit :=
  fun w => (Return tt, emit (EExecute query params) w).

(** [iodb.save] (lines 474-478) *)
Definition save (self : iodb) (unlock : bool) : M unit :=
  (fun w => (Return tt, emit ECommit w)) ;;
  if unlock then release self None ".lock" ;; ret tt else ret tt.

(** [iodb.createTable] (lines 602-643) on a started session. *)
Definition createTable (self : iodb) (tablename : string) (indict : pydict)
    (useTypes save_ : bool) (before after : string) (verbose sortBefore : bool)
    : M unit :=
  let* query :=
    createTable_query self tablename indict useTypes before after sortBefore in
  (if verbose then print [Msg "{}" [AStr query]] else ret tt) ;;
  execute query [] ;;
  if save_ then save self false else ret tt.

End Iodb.
Export Iodb.

(** ** Array adapters *)

(** [io.BytesIO]: a growable byte buffer with a read/write position. *)
Module BytesIO.

Record t := Make { buffer : list byte; position : nat }.

(** [io.BytesIO(initial)] *)
Definition new (initial : list byte) : t := Make initial 0.

(** [f.write(chunk)]: overwrites from the position on, zero-filling a gap
    when the position lies beyond the end. *)
Definition write (f : t) (chunk : list byte) : t :=
  let gap := replicate (position f - length (buffer f))%nat x00 in
  Make (take (position f) (buffer f) ++ gap ++ chunk
        ++ drop (position f + length chunk)%nat (buffer f))
       (position f + length chunk)%nat.

(** [f.seek(offset)] *)
Definition seek (f : t) (offset : nat) : t := Make (buffer f) offset.

(** [f.read()]: everything from the position to the end. *)
Definition read (f : t) : list byte * t :=
  (drop (position f) (buffer f),
   Make (buffer f) (Nat.max (position f) (length (buffer f)))).

End BytesIO.

(** A cursor of the driver, as psycopg2 hands it to a typecaster. *)
Inductive cursor := Cursor (name : string).

Section Adapters.

(** numpy, gzip and the codecs of the interpreter and of psycopg2 are
    libraries the module calls; what they compute is taken as given. *)

(** the byte stream [np.save] writes for an array *)
Variable npy_dumps : ndarray -> list byte.
(** what [np.load] makes of a byte stream *)
Variable npy_loads : list byte -> outcome ndarray.
(** the content [gzip.open(path, "rb")] yields for the raw file bytes *)
Variable gzip_decompress : list byte -> outcome (list byte).
(** [bytes.decode("utf-8")] *)
Variable utf8_decode : list byte -> outcome string.
(** the typecasters [psycopg2.BINARY] and [psycopg2.STRING] *)
Variable pg_BINARY : pyvalue -> cursor -> outcome pyvalue.
Variable pg_STRING : pyvalue -> cursor -> outcome pyvalue.

Definition lift {A} (o : outcome A) : M A := fun w => (o, w).

(** [np.save(file, arr)] on a file object *)
Definition np_save (file : BytesIO.t) (arr : ndarray) : BytesIO.t :=
  BytesIO.write file (npy_dumps arr).

(** [np.load(file)] on a file object: parses from the position on *)
Definition np_load (file : BytesIO.t) : M pyvalue :=
  let* a := lift (npy_loads (fst (BytesIO.read file))) in ret (VNdarray a).

(** [iodb._adapt_array] (lines 252-257) *)
Definition _adapt_array (self : iodb) (arr : ndarray) : M pyvalue :=
  let out := BytesIO.new [] in
  let out := np_save out arr in
  let out := BytesIO.seek out 0 in
  let* sql := getattr "sql" (driver self) in
  let blob := fst (BytesIO.read out) in
  (* self.sql.Binary: memoryview for sqlite3, an adapter for psycopg2 *)
  if String.eqb sql "sqlite" then ret (VBytes blob)
  else ret (VPgBinary blob).

(** [io.BytesIO(value)]: [None] gives an empty buffer, anything that is
    not bytes-like is refused. *)
Definition BytesIO_of (value : pyvalue) : M BytesIO.t :=
  match value with
  | VNone => ret (BytesIO.new [])
  | VBytes b => ret (BytesIO.new b)
  | _ => raise (TypeError (Msg "a bytes-like object is required, not '{}'"
                               [AType (type_of value)]))
  end.

(** [iodb._typecast_array] (lines 259-269) *)
Definition _typecast_array (self : iodb) (value : pyvalue)
    (cur : option cursor) : M pyvalue :=
  if is_None value && bool_decide (is_Some cur) then ret VNone
  else
    let* value :=
      match cur with
      | Some c =>
          let* sql := getattr "sql" (driver self) in
          if String.eqb sql "postgre" then lift (pg_BINARY value c)
          else raise (AttributeError "BINARY")
      | None => ret value
      end in
    let* bdata := BytesIO_of value in
    let bdata := BytesIO.seek bdata 0 in
    np_load bdata.

(** [self._spath + value + ".npy"]: concatenation needs text. *)
Definition as_text (value : pyvalue) : M string :=
  match value with
  | VStr s => ret s
  | _ => raise (TypeError (Msg "can only concatenate str (not {!r}) to str"
                               [AType (type_of value)]))
  end.

(** Lines 299-302 of [_typecast_array_ext]: the text of the reference. *)
Definition _typecast_array_ext_value (self : iodb) (value : pyvalue)
    (cur : option cursor) : M pyvalue :=
  match cur with
  | Some c =>                                  (* so it is a postgres database *)
      let* sql := getattr "sql" (driver self) in
      if String.eqb sql "postgre" then lift (pg_STRING value c)
      else raise (AttributeError "STRING")
  | None =>
      match value with
      | VBytes b => let* s := lift (utf8_decode b) in ret (VStr s)
      | _ => raise (AttributeError "decode")
      end
  end.

(** Lines 304-313 of [_typecast_array_ext]: from the reference to the
    array. *)
Definition _typecast_array_ext_load (self : iodb) (value : pyvalue)
    : M pyvalue :=
  let* name := as_text value in
  let fname := (_spath self +:+ name +:+ ".npy")%string in
  let* zipped :=
    if loadZipped self then os_path_isfile (fname +:+ ".gz") else ret false in
  if zipped then
    let* raw := read_file (fname +:+ ".gz") in
    let* content := lift (gzip_decompress raw) in
    let* out := lift (npy_loads content) in
    ret (VNdarray out)
  else
    let* plain := os_path_isfile fname in
    if plain then
      let* content := read_file fname in
      let* out := lift (npy_loads content) in
      ret (VNdarray out)
    else
      raise (FileNotFoundError
               (Msg "No such file or directory '{0}'" [AStr fname])).

(** [iodb._typecast_array_ext] (lines 294-313) *)
Definition _typecast_array_ext (self : iodb) (value : pyvalue)
    (cur : option cursor) : M pyvalue :=
  if is_None value && bool_decide (is_Some cur) then ret VNone
  else
    let* value := _typecast_array_ext_value self value cur in
    _typecast_array_ext_load self value.

End Adapters.


(** * Vocabulary of the properties *)

(** A started sqlite session, a postgres session and an environment with
    both optional imports enabled, for the concrete instances below. *)
Definition sqlite_session : iodb :=
  Iodb (Some "sqlite"%string)
       (Some "timestamp datetime default current_timestamp"%string)
       (Some "rowid"%string) (Some "ARRAY"%string) (Some "ARRAY_EXT"%string)
       false "intern" "./" None None (Some "./db.sqlite"%string).

Definition postgres_session : iodb :=
  Iodb (Some "postgre"%string)
       (Some "timestamp timestamp default current_timestamp"%string)
       (Some "oid"%string) (Some "BYTEA"%string) (Some "TEXT"%string)
       false "intern" "./" None None None.

Definition world0 : world :=
  World true true ∅ "hostA" 123 (Tm 2024 1 1 9 30) [].

(** A computation whose answer is the same in every environment. *)
Definition steady {A} (m : M A) : Prop := forall w w', fst (m w) = fst (m w').

(** The three results of the advisory lock, read off what [lock] returns
    and prints: the name of the lock file it created; [False]; [False]
    with the timeout warning. *)
Inductive lock_result := Acquired | Busy | TimeoutExceeded.

Definition is_timeout_warning (e : event) : bool :=
  match e with
  | EPrint [Msg text []] =>
      String.eqb text "WARNING:iodb:lock: Cannot create new lock file. Timeout reached"
  | _ => false
  end.

Definition is_probe (e : event) : bool :=
  match e with EExists _ => true | _ => false end.

Definition is_sleep (e : event) : bool :=
  match e with ESleep _ => true | _ => false end.

Definition lock_result_of (returned : pyvalue) (trace : list event)
    : option lock_result :=
  match returned with
  | VStr _ => Some Acquired
  | VBool false =>
      Some (if existsb is_timeout_warning trace then TimeoutExceeded else Busy)
  | _ => None
  end.

(** Polling a lock that stays held: [rounds] times a probe and a sleep,
    then the probe at which the counter has passed the bound, and the
    warning. *)
Definition poll_trace (path : string) (repeat : Z) (rounds : nat) : list event :=
  concat (replicate rounds [EExists path; ESleep repeat])
  ++ [EExists path; EPrint timeout_warning].

(** The world after [lock] created the marker file at its first probe. *)
Definition created (path : string) (w : world) : world :=
  emit (EMknod path) (set_fs (<[path := RegularFile []]> (fs w)) (emit (EExists path) w)).

(** The name the allocator composes in environment [w] at counter value
    [counter]. *)
Definition name_in (w : world) (counter : Z) : string :=
  unique_name_format (strftime_at "%Y-%m-%d" (localtime w))
                     (strftime_at "%H%M" (localtime w))
                     (hostname w) (pid w) counter.

(** [n] consecutive counter values from [c] on. *)
Fixpoint count_from (c : Z) (n : nat) : list Z :=
  match n with
  | O => []
  | S n' => c :: count_from (c + 1) n'
  end.

(** Whether character [c] occurs in [s]. *)
Fixpoint mentions (c : ascii) (s : string) : bool :=
  match s with
  | EmptyString => false
  | String a rest => Ascii.eqb a c || mentions c rest
  end.

(** The text after the last underscore (all of it when there is none). *)
Fixpoint last_field (s : string) : string :=
  match s with
  | EmptyString => EmptyString
  | String a rest =>
      if mentions "_" rest then last_field rest
      else if Ascii.eqb a "_" then rest else s
  end.

(** A session with external storage, as [__init__] leaves it. *)
Definition extern_session : iodb :=
  Iodb (Some "sqlite"%string)
       (Some "timestamp datetime default current_timestamp"%string)
       (Some "rowid"%string) (Some "ARRAY"%string) (Some "ARRAY_EXT"%string)
       false "extern" "./" (Some 1) (Some "2024-01-01/"%string) None.

(** An environment in which the optional imports are in force. *)
Definition imports_enabled (w : world) : Prop :=
  os_imported w = true /\ socket_imported w = true.

(** [os.path.isfile] as a property of the environment. *)
Definition isfile (w : world) (path : string) : bool :=
  match fs w !! path with Some (RegularFile _) => true | _ => false end.

(** What [np.load] returns, as a Python value. *)
Definition as_array (o : outcome ndarray) : outcome pyvalue :=
  match o with
  | Return a => Return (VNdarray a)
  | Raise e => Raise e
  | OutOfFuel => OutOfFuel
  end.

Definition and_then {A B} (o : outcome A) (k : A -> outcome B) : outcome B :=
  match o with
  | Return a => k a
  | Raise e => Raise e
  | OutOfFuel => OutOfFuel
  end.

(** The array byte format, after section 4.1 of the specification. *)
Module Npy.

(** Element types the codec can materialize, with their width in bytes. *)
Definition dtypes : list (string * nat) :=
  [("|b1", 1); ("|i1", 1); ("|u1", 1); ("<i2", 2); ("<u2", 2); ("<i4", 4);
   ("<u4", 4); ("<i8", 8); ("<u8", 8); ("<f2", 2); ("<f4", 4); ("<f8", 8);
   ("<c8", 8); ("<c16", 16)]%string%nat.

Fixpoint assoc (key : string) (table : list (string * nat)) : option nat :=
  match table with
  | [] => None
  | (k, v) :: table' => if String.eqb k key then Some v else assoc key table'
  end.

Definition itemsize (descr : string) : option nat := assoc descr dtypes.

(** The number of elements of a shape; one for the shape [()]. *)
Definition element_count (dims : list nat) : nat := fold_right Nat.mul 1%nat dims.

(** Magic string and version 1.0. *)
Definition magic : list byte := [x93; x4e; x55; x4d; x50; x59; x01; x00].

Definition dim_text (n : nat) : string := str_of_Z (Z.of_nat n).

Fixpoint more_dims (dims : list nat) : string :=
  match dims with
  | [] => ""
  | n :: rest => String "," (" " +:+ dim_text n +:+ more_dims rest)
  end.

(** The text of a tuple of dimensions between its parentheses: nothing,
    ["4,"], ["2, 3"]. *)
Definition shape_text (dims : list nat) : string :=
  match dims with
  | [] => ""
  | [n] => dim_text n +:+ ","
  | n :: rest => dim_text n +:+ more_dims rest
  end.

Definition order_text (fortran : bool) : string :=
  if fortran then "True" else "False".

Definition padding (used : nat) : string :=
  String.concat "" (replicate ((64 - used mod 64) mod 64) " "%string).

(** The descriptor block: dtype, order flag and shape as a dictionary
    literal, padded with spaces so that with the ten bytes before it and
    the closing newline it ends on a 64-byte boundary. *)
Definition header (a : ndarray) : string :=
  let used :=
    (10 + String.length ("{'descr': '" +:+ dtype a +:+ "', 'fortran_order': "
                         +:+ order_text (fortran_order a) +:+ ", 'shape': ("
                         +:+ shape_text (shape a) +:+ "), }") + 1)%nat in
  "{'descr': '" +:+ dtype a
  +:+ String "'" (", 'fortran_order': " +:+ order_text (fortran_order a)
  +:+ String "," (" 'shape': (" +:+ shape_text (shape a)
  +:+ String ")" (", }" +:+ padding used +:+ String "010" EmptyString))).

Definition le16 (n : nat) : list byte :=
  [default x00 (Byte.of_nat (n mod 256)); default x00 (Byte.of_nat (n / 256))].

(** Modelled from the spec: the byte stream [np.save] writes, which is
    numpy's and not part of the repository.  Section 4.1: a fixed
    magic+version prefix, then a textual descriptor block (element dtype,
    shape tuple, order flag) padded to a fixed alignment boundary, followed
    by the raw element bytes. *)
Definition dumps (a : ndarray) : list byte :=
  magic ++ le16 (String.length (header a))
        ++ list_byte_of_string (header a) ++ data a.

(** [expect text s]: [s] without its prefix [text]. *)
Fixpoint expect (text s : string) : option string :=
  match text with
  | EmptyString => Some s
  | String c text' =>
      match s with
      | String a s' => if Ascii.eqb a c then expect text' s' else None
      | EmptyString => None
      end
  end.

(** [until stop s]: the text before the first [stop], and the text after
    it. *)
Fixpoint until (stop : ascii) (s : string) : option (string * string) :=
  match s with
  | EmptyString => None
  | String a rest =>
      if Ascii.eqb a stop then Some (EmptyString, rest)
      else match until stop rest with
           | Some (before, after) => Some (String a before, after)
           | None => None
           end
  end.

Fixpoint split_on (stop : ascii) (s : string) : list string :=
  match s with
  | EmptyString => [EmptyString]
  | String a rest =>
      if Ascii.eqb a stop then EmptyString :: split_on stop rest
      else match split_on stop rest with
           | first :: others => String a first :: others
           | [] => [String a EmptyString]
           end
  end.

Fixpoint lstrip (s : string) : string :=
  match s with
  | String a rest => if Ascii.eqb a " " then lstrip rest else s
  | EmptyString => EmptyString
  end.

Definition parse_dim (s : string) : option nat :=
  (fun d => Z.to_nat (Z.of_int d)) <$> NilZero.int_of_string (lstrip s).

Definition parse_shape (s : string) : option (list nat) :=
  mapM parse_dim
       (List.filter (fun t => negb (String.eqb (lstrip t) "")) (split_on "," s)).

Definition parse_order (s : string) : option bool :=
  if String.eqb s "True" then Some true
  else if String.eqb s "False" then Some false else None.

Definition parse_header (head : string) : option (string * bool * list nat) :=
  s ← expect "{'descr': '" head;
  '(descr, s) ← until "'" s;
  s ← expect ", 'fortran_order': " s;
  '(order, s) ← until "," s;
  fortran ← parse_order order;
  s ← expect " 'shape': (" s;
  '(dims, s) ← until ")" s;
  dims ← parse_shape dims;
  _ ← expect ", }" s;
  Some (descr, fortran, dims).

(** Modelled from the spec: what [np.load] makes of a byte stream, which is
    numpy's and not part of the repository.  Section 4.1: validates
    magic+version ([FormatError] on mismatch), parses the descriptor
    ([UnsupportedDtypeError] for an element type it cannot materialize),
    and copies the bytes of the declared shape verbatim. *)
Definition loads (b : list byte) : outcome ndarray :=
  if String.eqb (string_of_list_byte (take 8 b)) (string_of_list_byte magic) then
    match drop 8 b with
    | lo :: hi :: rest =>
        let hlen := (Byte.to_nat lo + 256 * Byte.to_nat hi)%nat in
        match parse_header (string_of_list_byte (take hlen rest)) with
        | Some (descr, fortran, dims) =>
            match itemsize descr with
            | Some width =>
                let body := drop hlen rest in
                let size := (element_count dims * width)%nat in
                if (length body <? size)%nat then Raise FormatError
                else Return (Ndarray descr dims fortran (take size body))
            | None => Raise UnsupportedDtypeError
            end
        | None => Raise FormatError
        end
    | _ => Raise FormatError
    end
  else Raise FormatError.

(** The arrays the codec supports: a known element type, as many element
    bytes as the shape and the element width require, and a descriptor
    that fits the 16-bit length field. *)
Definition supported (a : ndarray) : Prop :=
  (exists width, itemsize (dtype a) = Some width
                 /\ length (data a) = (element_count (shape a) * width)%nat)
  /\ (String.length (header a) < 256 * 256)%nat.

End Npy.

(** Sample arrays: four 64-bit integers, a zero-length array, a
    0-dimensional array and a column-major matrix of bytes. *)
Definition pi_digits : ndarray :=
  Ndarray "<i8" [4%nat] false
    [x03;x00;x00;x00;x00;x00;x00;x00; x01;x00;x00;x00;x00;x00;x00;x00;
     x04;x00;x00;x00;x00;x00;x00;x00; x01;x00;x00;x00;x00;x00;x00;x00].
Definition empty_array : ndarray := Ndarray "<f8" [0%nat] false [].
Definition scalar_array : ndarray :=
  Ndarray "<f8" [] false [x00;x00;x00;x00;x00;x00;xf0;x3f].
Definition matrix_array : ndarray :=
  Ndarray "|u1" [2%nat; 3%nat] true [x01;x02;x03;x04;x05;x06].


(** Stand-ins for the other library functions: text that is plain ASCII,
    no gzip support, and typecasters that hand the value through. *)
Definition ascii_decode (b : list byte) : outcome string :=
  Return (string_of_list_byte b).

Definition gzip_unsupported (raw : list byte) : outcome (list byte) :=
  Raise (OSError (lit "Not a gzipped file")).

Definition pg_identity (value : pyvalue) (c : cursor) : outcome pyvalue :=
  Return value.

(** The reference the specification uses in its external round trip. *)
Definition sample_reference : string := "2024-01-01/2024-01-01T0930_hostA_123_1".

(** An environment that holds the sample array under the sample
    reference. *)
Definition world_with_sample : world :=
  World true true
        {[ ("./" +:+ sample_reference +:+ ".npy")%string
           := RegularFile (Npy.dumps pi_digits) ]}
        "hostA" 123 (Tm 2024 1 1 9 30) [].

(** * Further methods of the module *)

(** ** Writing an array to a file: [_adapt_array_ext] *)

(** [s.endswith(suffix)] *)
Fixpoint endswith (s suffix : string) : bool :=
  String.eqb s suffix
  || match s with
     | String _ rest => endswith rest suffix
     | EmptyString => false
     end.

(** The directory a path lies in: the text up to and including its last
    slash, nothing for a bare file name. *)
Fixpoint dirname (path : string) : string :=
  match path with
  | EmptyString => EmptyString
  | String a rest =>
      if mentions "/" rest || Ascii.eqb a "/" then String a (dirname rest)
      else EmptyString
  end.

(** [open(path, "wb")]: creates the file or empties it.  The directory of
    the path has to exist; a bare file name lies in the working
    directory. *)
Definition open_wb (path : string) : M unit :=
  fun w =>
    let dir := dirname path in
    let present := match fs w !! dir with Some Directory => true | _ => false end in
    if String.eqb dir "" || present then write_file path [] w
    else (Raise (FileNotFoundError (Msg "No such file or directory: '{}'" [AStr path])),
          emit (EWriteFile path) w).

(** What the driver-level registration functions are given: one of the
    two adapters, one of the two converters. *)
Inductive adapter := Adapt_array | Adapt_array_ext.

Inductive converter := Typecast_array | Typecast_array_ext.

(** The type codes a psycopg2 typecaster is registered for:
    [BINARY.values] or [STRING.values]. *)
Inductive pg_codes := BINARY_values | STRING_values.

(** The registrations of the two driver modules, which are global to the
    process; the latest registration comes first and is the one in
    force. *)
Record registry := Registry {
  sqlite_adapters : list (pyclass * adapter);
  sqlite_converters : list (string * converter);
  pg_adapters : list (pyclass * adapter);
  pg_types : list (pg_codes * string * converter)
}.

Definition no_registrations : registry := Registry [] [] [] [].

(** The adapter in force for the values of a class. *)
Definition adapter_for (cls : pyclass) (table : list (pyclass * adapter))
    : option adapter :=
  snd <$> List.find (fun entry => bool_decide (fst entry = cls)) table.

(** The converter in force for a declared column type. *)
Definition converter_for (typeName : string) (table : list (string * converter))
    : option converter :=
  snd <$> List.find (fun entry => String.eqb (fst entry) typeName) table.

(** [iodb._setAdapterOut_intern] (lines 217-222) and
    [iodb._setAdapterOut_extern] (lines 224-229), which differ in the
    adapter they register. *)
Definition _setAdapterOut (which : adapter) (self : iodb) (blob : pyclass)
    (reg : registry) : outcome registry :=
  match driver self with
  | None => Raise (AttributeError "driver")
  | Some drv =>
      if String.eqb drv "sqlite" then
        Return (Registry ((blob, which) :: sqlite_adapters reg)
                         (sqlite_converters reg) (pg_adapters reg) (pg_types reg))
      else if String.eqb drv "postgre" then
        Return (Registry (sqlite_adapters reg) (sqlite_converters reg)
                         ((blob, which) :: pg_adapters reg) (pg_types reg))
      else Return reg
  end.

Definition _setAdapterOut_intern := _setAdapterOut Adapt_array.

Definition _setAdapterOut_extern := _setAdapterOut Adapt_array_ext.

(** [iodb._setAdapterIn_intern] (lines 231-239) and
    [iodb._setAdapterIn_extern] (lines 241-250): a converter by type name
    for sqlite, a typecaster for the binary or the text type codes for
    postgres. *)
Definition _setAdapterIn (which : converter) (codes : pg_codes) (self : iodb)
    (typeName : string) (reg : registry) : outcome registry :=
  match driver self with
  | None => Raise (AttributeError "driver")
  | Some drv =>
      if String.eqb drv "sqlite" then
        Return (Registry (sqlite_adapters reg)
                         ((typeName, which) :: sqlite_converters reg)
                         (pg_adapters reg) (pg_types reg))
      else if String.eqb drv "postgre" then
        Return (Registry (sqlite_adapters reg) (sqlite_converters reg)
                         (pg_adapters reg)
                         ((codes, typeName, which) :: pg_types reg))
      else Return reg
  end.

Definition _setAdapterIn_intern := _setAdapterIn Typecast_array BINARY_values.

Definition _setAdapterIn_extern := _setAdapterIn Typecast_array_ext STRING_values.

(** Reading [self._arrayType] or [self._arrayType_ext] for a
    registration. *)
Definition attribute {A} (name : string) (field : option A) : outcome A :=
  match field with
  | Some a => Return a
  | None => Raise (AttributeError name)
  end.

(** [iodb._setAdapters] (lines 200-215) *)
Definition _setAdapters (self : iodb) (storage : string) (reg : registry)
    : outcome registry :=
  if String.eqb storage "extern" then
    (* Register the external adapter for storing a numpy object as a file *)
    and_then (attribute "_arrayType" (_arrayType self)) (fun arrayType =>
    and_then (_setAdapterIn_extern self arrayType reg) (fun reg =>
    and_then (_setAdapterOut_extern self C_np_ndarray reg) (fun reg =>
    and_then (attribute "_arrayType_ext" (_arrayType_ext self)) (fun arrayType_ext =>
    _setAdapterIn_extern self arrayType_ext reg))))             (* Just to be sure *)
  else if String.eqb storage "mixed" then
    and_then (attribute "_arrayType_ext" (_arrayType_ext self)) (fun arrayType_ext =>
    and_then (_setAdapterIn_extern self arrayType_ext reg) (fun reg =>
    and_then (_setAdapterOut_extern self C_ndarray_ext reg) (fun reg =>
    and_then (attribute "_arrayType" (_arrayType self)) (fun arrayType =>
    and_then (_setAdapterIn_intern self arrayType reg) (fun reg =>
    _setAdapterOut_intern self C_np_ndarray reg)))))
  else if String.eqb storage "intern" || String.eqb storage "mixed" then
    (* Register the internal adapter for storing a numpy object directly as a BLOB *)
    and_then (attribute "_arrayType" (_arrayType self)) (fun arrayType =>
    and_then (_setAdapterIn_intern self arrayType reg) (fun reg =>
    _setAdapterOut_intern self C_np_ndarray reg))
  else Return reg.

Section Writers.

(** the byte stream [np.save] writes for an array *)
Variable npy_dumps : ndarray -> list byte.
(** [np.asanyarray] on a value that is not an array yet *)
Variable np_asanyarray : pyvalue -> outcome ndarray.
(** what [psycopg2.extensions.adapt] wraps a text in *)
Variable pg_adapt : string -> pyvalue.

(** [np.save(file, arr)] on a file name: the extension is added unless it
    is there, the file is opened, then the value is converted and
    written. *)
Definition np_save_file (file : string) (arr : pyvalue) : M unit :=
  let file := if endswith file ".npy" then file else (file +:+ ".npy")%string in
  open_wb file ;;
  let* a := match arr with
            | VNdarray a => ret a
            | _ => lift (np_asanyarray arr)
            end in
  write_file file (npy_dumps a).

(** [iodb._adapt_array_ext] (lines 271-292).  No method sets
    [self.binaryNames] (line 666 is a comment); a caller may: the attribute
    is carried beside the object, [None] when it is not there.  The result
    is the reference to bind, the object with its counter and the names
    left. *)
Definition _adapt_array_ext (self : iodb) (binaryNames : option (list string))
    (arr : pyvalue) : M (pyvalue * iodb * option (list string)) :=
  let arr := match arr with VNdarrayExt data => data | _ => arr end in
  (* Get the filename from the class variable `binaryNames` or create one *)
  let* chosen :=
    match binaryNames with
    | Some (first :: rest) => ret (first, self, Some rest)
    | _ => let* named := _getUniqueName self in
           ret (fst named, snd named, binaryNames)
    end in
  let fname := fst (fst chosen) in
  let self := snd (fst chosen) in
  let binaryNames := snd chosen in
  (* Save the file to the filesystem *)
  let* folder := getattr "_folder" (_folder self) in
  np_save_file ((_spath self +:+ folder) +:+ fname) arr ;;
  let* drv := getattr "driver" (driver self) in
  if String.eqb drv "sqlite" then
    ret (VStr (folder +:+ fname), self, binaryNames)
  else
    ret (pg_adapt (folder +:+ fname), self, binaryNames).

End Writers.

(** ** Inserting a record: [insertInto] *)

(** [[indict[key] for key in keys]] *)
Fixpoint dict_values (indict : pydict) (keys : list string) : M (list pyvalue) :=
  match keys with
  | [] => ret []
  | key :: keys' =>
      let* value := dict_get indict key in
      let* values := dict_values indict keys' in
      ret (value :: values)
  end.

(** The statement [insertInto] composes for sqlite (lines 674-676). *)
Definition insert_sqlite (tablename : string) (keys : list string) : string :=
  let keys_sqlsafe := map (fun i => quote +:+ i +:+ quote)%string keys in
  let questionmarks := join ", " (replicate (length keys) "?"%string) in
  ("insert into " +:+ tablename +:+ " (" +:+ join ", " keys_sqlsafe
   +:+ ") values (" +:+ questionmarks +:+ ")")%string.

(** The statement [insertInto] composes for the other driver (lines
    684-686). *)
Definition insert_returning (tablename : string) (keys : list string)
    (rowid : string) : string :=
  let keys_sqlsafe := map (fun i => quote +:+ i +:+ quote)%string keys in
  let nomarks := join ", " (replicate (length keys) "%s"%string) in
  ("insert into " +:+ tablename +:+ " (" +:+ join ", " keys_sqlsafe
   +:+ ") values (" +:+ nomarks +:+ ") returning " +:+ rowid)%string.

(** [iodb.insertInto] (lines 645-698) on a started session.  The row
    identifier is the driver's: [reported] stands for [self.cur.lastrowid]
    and for [self.cur.fetchone()[0]]. *)
Definition insertInto (self : iodb) (tablename : string) (indict : pydict)
    (save_ verbose returnLastRow : bool) (reported : pyvalue) : M pyvalue :=
  let keys := dict_keys indict in
  let* values := dict_values indict keys in
  let* drv := getattr "driver" (driver self) in
  (if String.eqb drv "sqlite" then
     let query := insert_sqlite tablename keys in
     (if verbose then print [Msg "{}" [AStr query]] else ret tt) ;;
     execute query values
   else
     let* rowid := getattr "_rowid" (_rowid self) in
     let query := insert_returning tablename keys rowid in
     (if verbose then print [Msg "{}" [AStr query]] else ret tt) ;;
     execute query values) ;;
  (if save_ then save self false else ret tt) ;;
  if returnLastRow then ret reported else ret VNone.

(** ** Deleting rows and their files: [sqliteConnection.delete] *)

(** The subclass of [sqlite3.Connection] (lines 72-102). *)
Module sqliteConnection.

(** [fname + ".npy"] for a value of the result set. *)
Definition with_npy (fname : pyvalue) : M string :=
  match fname with
  | VStr s => ret (s +:+ ".npy")%string
  | _ => raise (TypeError (Msg "unsupported operand type(s) for +: '{}' and 'str'"
                               [AType (type_of fname)]))
  end.

(** The loop of [delete] (lines 93-98). *)
Fixpoint delete_files (fnames : list pyvalue) : M unit :=
  match fnames with
  | [] => ret tt
  | fname :: rest =>
      let* path := with_npy fname in
      let* present := os_path_exists path in
      (if present then os_remove path
       else
         print [Msg "delete: No such file: '{}'" [AStr path]] ;;
         print [lit "delete: The db record will be deleted anyway"]) ;;
      delete_files rest
  end.

(** [sqliteConnection.delete] (lines 76-102).  [fetched] is what the
    cursor's [fetchall()] returns for the SELECT. *)
Definition delete (file_cols db_from db_filter : string)
    (fetched : list (list pyvalue)) : M unit :=
  (* Get a list of all files *)
  execute ("SELECT " +:+ file_cols +:+ " from " +:+ db_from
           +:+ " WHERE " +:+ db_filter) [] ;;
  let fnames := concat fetched in
  print [Msg "{}" [AVal (VList fnames)]] ;;
  (* delete the files *)
  delete_files fnames ;;
  (* delete the database entries *)
  print [lit "delete: Remember to commit() the changes to the database"] ;;
  execute ("DELETE FROM " +:+ db_from +:+ " WHERE " +:+ db_filter) [].

End sqliteConnection.

(** * Vocabulary of the further properties *)

(** A computation that does nothing but print: whatever the environment,
    it ends with a value or an exception and leaves the environment as it
    was up to lines added to the output. *)
Definition printing {A} (m : M A) : Prop :=
  forall w, exists printed : list (list message),
    snd (m w) = emits (map EPrint printed) w /\ fst (m w) <> OutOfFuel.

(** Which converter reads what an adapter wrote. *)
Definition reads_back (a : adapter) (c : converter) : bool :=
  match a, c with
  | Adapt_array, Typecast_array => true
  | Adapt_array_ext, Typecast_array_ext => true
  | _, _ => false
  end.

(** A type name or an exception, never [None]. *)
Definition answers {A} (m : M (option A)) : Prop :=
  forall w, (exists t, fst (m w) = Return (Some t)) \/ (exists e, fst (m w) = Raise e).

(** Whether a path names a regular file. *)
Definition isfile_in (files : gmap string fnode) (path : string) : bool :=
  match files !! path with Some (RegularFile _) => true | _ => false end.

(** [after] is [before] with at most one new entry: an empty regular file
    at [path]. *)
Definition adds_marker (path : string) (before after : gmap string fnode) : Prop :=
  forall p, after !! p = before !! p
            \/ (p = path /\ before !! p = None /\ after !! p = Some (RegularFile [])).

(** [after] is [before] with at most one entry gone: the regular file at
    [path]. *)
Definition drops_file (path : string) (before after : gmap string fnode) : Prop :=
  forall p, after !! p = before !! p
            \/ (p = path /\ isfile_in before p = true /\ after !! p = None).

(** Whether an event hands a statement to the driver. *)
Definition is_execute (e : event) : bool :=
  match e with EExecute _ _ => true | _ => false end.

(** The environment after a regular file was created or overwritten. *)
Definition written (path : string) (content : list byte) (w : world) : world :=
  emit (EWriteFile path) (set_fs (<[path := RegularFile content]> (fs w)) w).

(** Where the array stored at counter value [counter] goes: storage path,
    folder, allocated name, and the extension [np.save] appends. *)
Definition target_of (self : iodb) (folder : string) (w : world) (counter : Z)
    : string :=
  (((_spath self +:+ folder) +:+ name_in w counter) +:+ ".npy")%string.

(** The environment of the module as it is checked in: lines 50 and 51,
    [import socket] and [import os], are comments, so neither name is
    bound. *)
Definition shipped_world : world :=
  World false false ∅ "hostA" 123 (Tm 2024 1 1 9 30) [].

(** What the constructor prints for a driver name it does not know (lines
    177-178). *)
Definition unknown_driver_report (drv : string) : event :=
  EPrint [Msg "Unknown database driver '{0}'. Possible driver are {1}"
              [AStr drv; AVal (VList [VStr "sqlite"; VStr "postgre"])]].

(** A computation that does the same in every environment: it gives one
    answer and adds the same lines to the output, and touches nothing
    else. *)
Definition scripted {A} (m : M A) : Prop :=
  exists (answer : outcome A) (printed : list (list message)),
    forall w, m w = (answer, emits (map EPrint printed) w).

(** One entry of the column list: the quoted name and the type name,
    [None] printed as Python prints it. *)
Definition type_text (valtype : option string) : string :=
  match valtype with Some t => t | None => "None" end.

Definition column (key : string) (valtype : option string) : string :=
  (quote +:+ key +:+ quote +:+ " " +:+ type_text valtype)%string.

(** * Properties *)

(** ** Running the monad *)

Lemma emit_emits e w : emit e w = emits [e] w.
Proof. reflexivity. Qed.

Lemma emits_emits es1 es2 w : emits es2 (emits es1 w) = emits (es1 ++ es2) w.
Proof. unfold emits; simpl. by rewrite <- app_assoc. Qed.

Lemma emits_nil w : emits [] w = w.
Proof. destruct w; unfold emits; simpl. by rewrite app_nil_r. Qed.

Lemma bind_ret {A B} (a : A) (k : A -> M B) w : bind (ret a) k w = k a w.
Proof. reflexivity. Qed.

Lemma bind_return {A B} (m : M A) (k : A -> M B) w a w' :
  m w = (Return a, w') -> bind m k w = k a w'.
Proof. unfold bind. by intros ->. Qed.

Lemma bind_inv {A B} (m : M A) (k : A -> M B) w b w' :
  bind m k w = (Return b, w') ->
  exists a w1, m w = (Return a, w1) /\ k a w1 = (Return b, w').
Proof.
  unfold bind. destruct (m w) as [[a | e |] w1]; try discriminate. eauto.
Qed.

Lemma bind_raise {A B} (m : M A) (k : A -> M B) w e w' :
  m w = (Raise e, w') -> bind m k w = (Raise e, w').
Proof. unfold bind. by intros ->. Qed.

Example strftime_date :
  strftime_at "%Y-%m-%d" (Tm 2024 1 1 9 30) = "2024-01-01"%string.
Proof. reflexivity. Qed.

Example strftime_time :
  strftime_at "%H%M" (Tm 2024 1 1 9 30) = "0930"%string.
Proof. reflexivity. Qed.

Example init_sqlite_intern :
  fst (__init__ "sqlite" "intern" "./" false false world0)
  = Return (Iodb (Some "sqlite"%string)
                 (Some "timestamp datetime default current_timestamp"%string)
                 (Some "rowid"%string) (Some "ARRAY"%string)
                 (Some "ARRAY_EXT"%string) false "intern" "./" None None None).
Proof. reflexivity. Qed.

(** ** Text *)

Lemma string_app_cons x (a b : string) : String x a +:+ b = String x (a +:+ b).
Proof. reflexivity. Qed.

Lemma string_app_assoc (a b c : string) : (a +:+ b) +:+ c = a +:+ (b +:+ c).
Proof.
  induction a as [|x a IH]; [done |]. rewrite !string_app_cons. by rewrite IH.
Qed.

Lemma string_app_empty (s : string) : s +:+ "" = s.
Proof.
  induction s as [|a s IH]; [done |]. rewrite string_app_cons. by rewrite IH.
Qed.

Lemma mentions_app c (a b : string) :
  mentions c (a +:+ b) = mentions c a || mentions c b.
Proof.
  induction a as [|x a IH]; [done |]. rewrite string_app_cons. simpl.
  rewrite IH. by rewrite orb_assoc.
Qed.

(** Decimal numerals are made of digits and a sign. *)
Lemma uint_text_mentions c (d : uint) :
  mentions c "-0123456789" = false ->
  mentions c (NilEmpty.string_of_uint d) = false.
Proof.
  intros Hc. simpl in Hc.
  repeat (apply orb_false_elim in Hc as [? Hc]).
  induction d; simpl; rewrite ?IHd; auto; by rewrite orb_false_r.
Qed.

Lemma str_of_Z_mentions c (z : Z) :
  mentions c "-0123456789" = false -> mentions c (str_of_Z z) = false.
Proof.
  intros Hc. pose proof (uint_text_mentions c) as Hd.
  assert (Hzero : mentions c "0" = false).
  { simpl in *. repeat (apply orb_false_elim in Hc as [? Hc]).
    by rewrite orb_false_r. }
  assert (Hminus : Ascii.eqb "-" c = false).
  { simpl in Hc. by apply orb_false_elim in Hc as [? _]. }
  assert (Hnum : forall d, mentions c (NilZero.string_of_uint d) = false).
  { intros d. destruct d; try exact Hzero; apply (Hd (_ _)), Hc. }
  unfold str_of_Z. destruct (Z.to_int z) as [d | d];
    unfold NilZero.string_of_int; cbn [mentions].
  - apply Hnum.
  - by rewrite Hminus, Hnum.
Qed.

Lemma to_int_normal (z : Z) : Z.to_int z <> Pos Nil /\ Z.to_int z <> Neg Nil.
Proof.
  destruct z as [|p|p]; simpl; split; try discriminate;
    intros [= H]; by apply DecimalPos.Unsigned.to_uint_nonnil in H.
Qed.

(** Reading a numeral back gives the number. *)
Lemma int_of_str_of_Z (z : Z) :
  NilZero.int_of_string (str_of_Z z) = Some (Z.to_int z).
Proof. unfold str_of_Z. apply NilZero.isi; apply to_int_normal. Qed.

#[export] Instance str_of_Z_inj : Inj (=) (=) str_of_Z.
Proof.
  intros a b Hab. apply DecimalZ.to_int_inj.
  assert (Some (Z.to_int a) = Some (Z.to_int b)) as [= ->]; [| done].
  by rewrite <- !int_of_str_of_Z, Hab.
Qed.

(** ** Type inference *)

Module TypeInference.

Lemma steady_ret {A} (a : A) : steady (ret a).
Proof. by intros w w'. Qed.

Lemma steady_raise {A} e : steady (@raise A e).
Proof. by intros w w'. Qed.

Lemma steady_print parts : steady (print parts).
Proof. by intros w w'. Qed.

Lemma steady_getattr {A} name (field : option A) : steady (getattr name field).
Proof. destruct field; by intros w w'. Qed.

Lemma steady_bind {A B} (m : M A) (k : A -> M B) :
  steady m -> (forall a, steady (k a)) -> steady (bind m k).
Proof.
  intros Hm Hk w w'. unfold bind.
  specialize (Hm w w').
  destruct (m w) as [[a | e |] w1], (m w') as [[a' | e' |] w1'];
    simpl in Hm; try discriminate; try (by inversion Hm).
  inversion Hm; subst. apply Hk.
Qed.

Lemma steady_if {A} (b : bool) (m1 m2 : M A) :
  steady m1 -> steady m2 -> steady (if b then m1 else m2).
Proof. by destruct b. Qed.

Ltac steady :=
  repeat first
    [ apply steady_ret | apply steady_raise | apply steady_print
    | apply steady_getattr | apply steady_if
    | apply steady_bind; [| intros ?] ].

(** What [detectType] answers never depends on the environment: it only
    prints. *)
Fixpoint detectType_steady (self : iodb) (value : pyvalue)
    (dbdriver : string) {struct value} : steady (detectType self value dbdriver).
Proof.
  destruct value; simpl; try (clear detectType_steady; by steady).
  - destruct items as [|element [|second rest]];
      [clear detectType_steady; by steady | | clear detectType_steady; by steady].
    apply steady_bind; [apply steady_print | intros _].
    apply (detectType_steady self element dbdriver).
  - destruct items as [|element [|second rest]];
      [clear detectType_steady; by steady | | clear detectType_steady; by steady].
    apply steady_bind; [apply steady_print | intros _].
    apply (detectType_steady self element dbdriver).
Qed.

Lemma isinstance_ndarray_ext_not_ndarray arr :
  isinstance (VNdarrayExt arr) [C_np_ndarray] = false.
Proof. reflexivity. Qed.

(** A plain array gets the embedded-array column type of the session. *)
Lemma detectType_plain_array self a dbdriver w t :
  _arrayType self = Some t ->
  detectType self (VNdarray a) dbdriver w = (Return (Some t), w).
Proof. intros Ht. simpl. by rewrite Ht. Qed.

(** C2, at the input where the code departs from it: type inference on a
    value wrapped in [ndarray_ext] does not return the
    external-array-reference type.  The wrapper class is not an
    [np.ndarray], so the test of line 521 is never reached and the call
    ends in the [TypeError] of line 542, for every session, wrapped value,
    dialect and environment. *)
Theorem detectType_ndarray_ext_raises (self : iodb) (arr : pyvalue)
    (dbdriver : string) (w : world) :
  detectType self (VNdarrayExt arr) dbdriver w
  = (Raise (unrecognized_type (VNdarrayExt arr)), w).
Proof. reflexivity. Qed.

(** C4 as stated fails for sqlite: there [True] and [1] do not get two
    distinct type names. *)
Lemma detectType_true_and_one_sqlite_same_name :
  ~ (exists tb ti : string,
        fst (detectType sqlite_session (VBool true) "sqlite" world0) = Return (Some tb)
        /\ fst (detectType sqlite_session (VInt 1) "sqlite" world0) = Return (Some ti)
        /\ tb <> ti).
Proof.
  intros (tb & ti & Hb & Hi & Hne). simpl in Hb, Hi.
  apply Hne. congruence.
Qed.

(** C4, amended: for postgres a boolean gets ["BOOL"] and a Python integer
    gets ["INTEGER"], two distinct names; for sqlite, which stores booleans
    as integers, both get ["INTEGER"]. *)
Theorem detectType_bool_and_int (self : iodb) (b : bool) (z : Z) (w : world) :
  (detectType self (VBool b) "postgre" w = (Return (Some "BOOL"%string), w)
   /\ detectType self (VInt z) "postgre" w = (Return (Some "INTEGER"%string), w)
   /\ "BOOL"%string <> "INTEGER"%string)
  /\ (detectType self (VBool b) "sqlite" w = (Return (Some "INTEGER"%string), w)
      /\ detectType self (VInt z) "sqlite" w = (Return (Some "INTEGER"%string), w)).
Proof. repeat split; done. Qed.

(** What a call on a one-element sequence does, exactly: it prints the
    warning and goes on with the element. *)
Lemma detectType_singleton_list self element dbdriver w :
  detectType self (VList [element]) dbdriver w
  = detectType self element dbdriver
      (emit (EPrint (single_element_warning (VList [element]))) w).
Proof. reflexivity. Qed.

Lemma detectType_singleton_tuple self element dbdriver w :
  detectType self (VTuple [element]) dbdriver w
  = detectType self element dbdriver
      (emit (EPrint (single_element_warning (VTuple [element]))) w).
Proof. reflexivity. Qed.

(** C5: type inference on a one-element list or tuple answers what it
    answers on the element (a type name, or the same exception), and on a
    list or tuple of more than one element it raises the [TypeError] that
    names the class of the value and the value. *)
Theorem detectType_sequence_unwrap (self : iodb) (element : pyvalue)
    (items : list pyvalue) (dbdriver : string) (w : world) :
  (1 < length items)%nat ->
  fst (detectType self (VList [element]) dbdriver w)
    = fst (detectType self element dbdriver w)
  /\ fst (detectType self (VTuple [element]) dbdriver w)
    = fst (detectType self element dbdriver w)
  /\ detectType self (VList items) dbdriver w
    = (Raise (unrecognized_type (VList items)), w)
  /\ detectType self (VTuple items) dbdriver w
    = (Raise (unrecognized_type (VTuple items)), w)
  /\ (forall value, exists text,
        unrecognized_type value
        = TypeError (Msg text [AType (type_of value); AVal value])).
Proof.
  intros Hlen. repeat split.
  - rewrite detectType_singleton_list. apply detectType_steady.
  - rewrite detectType_singleton_tuple. apply detectType_steady.
  - destruct items as [|x [|y rest]]; simpl in Hlen; try lia. reflexivity.
  - destruct items as [|x [|y rest]]; simpl in Hlen; try lia. reflexivity.
  - intros value. by eexists.
Qed.

Lemma detectType_sequence_unwrap_witness :
  (1 < length [VInt 5; VInt 6])%nat
  /\ fst (detectType sqlite_session (VList [VInt 5]) "sqlite" world0)
     = fst (detectType sqlite_session (VInt 5) "sqlite" world0)
  /\ fst (detectType sqlite_session (VList [VInt 5; VInt 6]) "sqlite" world0)
     = Raise (unrecognized_type (VList [VInt 5; VInt 6])).
Proof.
  split; [simpl; lia |].
  destruct (detectType_sequence_unwrap sqlite_session (VInt 5)
              [VInt 5; VInt 6] "sqlite" world0) as (H1 & _ & H3 & _);
    [simpl; lia |].
  split; [exact H1 | by rewrite H3].
Defined.

End TypeInference.

(** ** The advisory lock *)

Module AdvisoryLock.

Lemma os_path_exists_run path w :
  os_imported w = true ->
  os_path_exists path w
  = (Return (bool_decide (is_Some (fs w !! path))), emit (EExists path) w).
Proof. intros Hos. unfold os_path_exists, bind, use_os. by rewrite Hos. Qed.

Lemma os_mknod_fresh path w :
  os_imported w = true -> fs w !! path = None ->
  os_mknod path w
  = (Return tt, emit (EMknod path) (set_fs (<[path := RegularFile []]> (fs w)) w)).
Proof. intros Hos Hfree. unfold os_mknod, bind, use_os. by rewrite Hos, Hfree. Qed.

Lemma os_remove_file path content w :
  os_imported w = true -> fs w !! path = Some (RegularFile content) ->
  os_remove path w
  = (Return tt, emit (ERemove path) (set_fs (delete path (fs w)) w)).
Proof. intros Hos Hfile. unfold os_remove, bind, use_os. by rewrite Hos, Hfile. Qed.

Lemma poll_trace_S path repeat rounds :
  poll_trace path repeat (S rounds)
  = [EExists path; ESleep repeat] ++ poll_trace path repeat rounds.
Proof. reflexivity. Qed.

(** One pass through the loop on a free path with [repeat = 0]. *)
Lemma lock_loop_free_single fuel path timeoutCounter counter w :
  os_imported w = true -> fs w !! path = None ->
  lock_loop (S fuel) path 0 timeoutCounter counter w
  = (Return (VStr path), created path w).
Proof.
  intros Hos Hfree. cbn [lock_loop]. unfold bind.
  rewrite (os_path_exists_run path w Hos).
  rewrite bool_decide_false by (rewrite Hfree; by intros [? ?]).
  by rewrite (os_mknod_fresh path (emit (EExists path) w) Hos Hfree).
Qed.

(** One pass through the loop on a held path with [repeat = 0]. *)
Lemma lock_loop_held_single fuel path timeoutCounter counter w :
  os_imported w = true -> is_Some (fs w !! path) ->
  lock_loop (S fuel) path 0 timeoutCounter counter w
  = (Return (VBool false), emit (EExists path) w).
Proof.
  intros Hos Hheld. cbn [lock_loop]. unfold bind.
  rewrite (os_path_exists_run path w Hos).
  by rewrite bool_decide_true.
Qed.

(** Polling a held path: the loop leaves at the first probe at which the
    counter has passed [timeoutCounter], never earlier, and answers
    [False]. *)
Lemma lock_loop_held path repeat timeoutCounter :
  0 < repeat ->
  forall rounds fuel counter w,
    rounds = Z.to_nat (timeoutCounter + 1 - counter) ->
    (rounds < fuel)%nat ->
    os_imported w = true -> is_Some (fs w !! path) ->
    lock_loop fuel path repeat timeoutCounter counter w
    = (Return (VBool false), emits (poll_trace path repeat rounds) w).
Proof.
  intros Hrepeat. induction rounds as [|rounds IH];
    intros fuel counter w Hrounds Hfuel Hos Hheld;
    (destruct fuel as [|fuel]; [lia |]); cbn [lock_loop].
  - rewrite (bind_return _ _ _ _ _ (os_path_exists_run path w Hos)).
    rewrite bool_decide_true by done. rewrite bind_ret.
    replace (0 <? repeat) with true by (symmetry; apply Z.ltb_lt; lia).
    replace (timeoutCounter <? counter) with true
      by (symmetry; apply Z.ltb_lt; lia).
    unfold bind, print, ret, poll_trace, emits, emit. simpl.
    by rewrite <- app_assoc.
  - rewrite (bind_return _ _ _ _ _ (os_path_exists_run path w Hos)).
    rewrite bool_decide_true by done. rewrite bind_ret.
    replace (0 <? repeat) with true by (symmetry; apply Z.ltb_lt; lia).
    replace (timeoutCounter <? counter) with false
      by (symmetry; apply Z.ltb_ge; lia).
    unfold bind at 1, time_sleep_ms.
    rewrite (IH fuel (counter + 1)) by (simpl; auto; lia).
    rewrite poll_trace_S. rewrite !emit_emits, !emits_emits. reflexivity.
Qed.

Lemma poll_trace_probes path repeat rounds :
  length (List.filter is_probe (poll_trace path repeat rounds)) = S rounds.
Proof.
  unfold poll_trace. induction rounds as [|rounds IH]; [reflexivity |].
  simpl in *. by rewrite IH.
Qed.

Lemma poll_trace_sleeps path repeat rounds :
  length (List.filter is_sleep (poll_trace path repeat rounds)) = rounds.
Proof.
  unfold poll_trace. induction rounds as [|rounds IH]; [reflexivity |].
  simpl in *. by rewrite IH.
Qed.

Lemma poll_trace_warns path repeat rounds :
  existsb is_timeout_warning (poll_trace path repeat rounds) = true.
Proof.
  unfold poll_trace. induction rounds as [|rounds IH]; [reflexivity |].
  simpl in *. exact IH.
Qed.

Lemma lock_sqlite fuel self fname suffix repeat timeoutCounter w :
  driver self = Some "sqlite"%string -> _fname self = Some fname ->
  lock fuel self suffix repeat timeoutCounter w
  = lock_loop fuel (fname +:+ suffix) repeat timeoutCounter 0 w.
Proof. intros Hd Hf. unfold lock. by rewrite Hd, Hf. Qed.

(** Without [import os] the first probe already fails. *)
Lemma lock_needs_os fuel self fname suffix repeat timeoutCounter w :
  driver self = Some "sqlite"%string -> _fname self = Some fname ->
  os_imported w = false ->
  lock (S fuel) self suffix repeat timeoutCounter w = (Raise (NameError "os"), w).
Proof.
  intros Hd Hf Hos. rewrite (lock_sqlite _ _ fname) by done.
  cbn [lock_loop]. unfold bind, os_path_exists, bind, use_os. by rewrite Hos.
Qed.

(** With [repeat = 0] a free path is acquired: the marker file is created
    and its name returned. *)
Lemma lock_single_run_acquires fuel self fname suffix timeoutCounter w :
  driver self = Some "sqlite"%string -> _fname self = Some fname ->
  os_imported w = true -> fs w !! (fname +:+ suffix) = None ->
  lock (S fuel) self suffix 0 timeoutCounter w
  = (Return (VStr (fname +:+ suffix)), created (fname +:+ suffix) w).
Proof.
  intros Hd Hf Hos Hfree. rewrite (lock_sqlite _ _ fname) by done.
  by apply lock_loop_free_single.
Qed.

(** Releasing a held lock removes the marker file, so that the next call
    with [repeat = 0] acquires it again. *)
Lemma release_frees self fname suffix content w :
  driver self = Some "sqlite"%string -> _fname self = Some fname ->
  os_imported w = true ->
  fs w !! (fname +:+ suffix) = Some (RegularFile content) ->
  exists w',
    release self None suffix w = (Return (VBool true), w')
    /\ os_imported w' = true /\ fs w' !! (fname +:+ suffix) = None.
Proof.
  intros Hd Hf Hos Hheld.
  exists (emit (ERemove (fname +:+ suffix))
            (set_fs (delete (fname +:+ suffix) (fs w))
                    (emit (EExists (fname +:+ suffix)) w))).
  split; [| split; [done | apply lookup_delete_eq]].
  assert (Hsome : is_Some (fs w !! (fname +:+ suffix))) by by eexists.
  unfold release, bind. rewrite Hd, Hf.
  cbn [getattr ret String.eqb Ascii.eqb Bool.eqb].
  rewrite (os_path_exists_run _ w Hos).
  rewrite (bool_decide_true _ Hsome).
  by rewrite (os_remove_file (fname +:+ suffix) content
                (emit (EExists (fname +:+ suffix)) w) Hos Hheld).
Qed.

(** Releasing a lock that is not held answers [False] and changes no
    file. *)
Lemma release_not_locked self fname suffix w :
  driver self = Some "sqlite"%string -> _fname self = Some fname ->
  os_imported w = true -> fs w !! (fname +:+ suffix) = None ->
  release self None suffix w
  = (Return (VBool false), emit (EExists (fname +:+ suffix)) w).
Proof.
  intros Hd Hf Hos Hfree. unfold release, bind. rewrite Hd, Hf.
  cbn [getattr ret String.eqb Ascii.eqb Bool.eqb].
  rewrite (os_path_exists_run _ w Hos).
  by rewrite bool_decide_false by (rewrite Hfree; by intros [? ?]).
Qed.

(** C3, at the inputs where the code departs from it: with a poll interval
    greater than zero and a bound that is not negative, [lock] on a path
    whose marker file is absent creates the marker file, but then keeps
    polling the file it has just created until the bound is passed, prints
    the timeout warning and returns [False]. *)
Theorem lock_polling_free_path_times_out (self : iodb) (fname suffix : string)
    (repeat timeoutCounter : Z) (fuel : nat) (w : world) :
  driver self = Some "sqlite"%string -> _fname self = Some fname ->
  os_imported w = true -> fs w !! (fname +:+ suffix) = None ->
  0 < repeat -> 0 <= timeoutCounter ->
  (Z.to_nat timeoutCounter + 1 < fuel)%nat ->
  let path := (fname +:+ suffix)%string in
  let trace := [EExists path; EMknod path; ESleep repeat]
               ++ poll_trace path repeat (Z.to_nat timeoutCounter) in
  lock fuel self suffix repeat timeoutCounter w
  = (Return (VBool false),
     emits (poll_trace path repeat (Z.to_nat timeoutCounter))
           (emit (ESleep repeat) (created path w)))
  /\ fs (snd (lock fuel self suffix repeat timeoutCounter w)) !! path
     = Some (RegularFile [])
  /\ log (snd (lock fuel self suffix repeat timeoutCounter w)) = log w ++ trace
  /\ lock_result_of (VBool false) trace = Some TimeoutExceeded.
Proof.
  intros Hd Hf Hos Hfree Hrepeat Hbound Hfuel path trace.
  assert (Hrun : lock fuel self suffix repeat timeoutCounter w
                 = (Return (VBool false),
                    emits (poll_trace path repeat (Z.to_nat timeoutCounter))
                          (emit (ESleep repeat) (created path w)))).
  { rewrite (lock_sqlite _ _ fname) by done. fold path.
    destruct fuel as [|fuel]; [lia |]. cbn [lock_loop]. unfold bind at 1.
    rewrite (os_path_exists_run path w Hos).
    rewrite bool_decide_false by (unfold path; rewrite Hfree; by intros [? ?]).
    unfold bind at 1. unfold bind at 1.
    rewrite (os_mknod_fresh path (emit (EExists path) w) Hos Hfree).
    unfold ret at 1.
    replace (0 <? repeat) with true by (symmetry; apply Z.ltb_lt; lia).
    replace (timeoutCounter <? 0) with false by (symmetry; apply Z.ltb_ge; lia).
    unfold bind at 1, time_sleep_ms.
    apply (lock_loop_held path repeat timeoutCounter Hrepeat); simpl; try done.
    - lia.
    - lia.
    - rewrite lookup_insert_eq. by eexists. }
  rewrite Hrun. repeat split.
  - simpl. by rewrite lookup_insert_eq.
  - simpl. rewrite <- !app_assoc. reflexivity.
  - unfold lock_result_of, trace. rewrite existsb_app.
    rewrite poll_trace_warns. by rewrite orb_true_r.
Qed.

Lemma lock_polling_free_path_times_out_witness :
  lock 6 sqlite_session ".lock" 1 3 world0
  = (Return (VBool false),
     emits (poll_trace "./db.sqlite.lock" 1 3)
           (emit (ESleep 1) (created "./db.sqlite.lock" world0))).
Proof.
  apply (lock_polling_free_path_times_out sqlite_session "./db.sqlite" ".lock"
           1 3 6 world0); try reflexivity; simpl; lia.
Defined.

(** What the lock does once [import os] is restored: on a path whose
    marker file is absent, two calls with
    [repeat = 0] and no release in between return the name of the lock
    file (acquired) and then [False] without a timeout warning (busy);
    and on a held lock a call with [repeat > 0] returns [False] with the
    timeout warning, at the first probe at which the attempt counter has
    passed [timeoutCounter]: after [timeoutCounter + 1] sleeps, hence not
    before [timeoutCounter] polls, and leaving the filesystem as it was. *)
Theorem lock_mutual_exclusion (self : iodb) (fname suffix : string) :
  driver self = Some "sqlite"%string -> _fname self = Some fname ->
  let path := (fname +:+ suffix)%string in
  (forall (w : world) (bound1 bound2 : Z) (fuel1 fuel2 : nat),
      os_imported w = true -> fs w !! path = None ->
      lock (S fuel1) self suffix 0 bound1 w
      = (Return (VStr path), created path w)
      /\ lock (S fuel2) self suffix 0 bound2 (created path w)
         = (Return (VBool false), emit (EExists path) (created path w))
      /\ lock_result_of (VStr path) [EExists path; EMknod path] = Some Acquired
      /\ lock_result_of (VBool false) [EExists path] = Some Busy)
  /\ (forall (w : world) (repeat timeoutCounter : Z) (fuel : nat),
        os_imported w = true -> is_Some (fs w !! path) ->
        0 < repeat -> (Z.to_nat (timeoutCounter + 1) < fuel)%nat ->
        let trace := poll_trace path repeat (Z.to_nat (timeoutCounter + 1)) in
        lock fuel self suffix repeat timeoutCounter w
        = (Return (VBool false), emits trace w)
        /\ lock_result_of (VBool false) trace = Some TimeoutExceeded
        /\ length (List.filter is_sleep trace) = Z.to_nat (timeoutCounter + 1)
        /\ length (List.filter is_probe trace) = S (Z.to_nat (timeoutCounter + 1))
        /\ (Z.to_nat timeoutCounter <= length (List.filter is_probe trace))%nat
        /\ fs (emits trace w) = fs w).
Proof.
  intros Hd Hf path. split.
  - intros w bound1 bound2 fuel1 fuel2 Hos Hfree. repeat split.
    + by apply lock_single_run_acquires.
    + rewrite (lock_sqlite _ _ fname) by done.
      apply lock_loop_held_single; [done |].
      simpl. rewrite lookup_insert_eq. by eexists.
  - intros w repeat timeoutCounter fuel Hos Hheld Hrepeat Hfuel trace.
    repeat split.
    + rewrite (lock_sqlite _ _ fname) by done.
      apply (lock_loop_held path repeat timeoutCounter Hrepeat); try done.
      f_equal. lia.
    + unfold lock_result_of, trace. by rewrite poll_trace_warns.
    + apply poll_trace_sleeps.
    + apply poll_trace_probes.
    + unfold trace. rewrite poll_trace_probes. lia.
Qed.

Lemma lock_mutual_exclusion_witness :
  (lock 1 sqlite_session ".lock" 0 1000 world0
   = (Return (VStr "./db.sqlite.lock"), created "./db.sqlite.lock" world0)
   /\ lock 1 sqlite_session ".lock" 0 1000 (created "./db.sqlite.lock" world0)
      = (Return (VBool false),
         emit (EExists "./db.sqlite.lock") (created "./db.sqlite.lock" world0)))
  /\ lock 5 sqlite_session ".lock" 20 2 (created "./db.sqlite.lock" world0)
     = (Return (VBool false),
        emits (poll_trace "./db.sqlite.lock" 20 3)
              (created "./db.sqlite.lock" world0)).
Proof.
  destruct (lock_mutual_exclusion sqlite_session "./db.sqlite" ".lock"
              eq_refl eq_refl) as [Hfirst Hpoll].
  split.
  - destruct (Hfirst world0 1000 1000 0%nat 0%nat eq_refl eq_refl)
      as (H1 & H2 & _).
    split; [exact H1 | exact H2].
  - assert (Hheld : is_Some (fs (created "./db.sqlite.lock" world0)
                             !! "./db.sqlite.lock"%string)).
    { simpl. rewrite lookup_insert_eq. by eexists. }
    destruct (Hpoll (created "./db.sqlite.lock" world0) 20 2 5%nat
                eq_refl Hheld) as (H & _); [lia | simpl; lia | exact H].
Defined.

(** C7: in the module as it is checked in, [os] is not bound (line 51 is
    a comment, which lines 50-51 say is safe for who does not use the
    external storage), yet [lock] and [release] call [os.path.exists] on
    every sqlite session.  So on a sqlite session with a file name every
    call of [lock], whatever the suffix, the poll interval and the bound,
    raises [NameError] at its first probe, and so does every call of
    [release]: the lock is never acquired, found busy or timed out, and
    the environment is left as it was. *)
Theorem lock_raises_without_os (self : iodb) (fname suffix : string)
    (repeat timeoutCounter : Z) (fuel : nat) (lockfilename : option string)
    (w : world) :
  driver self = Some "sqlite"%string -> _fname self = Some fname ->
  os_imported w = false ->
  lock (S fuel) self suffix repeat timeoutCounter w = (Raise (NameError "os"), w)
  /\ release self lockfilename suffix w = (Raise (NameError "os"), w).
Proof.
  intros Hd Hf Hos. split; [by apply (lock_needs_os _ _ fname) |].
  unfold release, bind. rewrite Hd.
  cbn [getattr ret String.eqb Ascii.eqb Bool.eqb].
  destruct lockfilename as [name |]; [| rewrite Hf]; cbn [getattr ret];
    unfold os_path_exists, bind, use_os; by rewrite Hos.
Qed.

Lemma lock_raises_without_os_witness :
  lock 1 sqlite_session ".lock" 0 1000 shipped_world
  = (Raise (NameError "os"), shipped_world)
  /\ release sqlite_session None ".lock" shipped_world
     = (Raise (NameError "os"), shipped_world).
Proof.
  apply (lock_raises_without_os sqlite_session "./db.sqlite" ".lock" 0 1000 0
           None shipped_world); reflexivity.
Defined.

End AdvisoryLock.

(** ** The filename allocator *)

Module Allocator.

Lemma last_field_app (prefix field : string) :
  mentions "_" field = false ->
  last_field (prefix +:+ String "_" field) = field.
Proof.
  intros Hfree. induction prefix as [|x prefix IH].
  - change (last_field (String "_" field) = field). simpl. by rewrite Hfree.
  - rewrite string_app_cons. cbn [last_field]. rewrite mentions_app.
    cbn [mentions]. rewrite Ascii.eqb_refl. simpl. rewrite orb_true_r. exact IH.
Qed.

(** The counter is the last field of the name. *)
Lemma last_field_name w counter : last_field (name_in w counter) = str_of_Z counter.
Proof.
  unfold name_in, unique_name_format.
  set (date := strftime_at "%Y-%m-%d" (localtime w)).
  set (minute := strftime_at "%H%M" (localtime w)).
  transitivity
    (last_field ((date +:+ "T" +:+ minute +:+ "_" +:+ hostname w +:+ "_"
                  +:+ str_of_Z (pid w)) +:+ String "_" (str_of_Z counter))).
  - f_equal. rewrite !string_app_assoc. reflexivity.
  - by apply last_field_app, str_of_Z_mentions.
Qed.

Lemma getUniqueName_run self w c :
  imports_enabled w -> _counter self = Some c ->
  _getUniqueName self w = (Return (name_in w c, set_counter (c + 1) self), w).
Proof.
  intros [Hos Hsocket] Hc.
  unfold _getUniqueName, bind, socket_gethostname, os_getpid, use_os, use_socket,
    bind, time_strftime.
  by rewrite Hsocket, Hos, Hc.
Qed.

(** Without [import socket] the allocator fails at its first line. *)
Lemma getUniqueName_needs_socket self w :
  socket_imported w = false ->
  _getUniqueName self w = (Raise (NameError "socket"), w).
Proof.
  intros Hsocket.
  unfold _getUniqueName, bind, socket_gethostname, bind, use_socket.
  by rewrite Hsocket.
Qed.

Lemma allocate_run envs : forall self c,
  _counter self = Some c -> Forall imports_enabled envs ->
  exists self',
    allocate self envs
    = Return (zip_with name_in envs (count_from c (length envs)), self')
    /\ _counter self' = Some (c + Z.of_nat (length envs)).
Proof.
  induction envs as [|w envs IH]; intros self c Hc Hok.
  - exists self. split; [done |]. rewrite Hc. f_equal. simpl. lia.
  - inversion Hok as [|? ? Hw Hrest]; subst.
    destruct (IH (set_counter (c + 1) self) (c + 1) eq_refl Hrest)
      as (self' & Hrun & Hcount).
    exists self'. cbn [allocate].
    rewrite (getUniqueName_run self w c Hw Hc), Hrun. split; [done |].
    rewrite Hcount. f_equal. simpl length. lia.
Qed.

Lemma count_from_lower c n k : k ∈ count_from c n -> c <= k.
Proof.
  revert c. induction n as [|n IH]; intros c; simpl.
  - by intros ?%elem_of_nil.
  - intros [-> | Hin]%elem_of_cons; [lia |]. apply IH in Hin. lia.
Qed.

Lemma NoDup_count_from c n : NoDup (count_from c n).
Proof.
  revert c. induction n as [|n IH]; intros c; simpl; constructor.
  - intros Hin%count_from_lower. lia.
  - apply IH.
Qed.

Lemma last_field_names envs : forall counters,
  last_field <$> zip_with name_in envs counters
  = str_of_Z <$> take (length envs) counters.
Proof.
  induction envs as [|w envs IH]; intros [|k counters]; simpl; try done.
  by rewrite last_field_name, IH.
Qed.

Lemma length_count_from c n : length (count_from c n) = n.
Proof. revert c. induction n as [|n IH]; intros c; simpl; [done |]. by rewrite IH. Qed.

(** A session opened with external or mixed storage starts counting at
    one. *)
Lemma init_counter_starts_at_one drv stor path zipped readOnly w self w' :
  stor = "extern"%string \/ stor = "mixed"%string ->
  __init__ drv stor path zipped readOnly w = (Return self, w') ->
  _counter self = Some 1.
Proof.
  intros Hstor Hrun.
  assert (String.eqb stor "extern" || String.eqb stor "mixed" = true) as Hb.
  { destruct Hstor as [-> | ->]; reflexivity. }
  unfold __init__ in Hrun.
  apply bind_inv in Hrun as (self0 & w0 & _ & Hrun).
  rewrite Hb in Hrun. cbv zeta in Hrun.
  apply bind_inv in Hrun as (date & w1 & _ & Hrun).
  apply bind_inv in Hrun as (present & w2 & _ & Hrun).
  destruct (negb present && negb readOnly).
  - apply bind_inv in Hrun as (? & w3 & _ & Hrun). by injection Hrun as <- _.
  - by injection Hrun as <- _.
Qed.

(** C8, with the precondition the module's lines 50-51 set for the
    external storage: with [os] and [socket] imported, within one session
    with external storage, [N] successive calls of
    the allocator, in whatever environments they run, return [N] names of
    the form [{date}T{hourminute}_{host}_{pid}_{counter}] that are pairwise
    distinct; the counter field of the [i]-th name is [i], counting from 1,
    one more at each call, and the session's counter ends at [1 + N]. *)
Theorem allocator_names_distinct (self : iodb) (envs : list world) :
  _counter self = Some 1 -> Forall imports_enabled envs ->
  let names := zip_with name_in envs (count_from 1 (length envs)) in
  exists self',
    allocate self envs = Return (names, self')
    /\ length names = length envs
    /\ NoDup names
    /\ last_field <$> names = str_of_Z <$> count_from 1 (length envs)
    /\ _counter self' = Some (1 + Z.of_nat (length envs)).
Proof.
  intros Hc Hok names.
  destruct (allocate_run envs self 1 Hc Hok) as (self' & Hrun & Hcount).
  assert (Hfields :
            last_field <$> names = str_of_Z <$> count_from 1 (length envs)).
  { unfold names. rewrite last_field_names.
    by rewrite firstn_all2 by (rewrite length_count_from; lia). }
  exists self'. repeat split; try done.
  - unfold names. rewrite length_zip_with, length_count_from. lia.
  - apply (NoDup_fmap_1 last_field). rewrite Hfields.
    apply (NoDup_fmap_2 _), NoDup_count_from.
Qed.

Lemma allocator_names_distinct_witness :
  exists self',
    allocate extern_session [world0; world0; world0]
    = Return (["2024-01-01T0930_hostA_123_1"; "2024-01-01T0930_hostA_123_2";
               "2024-01-01T0930_hostA_123_3"]%string, self')
    /\ _counter self' = Some 4.
Proof.
  destruct (allocator_names_distinct extern_session [world0; world0; world0])
    as (self' & Hrun & _ & _ & _ & Hcount).
  - reflexivity.
  - repeat constructor.
  - exists self'. split; [exact Hrun | exact Hcount].
Defined.

(** The claim as it stands, without that precondition, fails on the file
    as it is checked in: the first call of the allocator raises
    [NameError] at line 317 and returns no name, and no session with
    external storage comes to be, since the constructor raises at line
    189. *)
Lemma allocator_fails_as_shipped :
  allocate extern_session [shipped_world; shipped_world]
  = Raise (NameError "socket")
  /\ fst (__init__ "sqlite" "extern" "./" false false shipped_world)
     = Raise (NameError "os").
Proof. split; reflexivity. Qed.

End Allocator.

(** ** Statement building *)

Module Statements.

Lemma merge_sort_permutation_eq (l1 l2 : list string) :
  l1 ≡ₚ l2 -> merge_sort String.le l1 = merge_sort String.le l2.
Proof.
  intros Hperm. apply (Sorted_unique String.le).
  - apply (Sorted_merge_sort String.le).
  - apply (Sorted_merge_sort String.le).
  - by rewrite !merge_sort_Permutation.
Qed.

Lemma np_sort_permutation (keys1 keys2 : list string) :
  keys1 ≡ₚ keys2 -> np_sort keys1 = np_sort keys2.
Proof.
  intros Hperm. unfold np_sort. apply merge_sort_permutation_eq.
  by apply Permutation_map.
Qed.

Lemma dict_get_present (d : pydict) key value :
  NoDup (dict_keys d) -> (key, value) ∈ d -> dict_get d key = ret value.
Proof.
  induction d as [|[k v] d IH]; intros Hnodup Hin.
  - by apply elem_of_nil in Hin.
  - simpl in Hnodup. apply NoDup_cons in Hnodup as [Hfresh Hnodup].
    apply elem_of_cons in Hin as [[= -> ->] | Hin]; simpl.
    + by rewrite String.eqb_refl.
    + destruct (String.eqb_spec k key) as [-> | Hne]; [| by apply IH].
      exfalso. apply Hfresh. unfold dict_keys.
      apply list_elem_of_In, in_map_iff. exists (key, value).
      split; [done |]. by apply list_elem_of_In.
Qed.

Lemma dict_get_absent (d : pydict) key :
  key ∉ dict_keys d -> dict_get d key = raise (KeyError key).
Proof.
  induction d as [|[k v] d IH]; intros Hout; [done |]. simpl.
  simpl in Hout. apply not_elem_of_cons in Hout as [Hne Hout].
  destruct (String.eqb_spec k key) as [-> | _]; [done |]. by apply IH.
Qed.

Lemma dict_get_permutation (d1 d2 : pydict) key :
  NoDup (dict_keys d1) -> d1 ≡ₚ d2 -> dict_get d1 key = dict_get d2 key.
Proof.
  intros Hnodup Hperm.
  assert (Hkeys : dict_keys d1 ≡ₚ dict_keys d2) by by apply Permutation_map.
  assert (Hnodup2 : NoDup (dict_keys d2)) by by rewrite <- Hkeys.
  destruct (decide (key ∈ dict_keys d1)) as [Hin | Hout].
  - apply list_elem_of_In, in_map_iff in Hin as ([k value] & Hk & Hin).
    simpl in Hk; subst k. apply list_elem_of_In in Hin.
    rewrite (dict_get_present d1 key value) by done.
    rewrite (dict_get_present d2 key value); [done | done |].
    by rewrite <- Hperm.
  - rewrite (dict_get_absent d1) by done.
    rewrite (dict_get_absent d2); [done |]. by rewrite <- Hkeys.
Qed.

Lemma appendType_loop_permutation self (d1 d2 : pydict) keys :
  NoDup (dict_keys d1) -> d1 ≡ₚ d2 ->
  appendType_loop self d1 keys = appendType_loop self d2 keys.
Proof.
  intros Hnodup Hperm. induction keys as [|key keys IH]; [done |].
  cbn [appendType_loop].
  rewrite (dict_get_permutation d1 d2 key Hnodup Hperm). by rewrite IH.
Qed.

Lemma appendType_permutation self (d1 d2 : pydict) useTypes :
  NoDup (dict_keys d1) -> d1 ≡ₚ d2 ->
  appendType self d1 useTypes true = appendType self d2 useTypes true.
Proof.
  intros Hnodup Hperm. unfold appendType.
  rewrite (np_sort_permutation (dict_keys d1) (dict_keys d2))
    by by apply Permutation_map.
  by rewrite (appendType_loop_permutation self d1 d2 _ Hnodup Hperm).
Qed.

Lemma dict_get_inv (d : pydict) key value w w' :
  dict_get d key w = (Return value, w') -> (key, value) ∈ d /\ w' = w.
Proof.
  induction d as [|[k v] d IH]; simpl; [discriminate |].
  destruct (String.eqb_spec k key) as [-> | Hne].
  - intros [= -> ->]. split; [left | done].
  - intros Hrest. destruct (IH Hrest) as [Hin ->]. split; [by right | done].
Qed.

(** What the loop of [appendType] returns, when it returns: one entry per
    key, in the order of the keys, each made of the key and of the type
    inferred for the value the record holds under that key. *)
Lemma appendType_loop_columns self (d : pydict) keys : forall w names,
  fst (appendType_loop self d keys w) = Return names ->
  exists valtypes,
    names = zip_with column keys valtypes
    /\ Forall2 (fun key valtype =>
                  exists drv value,
                    driver self = Some drv /\ (key, value) ∈ d
                    /\ forall w', fst (detectType self value drv w') = Return valtype)
               keys valtypes.
Proof.
  induction keys as [|key keys IH]; intros w names.
  - intros [= <-]. exists []. split; [done | constructor].
  - cbn [appendType_loop]. unfold bind at 1.
    destruct (dict_get d key w) as [[value | e |] w1] eqn:Hget; try discriminate.
    apply dict_get_inv in Hget as [Hin ->].
    unfold bind at 1. destruct (driver self) as [drv |] eqn:Hd; [| discriminate].
    cbn [getattr ret]. unfold bind at 1.
    destruct (detectType self value drv w) as [[valtype | e |] w2] eqn:Hdetect;
      try discriminate.
    unfold bind at 1.
    destruct (appendType_loop self d keys w2) as [[rest | e |] w3] eqn:Hrest;
      try discriminate.
    intros [= <-].
    destruct (IH w2 rest) as (valtypes & -> & Htypes); [by rewrite Hrest |].
    exists (valtype :: valtypes). split; [reflexivity |].
    constructor; [| exact Htypes].
    exists drv, value. split; [done |]. split; [done |].
    intros w'. rewrite (TypeInference.detectType_steady self value drv w' w).
    by rewrite Hdetect.
Qed.

(** C9: with [sortBefore] the CREATE TABLE text does not depend on the
    iteration order of the record: two records with the same items in
    different orders give the same statement (and the same run of
    [createTable] altogether).  The keys are taken in ascending
    code-point order, and the text the call returns lists the columns in
    that order: it is the statement frame around the sorted keys joined by
    a comma, each key as it is (sqlite without types) or quoted and
    followed by the type inferred for its value. *)
Theorem createTable_sorted_deterministic (self : iodb) (tablename : string)
    (d1 d2 : pydict) (useTypes save_ verbose : bool) (before after : string) :
  NoDup (dict_keys d1) -> d1 ≡ₚ d2 ->
  createTable_query self tablename d1 useTypes before after true
  = createTable_query self tablename d2 useTypes before after true
  /\ createTable self tablename d1 useTypes save_ before after verbose true
     = createTable self tablename d2 useTypes save_ before after verbose true
  /\ Sorted String.le (np_sort (dict_keys d1))
  /\ np_sort (dict_keys d1) ≡ₚ map rstrip_nul (dict_keys d1)
  /\ (forall w query,
        fst (createTable_query self tablename d1 useTypes before after true w)
        = Return query ->
        exists columns : list string,
          (columns = np_sort (dict_keys d1)
           \/ exists valtypes,
                columns = zip_with column (np_sort (dict_keys d1)) valtypes
                /\ Forall2 (fun key valtype =>
                              exists drv value,
                                driver self = Some drv /\ (key, value) ∈ d1
                                /\ forall w', fst (detectType self value drv w')
                                              = Return valtype)
                           (np_sort (dict_keys d1)) valtypes)
          /\ ((driver self = Some "sqlite"%string
               /\ query = ("CREATE TABLE IF NOT EXISTS " +:+ tablename +:+ " ("
                           +:+ (before +:+ join ", " columns +:+ after)
                           +:+ ")")%string)
              \/ (driver self = Some "postgre"%string
                  /\ exists rowid,
                       _rowid self = Some rowid
                       /\ query = ("CREATE TABLE IF NOT EXISTS " +:+ tablename
                                   +:+ " (" +:+ rowid +:+ " SERIAL PRIMARY KEY, "
                                   +:+ (before +:+ join ", " columns +:+ after)
                                   +:+ ")")%string))).
Proof.
  intros Hnodup Hperm.
  assert (Hquery : createTable_query self tablename d1 useTypes before after true
                   = createTable_query self tablename d2 useTypes before after true).
  { unfold createTable_query.
    by rewrite (appendType_permutation self d1 d2 useTypes Hnodup Hperm). }
  split; [exact Hquery |].
  split; [unfold createTable; by rewrite Hquery |].
  split; [apply (Sorted_merge_sort String.le) |].
  split; [apply merge_sort_Permutation |].
  intros w query. unfold createTable_query. unfold bind at 1.
  destruct (appendType self d1 useTypes true w) as [[names | e |] w1] eqn:Hnames;
    try discriminate.
  assert (Hcolumns : exists columns : list string,
             names = join ", " columns
             /\ (columns = np_sort (dict_keys d1)
                 \/ exists valtypes,
                      columns = zip_with column (np_sort (dict_keys d1)) valtypes
                      /\ Forall2 (fun key valtype =>
                                    exists drv value,
                                      driver self = Some drv /\ (key, value) ∈ d1
                                      /\ forall w', fst (detectType self value drv w')
                                                    = Return valtype)
                                 (np_sort (dict_keys d1)) valtypes)).
  { unfold appendType in Hnames. cbv zeta in Hnames.
    unfold bind at 1 in Hnames.
    destruct ((if negb useTypes
               then let* drv := getattr "driver" (driver self)
                    in ret (String.eqb drv "sqlite")
               else ret false) w) as [[untyped | e |] w0] eqn:Huntyped;
      try discriminate.
    destruct untyped.
    - injection Hnames as <- _. eexists. split; [reflexivity | by left].
    - unfold bind at 1 in Hnames.
      destruct (appendType_loop self d1 (np_sort (dict_keys d1)) w0)
        as [[entries | e |] w2] eqn:Hloop; try discriminate.
      injection Hnames as <- _.
      destruct (appendType_loop_columns self d1 (np_sort (dict_keys d1)) w0 entries)
        as (valtypes & -> & Htypes); [by rewrite Hloop |].
      eexists. split; [reflexivity |]. right. by exists valtypes. }
  destruct Hcolumns as (columns & -> & Hshape).
  unfold bind at 1. destruct (driver self) as [drv |] eqn:Hd; [| discriminate].
  cbn [getattr ret].
  destruct (String.eqb_spec drv "sqlite") as [-> | Hsqlite].
  - intros [= <-]. exists columns. split; [exact Hshape |]. by left.
  - destruct (String.eqb_spec drv "postgre") as [-> | Hpostgre]; [| discriminate].
    unfold bind at 1. destruct (_rowid self) as [rowid |] eqn:Hrowid; [| discriminate].
    intros [= <-]. exists columns. split; [exact Hshape |]. right.
    split; [done |]. by exists rowid.
Qed.

Lemma createTable_sorted_deterministic_witness :
  fst (createTable_query sqlite_session "data"
         [("b"%string, VInt 1); ("a"%string, VStr "x")] true "" "" true world0)
  = fst (createTable_query sqlite_session "data"
           [("a"%string, VStr "x"); ("b"%string, VInt 1)] true "" "" true world0).
Proof.
  destruct (createTable_sorted_deterministic sqlite_session "data"
              [("b"%string, VInt 1); ("a"%string, VStr "x")]
              [("a"%string, VStr "x"); ("b"%string, VInt 1)]
              true true false "" "") as (Hquery & _).
  - by apply (bool_decide_unpack _).
  - apply perm_swap.
  - by rewrite Hquery.
Defined.

(** The record of the specification's example, in both iteration orders. *)
Example createTable_b_a :
  fst (createTable_query sqlite_session "data"
         [("b"%string, VInt 1); ("a"%string, VStr "x")] true "" "" true world0)
  = Return "CREATE TABLE IF NOT EXISTS data ('a' TEXT, 'b' INTEGER)"%string.
Proof. vm_compute. reflexivity. Qed.

Example createTable_a_b :
  fst (createTable_query sqlite_session "data"
         [("a"%string, VStr "x"); ("b"%string, VInt 1)] true "" "" true world0)
  = Return "CREATE TABLE IF NOT EXISTS data ('a' TEXT, 'b' INTEGER)"%string.
Proof. vm_compute. reflexivity. Qed.

Example createTable_postgres :
  fst (createTable_query postgres_session "data"
         [("b"%string, VInt 1); ("a"%string, VStr "x")] true "" "" true world0)
  = Return ("CREATE TABLE IF NOT EXISTS data "
            +:+ "(oid SERIAL PRIMARY KEY, 'a' TEXT, 'b' INTEGER)")%string.
Proof. vm_compute. reflexivity. Qed.

(** Without sorting the columns follow the iteration order. *)
Example createTable_unsorted :
  fst (createTable_query sqlite_session "data"
         [("b"%string, VInt 1); ("a"%string, VStr "x")] true "" "" false world0)
  = Return "CREATE TABLE IF NOT EXISTS data ('b' INTEGER, 'a' TEXT)"%string.
Proof. vm_compute. reflexivity. Qed.

End Statements.

(** ** The array byte format *)

Module NpyFormat.
Import Npy.

Lemma expect_app text s : expect text (text +:+ s) = Some s.
Proof.
  induction text as [|c text IH]; [done |].
  change (String c text +:+ s) with (String c (text +:+ s)). simpl.
  by rewrite Ascii.eqb_refl.
Qed.

Lemma until_app stop before after :
  mentions stop before = false ->
  until stop (before +:+ String stop after) = Some (before, after).
Proof.
  induction before as [|a before IH]; intros Hfree.
  - change (until stop (String stop after) = Some (EmptyString, after)).
    simpl. by rewrite Ascii.eqb_refl.
  - change (String a before +:+ String stop after)
      with (String a (before +:+ String stop after)).
    simpl in *. apply orb_false_elim in Hfree as [Ha Hfree].
    rewrite Ha. by rewrite IH.
Qed.

Lemma lstrip_free s : mentions " " s = false -> lstrip s = s.
Proof.
  destruct s as [|a s]; [done |]. simpl. intros Hfree.
  apply orb_false_elim in Hfree as [Ha _]. by rewrite Ha.
Qed.

Lemma parse_dim_text n : parse_dim (dim_text n) = Some n.
Proof.
  unfold parse_dim, dim_text. rewrite lstrip_free by (by apply str_of_Z_mentions).
  rewrite int_of_str_of_Z. simpl. by rewrite DecimalZ.of_to, Nat2Z.id.
Qed.

Lemma parse_dim_spaced n : parse_dim (" " +:+ dim_text n) = Some n.
Proof. apply parse_dim_text. Qed.

Lemma dim_text_nonempty n : String.eqb (dim_text n) "" = false.
Proof.
  apply String.eqb_neq. intros Hempty.
  pose proof (int_of_str_of_Z (Z.of_nat n)) as Hparse.
  unfold dim_text in Hempty. by rewrite Hempty in Hparse.
Qed.

Lemma split_on_free stop s : mentions stop s = false -> split_on stop s = [s].
Proof.
  induction s as [|a s IH]; [done |]. simpl. intros Hfree.
  apply orb_false_elim in Hfree as [Ha Hfree]. by rewrite Ha, IH.
Qed.

Lemma split_on_app stop first rest :
  mentions stop first = false ->
  split_on stop (first +:+ String stop rest) = first :: split_on stop rest.
Proof.
  induction first as [|a first IH]; intros Hfree.
  - change (split_on stop (String stop rest) = EmptyString :: split_on stop rest).
    simpl. by rewrite Ascii.eqb_refl.
  - change (String a first +:+ String stop rest)
      with (String a (first +:+ String stop rest)).
    simpl in *. apply orb_false_elim in Hfree as [Ha Hfree].
    by rewrite Ha, IH.
Qed.

Lemma dim_text_mentions c n :
  mentions c "-0123456789" = false -> mentions c (dim_text n) = false.
Proof. apply str_of_Z_mentions. Qed.

(** Splitting the dimensions after the first at the commas. *)
Lemma split_more_dims first dims :
  mentions "," first = false ->
  split_on "," (first +:+ more_dims dims)
  = first :: map (fun n => " " +:+ dim_text n)%string dims.
Proof.
  revert first. induction dims as [|n dims IH]; intros first Hfree.
  - simpl. rewrite string_app_empty. by apply split_on_free.
  - cbn [more_dims map]. rewrite split_on_app by done.
    rewrite <- string_app_assoc. rewrite IH; [done |].
    rewrite mentions_app. by rewrite dim_text_mentions.
Qed.

Lemma keep_dims dims :
  List.filter (fun t => negb (String.eqb (lstrip t) ""))
              (map (fun n => " " +:+ dim_text n)%string dims)
  = map (fun n => " " +:+ dim_text n)%string dims.
Proof.
  induction dims as [|n dims IH]; [done |]. cbn [map List.filter].
  change (lstrip (" " +:+ dim_text n)) with (lstrip (dim_text n)).
  rewrite lstrip_free by (by apply dim_text_mentions).
  by rewrite dim_text_nonempty, IH.
Qed.

Lemma parse_spaced_dims dims :
  mapM parse_dim (map (fun n => " " +:+ dim_text n)%string dims) = Some dims.
Proof.
  induction dims as [|n dims IH]; [done |]. cbn [map mapM].
  rewrite parse_dim_spaced. cbn [mbind option_bind]. by rewrite IH.
Qed.

Lemma parse_shape_text dims : parse_shape (shape_text dims) = Some dims.
Proof.
  unfold parse_shape. destruct dims as [|n [|m dims]].
  - reflexivity.
  - cbn [shape_text].
    change (dim_text n +:+ ",")%string with (dim_text n +:+ String "," "").
    rewrite split_on_app by (by apply dim_text_mentions).
    cbn [split_on List.filter]. rewrite lstrip_free by (by apply dim_text_mentions).
    rewrite dim_text_nonempty. cbn [negb lstrip String.eqb List.filter mapM].
    rewrite parse_dim_text. reflexivity.
  - cbn [shape_text]. rewrite split_more_dims by (by apply dim_text_mentions).
    cbn [List.filter]. rewrite lstrip_free by (by apply dim_text_mentions).
    rewrite dim_text_nonempty. cbn [negb]. rewrite keep_dims.
    cbn [mapM]. rewrite parse_dim_text. cbn [mbind option_bind].
    by rewrite (parse_spaced_dims (m :: dims)).
Qed.

Lemma more_dims_mentions c dims :
  mentions c "-0123456789, " = false -> mentions c (more_dims dims) = false.
Proof.
  intros Hc.
  assert (Hnum : mentions c "-0123456789" = false /\ Ascii.eqb "," c = false
                 /\ Ascii.eqb " " c = false).
  { simpl in *. repeat (apply orb_false_elim in Hc as [? Hc]).
    repeat split; auto. repeat (apply orb_false_intro; auto). }
  destruct Hnum as (Hnum & Hcomma & Hspace).
  induction dims as [|n dims IH]; [done |]. cbn [more_dims mentions].
  rewrite Hcomma. change (" " +:+ dim_text n +:+ more_dims dims)%string
    with (String " " (dim_text n +:+ more_dims dims)).
  cbn [mentions]. rewrite Hspace, mentions_app, IH.
  by rewrite dim_text_mentions.
Qed.

Lemma shape_text_mentions c dims :
  mentions c "-0123456789, " = false -> mentions c (shape_text dims) = false.
Proof.
  intros Hc.
  assert (Hnum : mentions c "-0123456789" = false /\ mentions c "," = false).
  { simpl in *. repeat (apply orb_false_elim in Hc as [? Hc]).
    split; repeat (apply orb_false_intro; auto). }
  destruct Hnum as (Hnum & Hcomma).
  destruct dims as [|n [|m dims]]; [done | |]; cbn [shape_text];
    rewrite mentions_app, dim_text_mentions by done; [done |].
  by rewrite more_dims_mentions.
Qed.

Lemma parse_header_header a :
  mentions "'" (dtype a) = false ->
  parse_header (header a) = Some (dtype a, fortran_order a, shape a).
Proof.
  intros Hdtype. unfold parse_header, header.
  rewrite expect_app. cbn [mbind option_bind].
  rewrite until_app by done. cbn [mbind option_bind].
  rewrite expect_app. cbn [mbind option_bind].
  rewrite until_app by (by destruct (fortran_order a)). cbn [mbind option_bind].
  replace (parse_order (order_text (fortran_order a)))
    with (Some (fortran_order a)) by (by destruct (fortran_order a)).
  cbn [mbind option_bind].
  rewrite expect_app. cbn [mbind option_bind].
  rewrite until_app by (by apply shape_text_mentions). cbn [mbind option_bind].
  rewrite parse_shape_text. cbn [mbind option_bind].
  rewrite expect_app. reflexivity.
Qed.

Lemma length_bytes_of_string s :
  length (list_byte_of_string s) = String.length s.
Proof.
  unfold list_byte_of_string. rewrite List.length_map.
  induction s as [|a s IH]; [done |]. simpl. by rewrite IH.
Qed.

Lemma le16_value n lo hi :
  (n < 256 * 256)%nat -> le16 n = [lo; hi] ->
  (Byte.to_nat lo + 256 * Byte.to_nat hi)%nat = n.
Proof.
  intros Hn. unfold le16.
  assert (Hlo : (n mod 256 < 256)%nat) by (apply Nat.mod_upper_bound; lia).
  assert (Hhi : (n / 256 < 256)%nat) by (apply Nat.Div0.div_lt_upper_bound; lia).
  destruct (Byte.of_nat (n mod 256)) as [b0 |] eqn:H0;
    [| apply Byte.of_nat_None_iff in H0; lia].
  destruct (Byte.of_nat (n / 256)) as [b1 |] eqn:H1;
    [| apply Byte.of_nat_None_iff in H1; lia].
  intros Heq. injection Heq as Hb0 Hb1. cbn in Hb0, Hb1. subst lo hi.
  apply Byte.to_of_nat in H0, H1. rewrite H0, H1.
  pose proof (Nat.div_mod_eq n 256). lia.
Qed.

Lemma assoc_plain key width :
  Npy.assoc key dtypes = Some width -> mentions "'" key = false.
Proof.
  unfold dtypes. cbn [Npy.assoc].
  repeat match goal with
         | |- context [String.eqb ?k key] =>
             destruct (String.eqb_spec k key) as [<- | _]; [by intros _ |]
         end.
  by intros.
Qed.

(** The array byte format reads back what it wrote. *)
Lemma loads_dumps a : supported a -> loads (dumps a) = Return a.
Proof.
  intros [(width & Hwidth & Hdata) Hlen]. unfold loads, dumps.
  change (take 8 (magic ++ ?rest)) with magic.
  rewrite String.eqb_refl.
  change (drop 8 (magic ++ ?rest)) with rest.
  destruct (le16 (String.length (header a))) as [|lo [|hi [|? ?]]] eqn:Hle;
    try discriminate.
  cbn [app]. rewrite (le16_value _ lo hi Hlen Hle).
  rewrite <- (length_bytes_of_string (header a)).
  rewrite take_app_length, drop_app_length.
  rewrite string_of_list_byte_of_string.
  rewrite parse_header_header by (by apply (assoc_plain _ width)).
  rewrite Hwidth, <- Hdata. rewrite Nat.ltb_irrefl.
  rewrite firstn_all. by destruct a.
Qed.

End NpyFormat.

(** ** Array adapters *)

Module Codec.

Section WithLibraries.

Variable npy_dumps : ndarray -> list byte.
Variable npy_loads : list byte -> outcome ndarray.
Variable gzip_decompress : list byte -> outcome (list byte).
Variable utf8_decode : list byte -> outcome string.
Variable pg_BINARY : pyvalue -> cursor -> outcome pyvalue.
Variable pg_STRING : pyvalue -> cursor -> outcome pyvalue.

Lemma os_path_isfile_run path w :
  os_imported w = true ->
  os_path_isfile path w = (Return (isfile w path), emit (EIsFile path) w).
Proof. intros Hos. unfold os_path_isfile, bind, use_os. by rewrite Hos. Qed.

Lemma saved_bytes arr :
  fst (BytesIO.read (BytesIO.seek (np_save npy_dumps (BytesIO.new []) arr) 0))
  = npy_dumps arr.
Proof.
  unfold np_save, BytesIO.write, BytesIO.seek, BytesIO.read, BytesIO.new.
  simpl. rewrite drop_nil. by rewrite app_nil_r.
Qed.

Lemma adapt_array_sqlite self arr w :
  driver self = Some "sqlite"%string ->
  _adapt_array npy_dumps self arr w = (Return (VBytes (npy_dumps arr)), w).
Proof.
  intros Hd. unfold _adapt_array, bind. rewrite Hd. cbn [getattr ret].
  cbn [String.eqb Ascii.eqb Bool.eqb]. by rewrite saved_bytes.
Qed.

Lemma adapt_array_postgres self arr w :
  driver self = Some "postgre"%string ->
  _adapt_array npy_dumps self arr w = (Return (VPgBinary (npy_dumps arr)), w).
Proof.
  intros Hd. unfold _adapt_array, bind. rewrite Hd. cbn [getattr ret].
  cbn [String.eqb Ascii.eqb Bool.eqb]. by rewrite saved_bytes.
Qed.

Lemma typecast_array_bytes self blob w :
  _typecast_array npy_loads pg_BINARY self (VBytes blob) None w
  = (as_array (npy_loads blob), w).
Proof.
  unfold _typecast_array, bind, np_load, bind, lift. simpl.
  rewrite drop_0. by destruct (npy_loads blob).
Qed.

(** The adapters preserve whatever round trip the array codec has: on
    sqlite the blob goes straight into [_typecast_array]; on postgres it
    comes back through the [BINARY] typecaster of the driver. *)
Lemma array_roundtrip_given_codec (self : iodb) (x : ndarray) (w : world) :
  npy_loads (npy_dumps x) = Return x ->
  (driver self = Some "sqlite"%string ->
   exists blob,
     _adapt_array npy_dumps self x w = (Return (VBytes blob), w)
     /\ _typecast_array npy_loads pg_BINARY self (VBytes blob) None w
        = (Return (VNdarray x), w))
  /\ (driver self = Some "postgre"%string ->
      exists blob,
        _adapt_array npy_dumps self x w = (Return (VPgBinary blob), w)
        /\ forall wire c,
             pg_BINARY wire c = Return (VBytes blob) -> is_None wire = false ->
             _typecast_array npy_loads pg_BINARY self wire (Some c) w
             = (Return (VNdarray x), w)).
Proof.
  intros Hcodec. split; intros Hd.
  - exists (npy_dumps x). split; [by apply adapt_array_sqlite |].
    rewrite typecast_array_bytes. by rewrite Hcodec.
  - exists (npy_dumps x). split; [by apply adapt_array_postgres |].
    intros wire c Hwire Hnot.
    unfold _typecast_array. rewrite Hnot. simpl.
    unfold bind. rewrite Hd. cbn [getattr ret String.eqb Ascii.eqb Bool.eqb].
    unfold lift. rewrite Hwire. simpl. unfold np_load, bind, lift. simpl.
    rewrite drop_0. by rewrite Hcodec.
Qed.

(** C10: with a cursor supplied, both converters map [None] to [None]
    at once: whatever the libraries would decode, whatever the session,
    and leaving the environment (event log and filesystem) exactly as it
    was, so without any access to a file; they do not raise. *)
Theorem typecast_null_is_none (self : iodb) (c : cursor) (w : world) :
  _typecast_array npy_loads pg_BINARY self VNone (Some c) w = (Return VNone, w)
  /\ _typecast_array_ext npy_loads gzip_decompress utf8_decode pg_STRING
       self VNone (Some c) w = (Return VNone, w).
Proof. split; reflexivity. Qed.

Lemma typecast_array_ext_stages self value cur name w :
  is_None value && bool_decide (is_Some cur) = false ->
  _typecast_array_ext_value utf8_decode pg_STRING self value cur w
  = (Return (VStr name), w) ->
  _typecast_array_ext npy_loads gzip_decompress utf8_decode pg_STRING
    self value cur w
  = _typecast_array_ext_load npy_loads gzip_decompress self (VStr name) w.
Proof.
  intros Hnot Hvalue. unfold _typecast_array_ext. rewrite Hnot.
  unfold bind. by rewrite Hvalue.
Qed.

Lemma typecast_array_ext_value_sqlite self blob name w :
  utf8_decode blob = Return name ->
  _typecast_array_ext_value utf8_decode pg_STRING self (VBytes blob) None w
  = (Return (VStr name), w).
Proof.
  intros Hname. unfold _typecast_array_ext_value, bind, lift. by rewrite Hname.
Qed.

(** C6, with the precondition the module's lines 50-51 set for the
    external storage: with [os] imported, on the external read path, a
    session configured for compressed
    reads tries the compressed sibling first and falls back to the
    uncompressed file; a session not so configured reads the
    uncompressed file; and when neither file exists the read raises
    [FileNotFoundError] and returns no array. *)
Theorem external_read (self : iodb) (name : string) (w : world) :
  os_imported w = true ->
  let fname := (_spath self +:+ name +:+ ".npy")%string in
  let gz := (fname +:+ ".gz")%string in
  let load := _typecast_array_ext_load npy_loads gzip_decompress self (VStr name) in
  (loadZipped self = true ->
   forall raw, fs w !! gz = Some (RegularFile raw) ->
     load w = (as_array (and_then (gzip_decompress raw) npy_loads),
               emits [EIsFile gz; EOpenRead gz] w))
  /\ (loadZipped self = true -> isfile w gz = false ->
      forall content, fs w !! fname = Some (RegularFile content) ->
        load w = (as_array (npy_loads content),
                  emits [EIsFile gz; EIsFile fname; EOpenRead fname] w))
  /\ (loadZipped self = false ->
      forall content, fs w !! fname = Some (RegularFile content) ->
        load w = (as_array (npy_loads content),
                  emits [EIsFile fname; EOpenRead fname] w))
  /\ (isfile w gz = false -> isfile w fname = false ->
      fst (load w)
      = Raise (FileNotFoundError
                 (Msg "No such file or directory '{0}'" [AStr fname])))
  /\ (forall value cur,
        is_None value && bool_decide (is_Some cur) = false ->
        _typecast_array_ext_value utf8_decode pg_STRING self value cur w
        = (Return (VStr name), w) ->
        _typecast_array_ext npy_loads gzip_decompress utf8_decode pg_STRING
          self value cur w = load w).
Proof.
  intros Hos fname gz load. repeat split;
    [| | | | intros value cur Hnot Hvalue; by apply typecast_array_ext_stages].
  - intros Hzip raw Hraw. unfold load, _typecast_array_ext_load.
    cbn [as_text]. rewrite bind_ret. fold fname. fold gz. rewrite Hzip.
    unfold bind at 1. rewrite (os_path_isfile_run gz w Hos).
    unfold isfile. rewrite Hraw.
    unfold bind, read_file, lift. simpl. rewrite Hraw.
    rewrite !emit_emits, !emits_emits. simpl app.
    destruct (gzip_decompress raw) as [content | e |]; simpl; try done.
    by destruct (npy_loads content).
  - intros Hzip Hnogz content Hcontent. unfold load, _typecast_array_ext_load.
    cbn [as_text]. rewrite bind_ret. fold fname. fold gz. rewrite Hzip.
    unfold bind at 1. rewrite (os_path_isfile_run gz w Hos). rewrite Hnogz.
    unfold bind at 1.
    rewrite (os_path_isfile_run fname (emit (EIsFile gz) w) Hos).
    unfold isfile. simpl. rewrite Hcontent.
    unfold bind, read_file, lift. simpl. rewrite Hcontent.
    rewrite !emit_emits, !emits_emits. simpl app.
    by destruct (npy_loads content).
  - intros Hzip content Hcontent. unfold load, _typecast_array_ext_load.
    cbn [as_text]. rewrite bind_ret. fold fname. fold gz. rewrite Hzip.
    rewrite bind_ret.
    unfold bind at 1. rewrite (os_path_isfile_run fname w Hos).
    unfold isfile. rewrite Hcontent.
    unfold bind, read_file, lift. simpl. rewrite Hcontent.
    rewrite !emit_emits, !emits_emits. simpl app.
    by destruct (npy_loads content).
  - intros Hnogz Hnoplain. unfold load, _typecast_array_ext_load.
    cbn [as_text]. rewrite bind_ret. fold fname. fold gz.
    destruct (loadZipped self).
    + unfold bind at 1. rewrite (os_path_isfile_run gz w Hos). rewrite Hnogz.
      unfold bind at 1.
      rewrite (os_path_isfile_run fname (emit (EIsFile gz) w) Hos).
      replace (isfile (emit (EIsFile gz) w) fname) with false by done.
      reflexivity.
    + rewrite bind_ret. unfold bind at 1.
      rewrite (os_path_isfile_run fname w Hos). rewrite Hnoplain. reflexivity.
Qed.
End WithLibraries.

(** C1: for every supported array [x], zero-length arrays and
    0-dimensional arrays of shape [()] included, decoding the bytes that
    the embedded-array encoder produced gives [x] back, with the same
    dtype, shape, order and element bytes: on sqlite the blob goes
    straight into the decoder, on postgres it comes back through the
    [BINARY] typecaster of the driver. *)
Theorem array_roundtrip (pg_BINARY : pyvalue -> cursor -> outcome pyvalue)
    (self : iodb) (x : ndarray) (w : world) :
  Npy.supported x ->
  (driver self = Some "sqlite"%string ->
   exists blob,
     _adapt_array Npy.dumps self x w = (Return (VBytes blob), w)
     /\ _typecast_array Npy.loads pg_BINARY self (VBytes blob) None w
        = (Return (VNdarray x), w))
  /\ (driver self = Some "postgre"%string ->
      exists blob,
        _adapt_array Npy.dumps self x w = (Return (VPgBinary blob), w)
        /\ forall wire c,
             pg_BINARY wire c = Return (VBytes blob) -> is_None wire = false ->
             _typecast_array Npy.loads pg_BINARY self wire (Some c) w
             = (Return (VNdarray x), w)).
Proof.
  intros Hsupported.
  apply array_roundtrip_given_codec. by apply NpyFormat.loads_dumps.
Qed.

Lemma supported_pi_digits : Npy.supported pi_digits.
Proof.
  split; [exists 8%nat; by split |]. apply Nat.ltb_lt. vm_compute. reflexivity.
Qed.

Lemma supported_empty_array : Npy.supported empty_array.
Proof.
  split; [exists 8%nat; by split |]. apply Nat.ltb_lt. vm_compute. reflexivity.
Qed.

Lemma supported_scalar_array : Npy.supported scalar_array.
Proof.
  split; [exists 8%nat; by split |]. apply Nat.ltb_lt. vm_compute. reflexivity.
Qed.

Lemma array_roundtrip_witness :
  exists blob,
    _adapt_array Npy.dumps sqlite_session pi_digits world0
    = (Return (VBytes blob), world0)
    /\ _typecast_array Npy.loads pg_identity sqlite_session (VBytes blob) None world0
       = (Return (VNdarray pi_digits), world0).
Proof.
  destruct (array_roundtrip pg_identity sqlite_session pi_digits world0)
    as [Hsqlite _].
  - split; [exists 8%nat; split; reflexivity |].
    apply Nat.ltb_lt. vm_compute. reflexivity.
  - apply Hsqlite. reflexivity.
Defined.

(** The edge cases through the adapters of a sqlite session. *)
Example roundtrip_zero_length_sqlite :
  _adapt_array Npy.dumps sqlite_session empty_array world0
  = (Return (VBytes (Npy.dumps empty_array)), world0)
  /\ _typecast_array Npy.loads pg_identity sqlite_session
       (VBytes (Npy.dumps empty_array)) None world0
     = (Return (VNdarray empty_array), world0).
Proof. split; vm_compute; reflexivity. Qed.

Example roundtrip_zero_dimensional_sqlite :
  _adapt_array Npy.dumps sqlite_session scalar_array world0
  = (Return (VBytes (Npy.dumps scalar_array)), world0)
  /\ _typecast_array Npy.loads pg_identity sqlite_session
       (VBytes (Npy.dumps scalar_array)) None world0
     = (Return (VNdarray scalar_array), world0).
Proof. split; vm_compute; reflexivity. Qed.

(** A stream that does not start with the magic string is refused, and so
    is an element type outside the table. *)
Example loads_bad_magic : Npy.loads [x00; x01; x02] = Raise FormatError.
Proof. vm_compute. reflexivity. Qed.

Example loads_unknown_dtype :
  Npy.loads (Npy.dumps (Ndarray "|O" [1%nat] false [])) = Raise UnsupportedDtypeError.
Proof. vm_compute. reflexivity. Qed.

Example roundtrip_zero_length :
  Npy.loads (Npy.dumps empty_array) = Return empty_array.
Proof. vm_compute. reflexivity. Qed.

Example roundtrip_zero_dimensional :
  Npy.loads (Npy.dumps scalar_array) = Return scalar_array.
Proof. vm_compute. reflexivity. Qed.

Example roundtrip_column_major :
  Npy.loads (Npy.dumps matrix_array) = Return matrix_array.
Proof. vm_compute. reflexivity. Qed.

Example dumps_is_aligned : length (Npy.dumps pi_digits) = (128 + 32)%nat.
Proof. vm_compute. reflexivity. Qed.

Lemma external_read_witness :
  fst (_typecast_array_ext_load Npy.loads gzip_unsupported sqlite_session
         (VStr sample_reference) world0)
  = Raise (FileNotFoundError
             (Msg "No such file or directory '{0}'"
                  [AStr ("./" +:+ sample_reference +:+ ".npy")%string])).
Proof.
  destruct (external_read Npy.loads gzip_unsupported ascii_decode pg_identity
              sqlite_session sample_reference world0 eq_refl)
    as (_ & _ & _ & Hmissing & _).
  apply Hmissing; reflexivity.
Defined.

(** The claim as it stands, without that precondition, fails on the file
    as it is checked in: with neither file there the read raises
    [NameError] at line 308, not [FileNotFoundError], and with the file
    there it raises the same and returns no array; a session configured
    for compressed reads raises at line 305. *)
Lemma external_read_fails_as_shipped :
  _typecast_array_ext Npy.loads gzip_unsupported ascii_decode pg_identity
    sqlite_session (VBytes (list_byte_of_string sample_reference)) None
    shipped_world
  = (Raise (NameError "os"), shipped_world)
  /\ fst (_typecast_array_ext Npy.loads gzip_unsupported ascii_decode pg_identity
            sqlite_session (VBytes (list_byte_of_string sample_reference)) None
            (set_fs (fs world_with_sample) shipped_world))
     = Raise (NameError "os").
Proof. split; vm_compute; reflexivity. Qed.

(** Reading back the sample array through its reference. *)
Example external_read_sample :
  fst (_typecast_array_ext Npy.loads gzip_unsupported ascii_decode pg_identity
         sqlite_session (VBytes (list_byte_of_string sample_reference)) None
         world_with_sample)
  = Return (VNdarray pi_digits).
Proof. vm_compute. reflexivity. Qed.

End Codec.

(** * Further properties *)

(** ** What type inference does to the environment and what it answers *)

Module InferenceOutcome.

Lemma printing_ret {A} (a : A) : printing (ret a).
Proof. intros w. exists []. split; [by rewrite emits_nil | done]. Qed.

Lemma printing_raise {A} e : printing (@raise A e).
Proof. intros w. exists []. split; [by rewrite emits_nil | done]. Qed.

Lemma printing_print parts : printing (print parts).
Proof. intros w. exists [parts]. split; [done | done]. Qed.

Lemma printing_getattr {A} name (field : option A) : printing (getattr name field).
Proof. destruct field; [apply printing_ret | apply printing_raise]. Qed.

Lemma printing_bind {A B} (m : M A) (k : A -> M B) :
  printing m -> (forall a, printing (k a)) -> printing (bind m k).
Proof.
  intros Hm Hk w. unfold bind. destruct (Hm w) as (p1 & Hw1 & Hfuel).
  destruct (m w) as [[a | e |] w1]; simpl in *; subst w1.
  - destruct (Hk a (emits (map EPrint p1) w)) as (p2 & Hw2 & Hfuel2).
    exists (p1 ++ p2). rewrite Hw2, emits_emits, map_app. done.
  - exists p1. done.
  - done.
Qed.

Lemma printing_if {A} (b : bool) (m1 m2 : M A) :
  printing m1 -> printing m2 -> printing (if b then m1 else m2).
Proof. by destruct b. Qed.

Ltac printing :=
  repeat first
    [ apply printing_ret | apply printing_raise | apply printing_print
    | apply printing_getattr | apply printing_if
    | apply printing_bind; [| intros ?] ].

Fixpoint detectType_printing (self : iodb) (value : pyvalue)
    (dbdriver : string) {struct value} : printing (detectType self value dbdriver).
Proof.
  destruct value; simpl; try (clear detectType_printing; by printing).
  - destruct items as [|element [|second rest]];
      [clear detectType_printing; by printing | | clear detectType_printing; by printing].
    apply printing_bind; [apply printing_print | intros _].
    apply (detectType_printing self element dbdriver).
  - destruct items as [|element [|second rest]];
      [clear detectType_printing; by printing | | clear detectType_printing; by printing].
    apply printing_bind; [apply printing_print | intros _].
    apply (detectType_printing self element dbdriver).
Qed.

Lemma answers_ret {A} (t : A) : answers (ret (Some t)).
Proof. intros w. left. by eexists. Qed.

Lemma answers_raise {A} e : answers (@raise (option A) e).
Proof. intros w. right. by eexists. Qed.

Lemma answers_if {A} (b : bool) (m1 m2 : M (option A)) :
  answers m1 -> answers m2 -> answers (if b then m1 else m2).
Proof. by destruct b. Qed.

Lemma answers_getattr {A} name (field : option A) :
  answers (let* t := getattr name field in ret (Some t)).
Proof. destruct field; intros w; [left | right]; by eexists. Qed.

Lemma answers_print {A} parts (m : M (option A)) :
  answers m -> answers (print parts ;; m).
Proof. intros Hm w. unfold bind, print. apply Hm. Qed.

Ltac answers :=
  repeat first [ apply answers_ret | apply answers_raise
               | apply answers_getattr | apply answers_print
               | apply answers_if ].

Fixpoint detectType_answers_sqlite (self : iodb) (value : pyvalue)
    {struct value} : answers (detectType self value "sqlite").
Proof.
  destruct value; simpl; try (clear detectType_answers_sqlite; by answers).
  - destruct items as [|element [|second rest]];
      [apply answers_raise | | apply answers_raise].
    apply answers_print, (detectType_answers_sqlite self element).
  - destruct items as [|element [|second rest]];
      [apply answers_raise | | apply answers_raise].
    apply answers_print, (detectType_answers_sqlite self element).
Qed.

Fixpoint detectType_answers_postgre (self : iodb) (value : pyvalue)
    {struct value} : answers (detectType self value "postgre").
Proof.
  destruct value; simpl; try (clear detectType_answers_postgre; by answers).
  - destruct items as [|element [|second rest]];
      [apply answers_raise | | apply answers_raise].
    apply answers_print, (detectType_answers_postgre self element).
  - destruct items as [|element [|second rest]];
      [apply answers_raise | | apply answers_raise].
    apply answers_print, (detectType_answers_postgre self element).
Qed.

Lemma scripted_ret {A} (a : A) : scripted (ret a).
Proof. exists (Return a), []. intros w. by rewrite emits_nil. Qed.

Lemma scripted_raise {A} e : scripted (@raise A e).
Proof. exists (Raise e), []. intros w. by rewrite emits_nil. Qed.

Lemma scripted_print parts : scripted (print parts).
Proof. by exists (Return tt), [parts]. Qed.

Lemma scripted_getattr {A} name (field : option A) : scripted (getattr name field).
Proof. destruct field; [apply scripted_ret | apply scripted_raise]. Qed.

Lemma scripted_bind {A B} (m : M A) (k : A -> M B) :
  scripted m -> (forall a, scripted (k a)) -> scripted (bind m k).
Proof.
  intros (o & p1 & Hm) Hk. destruct o as [a | e |].
  - destruct (Hk a) as (o2 & p2 & Hka). exists o2, (p1 ++ p2). intros w.
    unfold bind. by rewrite Hm, Hka, emits_emits, map_app.
  - exists (Raise e), p1. intros w. unfold bind. by rewrite Hm.
  - exists OutOfFuel, p1. intros w. unfold bind. by rewrite Hm.
Qed.

Lemma scripted_if {A} (b : bool) (m1 m2 : M A) :
  scripted m1 -> scripted m2 -> scripted (if b then m1 else m2).
Proof. by destruct b. Qed.

Ltac scripted :=
  repeat first
    [ apply scripted_ret | apply scripted_raise | apply scripted_print
    | apply scripted_getattr | apply scripted_if
    | apply scripted_bind; [| intros ?] ].

Fixpoint detectType_scripted (self : iodb) (value : pyvalue)
    (dbdriver : string) {struct value} : scripted (detectType self value dbdriver).
Proof.
  destruct value; simpl; try (clear detectType_scripted; by scripted).
  - destruct items as [|element [|second rest]];
      [clear detectType_scripted; by scripted | | clear detectType_scripted; by scripted].
    apply scripted_bind; [apply scripted_print | intros _].
    apply (detectType_scripted self element dbdriver).
  - destruct items as [|element [|second rest]];
      [clear detectType_scripted; by scripted | | clear detectType_scripted; by scripted].
    apply scripted_bind; [apply scripted_print | intros _].
    apply (detectType_scripted self element dbdriver).
Qed.

(** X1: [detectType] does nothing but print, and does the same in every
    environment: for a session, a value and a dialect name there is one
    answer (a type name, [None] or an exception) and one list of output
    lines such that every call gives that answer and leaves the
    environment as it was except for those lines added to the output.  It
    reads and changes no file and hands nothing to the driver. *)
Theorem detectType_only_prints (self : iodb) (value : pyvalue)
    (dbdriver : string) :
  exists (answer : outcome (option string)) (printed : list (list message)),
    forall w : world,
      detectType self value dbdriver w = (answer, emits (map EPrint printed) w).
Proof. exact (detectType_scripted self value dbdriver). Qed.

(** X2: for the two dialects the module knows, [detectType] never
    answers [None]: it returns a type name or raises. *)
Theorem detectType_never_none (self : iodb) (value : pyvalue)
    (dbdriver : string) (w : world) :
  dbdriver = "sqlite"%string \/ dbdriver = "postgre"%string ->
  (exists t, fst (detectType self value dbdriver w) = Return (Some t))
  \/ (exists e, fst (detectType self value dbdriver w) = Raise e).
Proof.
  intros [-> | ->];
    [apply detectType_answers_sqlite | apply detectType_answers_postgre].
Qed.

Lemma detectType_never_none_witness :
  (exists t, fst (detectType postgres_session (VList [VBool true]) "postgre" world0)
             = Return (Some t))
  \/ (exists e, fst (detectType postgres_session (VList [VBool true]) "postgre" world0)
                = Raise e).
Proof.
  apply (detectType_never_none postgres_session (VList [VBool true]) "postgre" world0).
  by right.
Defined.

(** Another dialect name can make it answer [None]. *)
Example detectType_none_on_unknown_dialect :
  detectType sqlite_session (VBool true) "mysql" world0 = (Return None, world0).
Proof. reflexivity. Qed.

End InferenceOutcome.

(** ** What the statement methods hand to the driver *)

Module StatementEffects.

Import InferenceOutcome.

Lemma dict_get_printing d key : printing (dict_get d key).
Proof.
  induction d as [|[k v] d IH]; simpl; [apply printing_raise |].
  apply printing_if; [apply printing_ret | apply IH].
Qed.

Lemma appendType_loop_printing self d keys : printing (appendType_loop self d keys).
Proof.
  induction keys as [|key keys IH]; simpl; [apply printing_ret |].
  apply printing_bind; [apply dict_get_printing | intros value].
  apply printing_bind; [apply printing_getattr | intros drv].
  apply printing_bind; [apply detectType_printing | intros valtype].
  apply printing_bind; [apply IH | intros names]. apply printing_ret.
Qed.

Lemma appendType_printing self d useTypes sortBefore :
  printing (appendType self d useTypes sortBefore).
Proof.
  unfold appendType.
  apply printing_bind; [by printing | intros untyped].
  apply printing_if; [apply printing_ret |].
  apply printing_bind; [apply appendType_loop_printing | intros names].
  apply printing_ret.
Qed.

Lemma createTable_query_printing self t d useTypes before after sortBefore :
  printing (createTable_query self t d useTypes before after sortBefore).
Proof.
  unfold createTable_query.
  apply printing_bind; [apply appendType_printing | intros names]. by printing.
Qed.

Lemma dict_values_printing d keys : printing (dict_values d keys).
Proof.
  induction keys as [|key keys IH]; simpl; [apply printing_ret |].
  apply printing_bind; [apply dict_get_printing | intros value].
  apply printing_bind; [apply IH | intros values]. apply printing_ret.
Qed.

Lemma no_execute_in_prints printed : existsb is_execute (map EPrint printed) = false.
Proof. by induction printed. Qed.

(** X3: [createTable] is all or nothing towards the driver.  What it
    raises on its own account (type inference, key lookup, a missing
    attribute) it raises before anything reaches the driver: it has done
    nothing but print, no statement was executed, nothing committed.
    Otherwise it hands the driver exactly one statement, the one it
    composed, after its printing, and commits once if [save] was asked for
    and not otherwise.  (Errors of the driver itself are outside the
    model: [execute] and [commit] are taken to return.) *)
Theorem createTable_all_or_nothing (self : iodb) (tablename : string)
    (indict : pydict) (useTypes save_ : bool) (before after : string)
    (verbose sortBefore : bool) (w : world) :
  (exists e printed,
      createTable self tablename indict useTypes save_ before after verbose
        sortBefore w
      = (Raise e, emits (map EPrint printed) w))
  \/ (exists query printed,
        fst (createTable_query self tablename indict useTypes before after
               sortBefore w) = Return query
        /\ createTable self tablename indict useTypes save_ before after verbose
             sortBefore w
           = (Return tt,
              emits (map EPrint printed ++ EExecute query []
                       :: (if save_ then [ECommit] else [])) w)).
Proof.
  destruct (createTable_query_printing self tablename indict useTypes before
              after sortBefore w) as (printed & Hworld & Hfuel).
  unfold createTable, bind.
  destruct (createTable_query self tablename indict useTypes before after
              sortBefore w) as [[query | e |] w1]; simpl in *; subst w1.
  - right. exists query.
    exists (printed ++ if verbose then [[Msg "{}" [AStr query]]] else []).
    split; [done |].
    destruct verbose, save_; unfold print, execute, save, bind, ret; simpl;
      rewrite ?emit_emits, ?emits_emits, ?map_app, <- ?app_assoc; simpl;
      rewrite ?app_nil_r; reflexivity.
  - left. by exists e, printed.
  - done.
Qed.

(** X4: on sqlite with [useTypes=False] the statement lists the keys as
    they are, without quotes and without types, and no value is looked at:
    the call composes its statement whatever the record holds, also values
    type inference would refuse. *)
Theorem createTable_untyped_sqlite (self : iodb) (tablename : string)
    (indict : pydict) (before after : string) (sortBefore : bool) (w : world) :
  driver self = Some "sqlite"%string ->
  createTable_query self tablename indict false before after sortBefore w
  = (Return ("CREATE TABLE IF NOT EXISTS " +:+ tablename +:+ " ("
             +:+ (before
                  +:+ join ", " (if sortBefore then np_sort (dict_keys indict)
                                 else dict_keys indict)
                  +:+ after) +:+ ")")%string, w).
Proof.
  intros Hd. unfold createTable_query, appendType, bind. rewrite Hd. simpl.
  by destruct sortBefore.
Qed.

Lemma createTable_untyped_sqlite_witness :
  createTable_query sqlite_session "data"
    [("b"%string, VNone); ("a"%string, VStr "x")] false "" "" false world0
  = (Return "CREATE TABLE IF NOT EXISTS data (b, a)"%string, world0).
Proof.
  apply (createTable_untyped_sqlite sqlite_session "data"
           [("b"%string, VNone); ("a"%string, VStr "x")] "" "" false world0).
  reflexivity.
Defined.

(** X5: [useTypes] is looked at on sqlite only: with any other driver
    name the column list is the same with [useTypes=False] as with
    [useTypes=True], types included. *)
Theorem useTypes_ignored_off_sqlite (self : iodb) (drv : string)
    (indict : pydict) (sortBefore : bool) (w : world) :
  driver self = Some drv -> drv <> "sqlite"%string ->
  appendType self indict false sortBefore w
  = appendType self indict true sortBefore w.
Proof.
  intros Hd Hne. apply String.eqb_neq in Hne.
  unfold appendType. rewrite Hd. cbn [negb getattr].
  unfold bind at 1. unfold bind at 1. unfold ret at 1. unfold ret at 1.
  rewrite Hne. reflexivity.
Qed.

Lemma useTypes_ignored_off_sqlite_witness :
  appendType postgres_session [("a"%string, VInt 1)] false false world0
  = appendType postgres_session [("a"%string, VInt 1)] true false world0.
Proof.
  apply (useTypes_ignored_off_sqlite postgres_session "postgre"
           [("a"%string, VInt 1)] false world0); [reflexivity | discriminate].
Defined.

Example appendType_postgres_untyped :
  fst (appendType postgres_session [("a"%string, VInt 1)] false false world0)
  = Return "'a' INTEGER"%string.
Proof. vm_compute. reflexivity. Qed.

Lemma dict_values_items (d items : pydict) :
  NoDup (dict_keys d) -> (forall item, item ∈ items -> item ∈ d) ->
  dict_values d (map fst items) = ret (map snd items).
Proof.
  intros Hnodup. induction items as [|[k v] items IH]; intros Hin; [done |].
  cbn [map dict_values fst snd].
  rewrite (Statements.dict_get_present d k v Hnodup) by (apply Hin; left).
  rewrite IH by (intros item Hitem; apply Hin; by right). reflexivity.
Qed.

Lemma dict_values_all (d : pydict) :
  NoDup (dict_keys d) -> dict_values d (dict_keys d) = ret (map snd d).
Proof. intros Hnodup. by apply dict_values_items. Qed.

(** X6: [insertInto] on a record with distinct keys, on a session with a
    driver name (and a row identifier name when the driver is not sqlite),
    hands the driver one statement that names the keys in the record's
    order and binds the values in the same order, one placeholder per key
    ([?] on sqlite, [%s] with [returning] the row identifier otherwise),
    commits once exactly when [save] is asked for, and returns the
    driver's row identifier exactly when [returnLastRow] is set, [None]
    otherwise.  ([execute] and [commit] are taken to return.) *)
Theorem insertInto_binds_in_order (self : iodb) (drv rowid tablename : string)
    (indict : pydict) (save_ verbose returnLastRow : bool) (reported : pyvalue)
    (w : world) :
  NoDup (dict_keys indict) ->
  driver self = Some drv ->
  (drv <> "sqlite"%string -> _rowid self = Some rowid) ->
  let query :=
    if String.eqb drv "sqlite" then insert_sqlite tablename (map fst indict)
    else insert_returning tablename (map fst indict) rowid in
  insertInto self tablename indict save_ verbose returnLastRow reported w
  = (Return (if returnLastRow then reported else VNone),
     emits ((if verbose then [EPrint [Msg "{}" [AStr query]]] else [])
            ++ EExecute query (map snd indict)
            :: (if save_ then [ECommit] else [])) w).
Proof.
  intros Hnodup Hd Hrowid query. subst query.
  unfold insertInto. rewrite (dict_values_all indict Hnodup), Hd.
  unfold bind at 1. unfold ret at 1. unfold bind at 1. cbn [getattr].
  unfold ret at 1.
  destruct (String.eqb drv "sqlite") eqn:Hdrv.
  - destruct verbose, save_, returnLastRow;
      unfold print, execute, save, bind, ret; simpl;
      rewrite ?emit_emits, ?emits_emits; reflexivity.
  - apply String.eqb_neq in Hdrv. rewrite (Hrowid Hdrv).
    destruct verbose, save_, returnLastRow;
      unfold print, execute, save, bind, ret; simpl;
      rewrite ?emit_emits, ?emits_emits; reflexivity.
Qed.

Lemma insertInto_binds_in_order_witness :
  insertInto postgres_session "data" [("b"%string, VInt 1); ("a"%string, VStr "x")]
    true false true (VInt 7) world0
  = (Return (VInt 7),
     emits [EExecute "insert into data ('b', 'a') values (%s, %s) returning oid"
              [VInt 1; VStr "x"]; ECommit] world0).
Proof.
  apply (insertInto_binds_in_order postgres_session "postgre" "oid" "data"
           [("b"%string, VInt 1); ("a"%string, VStr "x")] true false true
           (VInt 7) world0).
  - by apply (bool_decide_unpack _).
  - reflexivity.
  - reflexivity.
Defined.

End StatementEffects.

(** ** What the advisory lock does to the filesystem *)

Module LockFrame.

Import AdvisoryLock.

Lemma adds_marker_refl path files : adds_marker path files files.
Proof. intros p. by left. Qed.

Lemma adds_marker_trans path f1 f2 f3 :
  adds_marker path f1 f2 -> adds_marker path f2 f3 -> adds_marker path f1 f3.
Proof.
  intros H12 H23 p.
  destruct (H12 p) as [Ha | (Hp & Hnone & Hnew)],
    (H23 p) as [Hb | (Hp' & Hnone' & Hnew')].
  - left. congruence.
  - right. split; [done |]. split; [congruence | done].
  - right. split; [done |]. split; [done | congruence].
  - congruence.
Qed.

Lemma os_path_exists_fs path w : fs (snd (os_path_exists path w)) = fs w.
Proof. unfold os_path_exists, bind, use_os. by destruct (os_imported w). Qed.

Lemma os_mknod_adds path w : adds_marker path (fs w) (fs (snd (os_mknod path w))).
Proof.
  unfold os_mknod, bind, use_os. destruct (os_imported w); simpl;
    [| apply adds_marker_refl].
  destruct (fs w !! path) eqn:Hp; simpl; [apply adds_marker_refl |].
  intros p. destruct (decide (p = path)) as [-> | Hne].
  - right. by rewrite lookup_insert_eq.
  - left. by rewrite lookup_insert_ne.
Qed.

Lemma lock_loop_adds path repeat timeoutCounter fuel : forall counter w,
  adds_marker path (fs w)
    (fs (snd (lock_loop fuel path repeat timeoutCounter counter w))).
Proof.
  induction fuel as [|fuel IH]; intros counter w; [apply adds_marker_refl |].
  cbn [lock_loop]. unfold bind at 1.
  pose proof (os_path_exists_fs path w) as Hprobe.
  destruct (os_path_exists path w) as [[present | e |] w1]; simpl in Hprobe;
    [| rewrite <- Hprobe; apply adds_marker_refl
     | rewrite <- Hprobe; apply adds_marker_refl].
  rewrite <- Hprobe. clear Hprobe.
  assert (Hstep : forall (k : pyvalue -> M pyvalue),
             (forall v w2, adds_marker path (fs w2) (fs (snd (k v w2)))) ->
             adds_marker path (fs w1)
               (fs (snd (bind (if present then ret (VBool false)
                               else (os_mknod path ;; ret (VStr path))) k w1)))).
  { intros k Hk. destruct present.
    - rewrite bind_ret. apply Hk.
    - unfold bind.
      pose proof (os_mknod_adds path w1) as Hnew.
      destruct (os_mknod path w1) as [[[] | e |] w2]; simpl in *; try done.
      eapply adds_marker_trans; [exact Hnew | apply Hk]. }
  apply Hstep. intros success w2.
  destruct (0 <? repeat); [| apply adds_marker_refl].
  destruct (timeoutCounter <? counter); [apply adds_marker_refl |].
  unfold bind, time_sleep_ms. apply (IH (counter + 1) (emit (ESleep repeat) w2)).
Qed.

(** X7: [lock] never removes or changes a file: whatever the arguments
    and however long it polls, every path holds afterwards what it held
    before, except that the lock file of the session may have appeared,
    empty, where nothing was. *)
Theorem lock_only_adds_its_marker (fuel : nat) (self : iodb) (suffix : string)
    (repeat timeoutCounter : Z) (w : world) (p : string) :
  let after := fs (snd (lock fuel self suffix repeat timeoutCounter w)) in
  after !! p = fs w !! p
  \/ (exists fname, _fname self = Some fname /\ p = (fname +:+ suffix)%string
                    /\ fs w !! p = None /\ after !! p = Some (RegularFile [])).
Proof.
  unfold lock, bind. destruct (driver self) as [drv |]; simpl; [| by left].
  destruct (String.eqb drv "sqlite"); simpl; [| by left].
  destruct (_fname self) as [fname |]; simpl; [| by left].
  destruct (lock_loop_adds (fname +:+ suffix) repeat timeoutCounter fuel 0 w p)
    as [Hsame | (-> & Hnone & Hnew)]; [by left | right].
  by exists fname.
Qed.


Lemma os_remove_drops path w : drops_file path (fs w) (fs (snd (os_remove path w))).
Proof.
  unfold os_remove, bind, use_os. destruct (os_imported w); simpl;
    [| intros p; by left].
  destruct (fs w !! path) as [[content |] |] eqn:Hp; simpl;
    try (intros p; by left).
  intros p. destruct (decide (p = path)) as [-> | Hne].
  - right. unfold isfile_in. rewrite Hp, lookup_delete_eq. done.
  - left. by rewrite lookup_delete_ne.
Qed.

Lemma release_frame (self : iodb)
    (lockfilename : option string) (suffix : string) (w : world) (p : string) :
  let after := fs (snd (release self lockfilename suffix w)) in
  after !! p = fs w !! p
  \/ ((lockfilename = Some p
       \/ (lockfilename = None
           /\ exists fname, _fname self = Some fname
                            /\ p = (fname +:+ suffix)%string))
      /\ isfile_in (fs w) p = true /\ after !! p = None).
Proof.
  unfold release, bind. destruct (driver self) as [drv |]; simpl; [| by left].
  destruct (String.eqb drv "sqlite"); simpl; [| by left].
  assert (Hcore : forall path,
             let after := fs (snd (bind (os_path_exists path)
                            (fun present => if present
                                            then os_remove path ;; ret (VBool true)
                                            else ret (VBool false)) w)) in
             after !! p = fs w !! p
             \/ (p = path /\ isfile_in (fs w) p = true /\ after !! p = None)).
  { intros path. unfold bind at 1.
    pose proof (os_path_exists_fs path w) as Hprobe.
    destruct (os_path_exists path w) as [[present | e |] w1]; simpl in *;
      try (left; congruence).
    destruct present; simpl; [| left; congruence].
    unfold bind. pose proof (os_remove_drops path w1 p) as Hdrop.
    destruct (os_remove path w1) as [[[] | e |] w2]; simpl in *;
      rewrite Hprobe in Hdrop; exact Hdrop. }
  destruct lockfilename as [path |]; simpl.
  - destruct (Hcore path) as [Hsame | (-> & Hfile & Hgone)]; [by left | right].
    unfold bind in Hgone. auto.
  - destruct (_fname self) as [fname |]; simpl; [| by left].
    destruct (Hcore (fname +:+ suffix)%string) as [Hsame | (-> & Hfile & Hgone)];
      [by left | right].
    split; [right; split; [done | by exists fname] | done].
Qed.

(** X8: [release] removes at most one file and creates none: every path
    holds afterwards what it held before, except the path given as
    [lockfilename], or the session's lock file when none is given, which
    is gone if it was a regular file. *)
Theorem release_only_drops_its_marker (self : iodb)
    (lockfilename : option string) (suffix : string) (w : world) (p : string) :
  let after := fs (snd (release self lockfilename suffix w)) in
  after !! p = fs w !! p
  \/ ((lockfilename = Some p
       \/ (lockfilename = None
           /\ exists fname, _fname self = Some fname
                            /\ p = (fname +:+ suffix)%string))
      /\ isfile_in (fs w) p = true /\ after !! p = None).
Proof. exact (release_frame self lockfilename suffix w p). Qed.

(** X9: with [os] in reach (its import restored), on a sqlite session
    with a file name, acquiring a free lock with [repeat=0] and releasing
    it is a round trip: [lock] returns the lock file's name, [release]
    answers [True], the filesystem is again what it was before the lock
    was taken, and the lock can be taken again. *)
Theorem lock_release_restores (self : iodb) (fname suffix : string)
    (fuel : nat) (timeoutCounter : Z) (w : world) :
  driver self = Some "sqlite"%string -> _fname self = Some fname ->
  os_imported w = true -> fs w !! (fname +:+ suffix) = None ->
  let path := (fname +:+ suffix)%string in
  exists w1 w2,
    lock (S fuel) self suffix 0 timeoutCounter w = (Return (VStr path), w1)
    /\ release self None suffix w1 = (Return (VBool true), w2)
    /\ fs w2 = fs w
    /\ lock (S fuel) self suffix 0 timeoutCounter w2
       = (Return (VStr path), created path w2).
Proof.
  intros Hd Hf Hos Hfree path. subst path.
  set (path := (fname +:+ suffix)%string) in *.
  assert (Hheld : fs (created path w) !! path = Some (RegularFile [])).
  { simpl. apply lookup_insert_eq. }
  destruct (release_frees self fname suffix [] (created path w) Hd Hf Hos Hheld)
    as (w2 & Hrelease & Hos2 & Hfree2).
  exists (created path w), w2. split; [by apply lock_single_run_acquires |].
  split; [exact Hrelease |].
  assert (Hfs : fs w2 = fs w).
  { apply map_eq. intros p.
    pose proof (release_frame self None suffix (created path w) p)
      as Hframe.
    rewrite Hrelease in Hframe. simpl in Hframe.
    destruct (decide (p = path)) as [Heq | Hne];
      [rewrite Heq; etrans; [exact Hfree2 | symmetry; exact Hfree] |].
    destruct Hframe as [-> | ([[= ?] | (_ & fname' & Hf' & ->)] & _)].
    - by rewrite lookup_insert_ne.
    - rewrite Hf in Hf'. by injection Hf' as <-. }
  split; [exact Hfs |].
  by apply lock_single_run_acquires.
Qed.


Lemma lock_release_restores_witness :
  exists w1 w2,
    lock 1 sqlite_session ".lock" 0 1000 world0
    = (Return (VStr "./db.sqlite.lock"), w1)
    /\ release sqlite_session None ".lock" w1 = (Return (VBool true), w2)
    /\ fs w2 = fs world0
    /\ lock 1 sqlite_session ".lock" 0 1000 w2
       = (Return (VStr "./db.sqlite.lock"), created "./db.sqlite.lock" w2).
Proof.
  apply (lock_release_restores sqlite_session "./db.sqlite" ".lock" 0 1000 world0);
    reflexivity.
Defined.

(** X10: with [os] in reach (its import restored), on a sqlite session
    with a file name, [save(unlock=True)] commits and then releases the
    lock with the default suffix: when that lock file is there the call
    returns, the file is gone and nothing else in the filesystem has
    changed, so a lock taken under another suffix stays held. *)
Theorem save_unlock_frees_default_lock (self : iodb) (fname : string)
    (content : list byte) (w : world) :
  driver self = Some "sqlite"%string -> _fname self = Some fname ->
  os_imported w = true ->
  fs w !! (fname +:+ ".lock") = Some (RegularFile content) ->
  let path := (fname +:+ ".lock")%string in
  exists w',
    save self true w = (Return tt, w')
    /\ fs w' = delete path (fs w)
    /\ log w' = log w ++ [ECommit; EExists path; ERemove path].
Proof.
  intros Hd Hf Hos Hheld path. subst path.
  assert (Hsome : is_Some (fs w !! (fname +:+ ".lock"))) by by eexists.
  eexists. unfold save, release, bind. rewrite Hd, Hf.
  cbn [getattr ret String.eqb Ascii.eqb Bool.eqb].
  rewrite (os_path_exists_run _ (emit ECommit w) Hos).
  rewrite bool_decide_true by done.
  rewrite (os_remove_file _ content (emit (EExists _) (emit ECommit w)) Hos Hheld).
  split; [reflexivity |]. split; [reflexivity |].
  simpl. by rewrite <- !app_assoc.
Qed.

Lemma save_unlock_frees_default_lock_witness :
  exists w',
    save sqlite_session true (created "./db.sqlite.lock" world0) = (Return tt, w')
    /\ fs w' = delete "./db.sqlite.lock"%string
                 (fs (created "./db.sqlite.lock" world0))
    /\ log w' = log (created "./db.sqlite.lock" world0)
                ++ [ECommit; EExists "./db.sqlite.lock"; ERemove "./db.sqlite.lock"].
Proof.
  apply (save_unlock_frees_default_lock sqlite_session "./db.sqlite" []
           (created "./db.sqlite.lock" world0)); reflexivity.
Defined.

(** X11: with [os] in reach (its import restored), on a sqlite session
    with a file name, a poll interval greater than zero and a negative
    [timeoutCounter], [lock] makes a single attempt: it probes once,
    prints the timeout warning whatever the outcome, sleeps never, and
    returns the name of the lock file it created, or [False] when the file
    was there. *)
Theorem lock_negative_bound_single_attempt (self : iodb)
    (fname suffix : string) (fuel : nat) (repeat timeoutCounter : Z) (w : world) :
  driver self = Some "sqlite"%string -> _fname self = Some fname ->
  os_imported w = true -> 0 < repeat -> timeoutCounter < 0 ->
  let path := (fname +:+ suffix)%string in
  lock (S fuel) self suffix repeat timeoutCounter w
  = if bool_decide (is_Some (fs w !! path))
    then (Return (VBool false),
          emit (EPrint timeout_warning) (emit (EExists path) w))
    else (Return (VStr path), emit (EPrint timeout_warning) (created path w)).
Proof.
  intros Hd Hf Hos Hrepeat Hbound path. subst path.
  rewrite (lock_sqlite _ _ fname) by done. cbn [lock_loop].
  replace (0 <? repeat) with true by (symmetry; apply Z.ltb_lt; lia).
  replace (timeoutCounter <? 0) with true by (symmetry; apply Z.ltb_lt; lia).
  unfold bind at 1. rewrite (os_path_exists_run _ w Hos).
  destruct (bool_decide (is_Some (fs w !! (fname +:+ suffix)))) eqn:Hheld.
  - reflexivity.
  - apply bool_decide_eq_false in Hheld.
    assert (Hfree : fs w !! (fname +:+ suffix) = None).
    { destruct (fs w !! (fname +:+ suffix)); [exfalso; apply Hheld; by eexists | done]. }
    unfold bind.
    by rewrite (os_mknod_fresh _ (emit (EExists _) w) Hos Hfree).
Qed.

Lemma lock_negative_bound_single_attempt_witness :
  lock 1 sqlite_session ".lock" 20 (-1) world0
  = if bool_decide (is_Some (fs world0 !! "./db.sqlite.lock"%string))
    then (Return (VBool false),
          emit (EPrint timeout_warning) (emit (EExists "./db.sqlite.lock") world0))
    else (Return (VStr "./db.sqlite.lock"),
          emit (EPrint timeout_warning) (created "./db.sqlite.lock" world0)).
Proof.
  apply (lock_negative_bound_single_attempt sqlite_session "./db.sqlite" ".lock"
           0 20 (-1) world0); try reflexivity; lia.
Defined.

End LockFrame.

(** ** The constructor *)

Module Construction.

Import InferenceOutcome StatementEffects.

Lemma holds_directory_occupied files path :
  holds_directory files path = true -> occupied files path = true.
Proof.
  unfold holds_directory, occupied. destruct (always_there path); [done |].
  simpl. by destruct (files !! path) as [[content |] |] eqn:Hp.
Qed.

Lemma occupied_false files path :
  occupied files path = false -> files !! path = None.
Proof.
  unfold occupied. intros H. apply orb_false_elim in H as [_ H].
  apply bool_decide_eq_false in H. destruct (files !! path); [| done].
  exfalso. apply H. by eexists.
Qed.

(** [os.mkdir] changes one path at most, from nothing to a directory. *)
Lemma mkdir_in_frame path files p :
  (mkdir_in path files).1 !! p = files !! p
  \/ (p = path /\ files !! p = None
      /\ (mkdir_in path files).1 !! p = Some Directory).
Proof.
  unfold mkdir_in. destruct (String.eqb path ""); [by left |].
  destruct (occupied files path) eqn:Hfree; [by left |].
  apply occupied_false in Hfree.
  destruct (holds_directory files (parent_of path)); simpl;
    [| destruct (occupied files (parent_of path)); by left].
  destruct (decide (p = path)) as [-> | Hne].
  - right. by rewrite lookup_insert_eq.
  - left. by rewrite lookup_insert_ne.
Qed.

(** [os.makedirs] changes the leaf and the directories above it at most,
    each from nothing to a directory. *)
Lemma makedirs_chain_frame parents : forall name files p,
  (makedirs_chain parents name files).1 !! p = files !! p
  \/ (p ∈ name :: parents /\ files !! p = None
      /\ (makedirs_chain parents name files).1 !! p = Some Directory).
Proof.
  induction parents as [|head up IH]; intros name files p.
  - cbn [makedirs_chain].
    destruct (mkdir_in_frame name files p) as [Hsame | (-> & Hnone & Hnew)];
      [by left | right]. split; [left | done].
  - cbn [makedirs_chain].
    assert (Hleaf : forall files0,
               (files0 !! p = files !! p
                \/ (p ∈ head :: up /\ files !! p = None
                    /\ files0 !! p = Some Directory)) ->
               (mkdir_in name files0).1 !! p = files !! p
               \/ (p ∈ name :: head :: up /\ files !! p = None
                   /\ (mkdir_in name files0).1 !! p = Some Directory)).
    { intros files0 Hbefore.
      destruct (mkdir_in_frame name files0 p) as [Hsame | (-> & Hnone & Hnew)].
      - rewrite Hsame. destruct Hbefore as [Hb | (Hin & Hnone & Hnew)];
          [by left | right]. split; [by right | done].
      - destruct Hbefore as [Hb | (Hin & Hnone' & Hnew')]; [| congruence].
        right. split; [left | split; [congruence | done]]. }
    destruct (occupied files head); [apply Hleaf; by left |].
    pose proof (IH head files p) as Hup.
    destruct (makedirs_chain up head files) as [files' [e |]]; cbn [fst] in *.
    + assert (Hkept : files' !! p = files !! p
                      \/ (p ∈ name :: head :: up /\ files !! p = None
                          /\ files' !! p = Some Directory)).
      { destruct Hup as [Hb | (Hin & Hnone & Hnew)]; [by left | right].
        split; [by right | done]. }
      destruct e; try exact Hkept.
      destruct (String.eqb (last_component name) "."); [exact Hkept |].
      apply Hleaf. exact Hup.
    + destruct (String.eqb (last_component name) ".").
      * destruct Hup as [Hb | (Hin & Hnone & Hnew)]; [by left | right].
        split; [by right | done].
      * apply Hleaf. exact Hup.
Qed.

Lemma os_makedirs_frame path w p :
  fs (os_makedirs path w).2 !! p = fs w !! p
  \/ (os_imported w = true /\ p ∈ path :: ancestors path /\ fs w !! p = None
      /\ fs (os_makedirs path w).2 !! p = Some Directory).
Proof.
  unfold os_makedirs, bind, use_os.
  destruct (os_imported w); [| by left].
  pose proof (makedirs_chain_frame (ancestors path) path (fs w) p) as Hframe.
  destruct (makedirs_chain (ancestors path) path (fs w)) as [files [e |]];
    cbn [fst snd fs emit set_fs] in *;
    (destruct Hframe as [Hsame | (Hin & Hnone & Hnew)]; [by left | by right]).
Qed.

(** With the directory above in place, [os.makedirs] makes the leaf and
    nothing else. *)
Lemma os_makedirs_fresh path w :
  os_imported w = true -> occupied (fs w) path = false ->
  holds_directory (fs w) (parent_of path) = true ->
  os_makedirs path w
  = (Return tt, emit (EMakedirs path) (set_fs (<[path := Directory]> (fs w)) w)).
Proof.
  intros Hos Hfree Hparent. unfold os_makedirs, bind, use_os. rewrite Hos.
  assert (Hchain : makedirs_chain (ancestors path) path (fs w)
                   = mkdir_in path (fs w)).
  { unfold ancestors. cbn [ancestors_aux].
    destruct (String.eqb (parent_of path) ""); [done |].
    cbn [makedirs_chain]. by rewrite (holds_directory_occupied _ _ Hparent). }
  rewrite Hchain. unfold mkdir_in.
  destruct (String.eqb_spec path "") as [-> | _]; [done |].
  by rewrite Hfree, Hparent.
Qed.

Lemma always_there_mentions c path :
  mentions c "./" = false -> mentions c path = true -> always_there path = false.
Proof.
  intros Hc Hpath. unfold always_there.
  destruct (String.eqb_spec path "") as [-> | _]; [done |].
  destruct (String.eqb_spec path "/") as [-> | _].
  { simpl in *. apply orb_false_elim in Hc as [_ Hc]. congruence. }
  destruct (String.eqb_spec path "./") as [-> | _]; [congruence | done].
Qed.


(** The folder of the day is neither the root nor the working
    directory. *)
Lemma day_folder_not_always_there spath t :
  always_there (spath +:+ (strftime_at "%Y-%m-%d" t +:+ "/")) = false.
Proof.
  apply (always_there_mentions "-"); [reflexivity |].
  rewrite mentions_app. cbn [strftime_at Ascii.eqb Bool.eqb].
  repeat (rewrite ?mentions_app, ?string_app_cons; cbn [mentions]).
  rewrite Ascii.eqb_refl. by rewrite !orb_true_r.
Qed.

(** The object [__init__] builds before it turns to the folder. *)
Lemma init_object drv stor spath zipped readOnly w self w' :
  __init__ drv stor spath zipped readOnly w = (Return self, w') ->
  driver self = (if bool_decide (drv ∈ ["sqlite"; "postgre"]%string)
                 then Some drv else None)
  /\ _fname self = None /\ _spath self = spath /\ loadZipped self = zipped.
Proof.
  intros Hrun. unfold __init__ in Hrun.
  apply bind_inv in Hrun as (self0 & w0 & Hself0 & Hrun).
  assert (Hfields : driver self0
                    = (if bool_decide (drv ∈ ["sqlite"; "postgre"]%string)
                       then Some drv else None)
                    /\ _fname self0 = None /\ _spath self0 = spath
                    /\ loadZipped self0 = zipped).
  { destruct (bool_decide (drv ∈ ["sqlite"; "postgre"]%string)).
    - destruct (String.eqb drv "sqlite"); [by injection Hself0 as <- _ |].
      destruct (String.eqb drv "postgre"); by injection Hself0 as <- _.
    - apply bind_inv in Hself0 as (? & ? & _ & Hself0). by injection Hself0 as <- _. }
  destruct (String.eqb stor "extern" || String.eqb stor "mixed").
  - cbv zeta in Hrun.
    apply bind_inv in Hrun as (date & w1 & _ & Hrun).
    apply bind_inv in Hrun as (present & w2 & _ & Hrun).
    destruct (negb present && negb readOnly).
    + apply bind_inv in Hrun as (? & w3 & _ & Hrun). by injection Hrun as <- _.
    + by injection Hrun as <- _.
  - by injection Hrun as <- _.
Qed.

(** The two ways [__init__] can leave the filesystem. *)
Lemma init_fs_cases drv stor spath zipped readOnly w (P : gmap string fnode -> Prop) :
  P (fs w) ->
  (readOnly = false -> stor = "extern"%string \/ stor = "mixed"%string ->
   os_imported w = true ->
   forall fullpath files,
     fullpath = (spath +:+ (strftime_at "%Y-%m-%d" (localtime w) +:+ "/"))%string ->
     (forall p, files !! p = fs w !! p
                \/ (p ∈ fullpath :: ancestors fullpath /\ fs w !! p = None
                    /\ files !! p = Some Directory)) ->
     P files) ->
  P (fs (snd (__init__ drv stor spath zipped readOnly w))).
Proof.
  unfold __init__. unfold bind at 1.
  set (first := if bool_decide (drv ∈ ["sqlite"; "postgre"]%string) then _ else _).
  assert (Hfirst : fs (snd (first w)) = fs w /\ localtime (snd (first w)) = localtime w
                   /\ os_imported (snd (first w)) = os_imported w
                   /\ exists self0, fst (first w) = Return self0).
  { unfold first. destruct (bool_decide (drv ∈ ["sqlite"; "postgre"]%string)).
    - destruct (String.eqb drv "sqlite"); [by eauto |].
      destruct (String.eqb drv "postgre"); by eauto.
    - unfold bind, print, ret. simpl. by eauto. }
  destruct Hfirst as (Hfs & Htime & Himport & self0 & Hret).
  destruct (first w) as [o w0]. cbn [fst snd] in *. subst o.
  rewrite <- Hfs, <- Htime, <- Himport. clear Hfs Htime Himport.
  remember (strftime_at "%Y-%m-%d" (localtime w0)) as date eqn:Hdate.
  intros Hsame Hnew.
  destruct (String.eqb stor "extern" || String.eqb stor "mixed") eqn:Hstor;
    [| exact Hsame].
  assert (Hmode : stor = "extern"%string \/ stor = "mixed"%string).
  { apply orb_true_iff in Hstor as [H | H]; apply String.eqb_eq in H; auto. }
  cbv zeta. unfold bind at 1. unfold time_strftime at 1. rewrite <- Hdate.
  unfold bind at 1, os_path_exists, bind at 1, use_os.
  destruct (os_imported w0) eqn:Hos; [| exact Hsame].
  cbn [fst snd]. destruct (fs w0 !! (spath +:+ (date +:+ "/"))%string) as [node |] eqn:Hp.
  - rewrite bool_decide_true by done. exact Hsame.
  - rewrite bool_decide_false by (by intros [? ?]).
    destruct readOnly; cbn [negb andb]; [exact Hsame |].
    unfold bind at 1.
    assert (Hframe : forall p,
               fs (os_makedirs (spath +:+ (date +:+ "/"))
                     (emit (EExists (spath +:+ (date +:+ "/"))) w0)).2 !! p
               = fs w0 !! p
               \/ (p ∈ (spath +:+ (date +:+ "/"))%string
                        :: ancestors (spath +:+ (date +:+ "/"))
                   /\ fs w0 !! p = None
                   /\ fs (os_makedirs (spath +:+ (date +:+ "/"))
                            (emit (EExists (spath +:+ (date +:+ "/"))) w0)).2 !! p
                      = Some Directory)).
    { intros p.
      destruct (os_makedirs_frame (spath +:+ (date +:+ "/"))
                  (emit (EExists (spath +:+ (date +:+ "/"))) w0) p)
        as [Hkept | (_ & Hin & Hnone & Hmade)]; [by left | by right]. }
    subst date.
    destruct (os_makedirs _ _) as [[[] | e |] w2]; cbn [fst snd] in *;
      exact (Hnew eq_refl Hmode eq_refl _ _ eq_refl Hframe).
Qed.

(** X12: [__init__] adds directories to the filesystem and does nothing
    else to it: every path holds afterwards what it held before, except
    that, with external or mixed storage, [readOnly=False] and [os] in
    reach, the folder of the day under the storage path and directories
    above it may have appeared where nothing was.  In particular a
    read-only session and a session with internal storage leave the
    filesystem alone. *)
Theorem init_only_adds_its_folder (drv stor spath : string)
    (zipped readOnly : bool) (w : world) (p : string) :
  let fullpath := (spath +:+ (strftime_at "%Y-%m-%d" (localtime w) +:+ "/"))%string in
  let after := fs (snd (__init__ drv stor spath zipped readOnly w)) in
  after !! p = fs w !! p
  \/ (readOnly = false
      /\ (stor = "extern"%string \/ stor = "mixed"%string)
      /\ os_imported w = true
      /\ p ∈ fullpath :: ancestors fullpath
      /\ fs w !! p = None /\ after !! p = Some Directory).
Proof.
  apply (init_fs_cases drv stor spath zipped readOnly w
           (fun after =>
              after !! p = fs w !! p
              \/ (readOnly = false
                  /\ (stor = "extern"%string \/ stor = "mixed"%string)
                  /\ os_imported w = true
                  /\ p ∈ (spath +:+ (strftime_at "%Y-%m-%d" (localtime w) +:+ "/"))%string
                         :: ancestors (spath +:+ (strftime_at "%Y-%m-%d" (localtime w)
                                                  +:+ "/"))
                  /\ fs w !! p = None /\ after !! p = Some Directory)));
    [by left |].
  intros Hro Hmode Hos fullpath files -> Hframe.
  destruct (Hframe p) as [Hsame | (Hin & Hnone & Hnew)]; [by left | by right].
Qed.

(** A storage path with missing directories above the folder of the
    day. *)
Example init_makes_missing_directories :
  fs (snd (__init__ "sqlite" "extern" "data/store/" false false world0))
  = {[ "data/"%string := Directory; "data/store/"%string := Directory;
       "data/store/2024-01-01/"%string := Directory ]}.
Proof. vm_compute. reflexivity. Qed.

(** With [os] in reach and the directory above the folder of the day in
    place, the constructor's answer in closed form: the object does not
    depend on the environment beyond the date. *)
Lemma init_extern_run drv stor spath zipped readOnly :
  stor = "extern"%string \/ stor = "mixed"%string ->
  exists self0 printed, forall w,
    os_imported w = true ->
    let date := strftime_at "%Y-%m-%d" (localtime w) in
    let fullpath := (spath +:+ (date +:+ "/"))%string in
    let self := set_folder (date +:+ "/") (set_counter 1 self0) in
    let w1 := emit (EExists fullpath) (emits (map EPrint printed) w) in
    holds_directory (fs w) (parent_of fullpath) = true ->
    __init__ drv stor spath zipped readOnly w
    = (if bool_decide (is_Some (fs w !! fullpath)) || readOnly
       then (Return self, w1)
       else (Return self,
             emit (EMakedirs fullpath)
                  (set_fs (<[fullpath := Directory]> (fs w)) w1)))
    /\ driver self0 = (if bool_decide (drv ∈ ["sqlite"; "postgre"]%string)
                       then Some drv else None)
    /\ _spath self0 = spath /\ loadZipped self0 = zipped.
Proof.
  intros Hmode.
  assert (Hb : String.eqb stor "extern" || String.eqb stor "mixed" = true).
  { destruct Hmode as [-> | ->]; reflexivity. }
  assert (Hsecond : forall self0 printed w,
    os_imported w = true ->
    holds_directory (fs w)
      (parent_of (spath +:+ (strftime_at "%Y-%m-%d" (localtime w) +:+ "/"))) = true ->
    (let self := set_counter 1 self0 in
     let* date := time_strftime "%Y-%m-%d" in
     let self := set_folder (date +:+ "/") self in
     let fullpath := (spath +:+ (date +:+ "/"))%string in
     let* present := os_path_exists fullpath in
     if negb present && negb readOnly then os_makedirs fullpath ;; ret self
     else ret self) (emits (map EPrint printed) w)
    = let date := strftime_at "%Y-%m-%d" (localtime w) in
      let fullpath := (spath +:+ (date +:+ "/"))%string in
      let self := set_folder (date +:+ "/") (set_counter 1 self0) in
      let w1 := emit (EExists fullpath) (emits (map EPrint printed) w) in
      if bool_decide (is_Some (fs w !! fullpath)) || readOnly
      then (Return self, w1)
      else (Return self,
            emit (EMakedirs fullpath)
                 (set_fs (<[fullpath := Directory]> (fs w)) w1))).
  { intros self0 printed w Hos Hparent. cbv zeta.
    unfold bind at 1, time_strftime at 1. cbn [localtime emits].
    pose proof (day_folder_not_always_there spath (localtime w)) as Hplain.
    remember (strftime_at "%Y-%m-%d" (localtime w)) as date eqn:Hdate. clear Hdate.
    unfold bind at 1. rewrite AdvisoryLock.os_path_exists_run by done. cbn [fs emits].
    destruct (fs w !! (spath +:+ (date +:+ "/"))%string) as [node |] eqn:Hp.
    - rewrite bool_decide_true by done. reflexivity.
    - rewrite bool_decide_false by (by intros [? ?]).
      destruct readOnly; cbn [negb andb orb]; [reflexivity |].
      unfold bind at 1. rewrite os_makedirs_fresh; [reflexivity | done | | done].
      unfold occupied. cbn [fs emit emits]. rewrite Hplain, Hp.
      apply bool_decide_eq_false. by intros [? ?]. }
  unfold __init__. rewrite Hb.
  destruct (bool_decide (drv ∈ ["sqlite"; "postgre"]%string)).
  - destruct (String.eqb drv "sqlite");
      [| destruct (String.eqb drv "postgre")];
      eexists _, []; intros w Hos; cbv zeta; intros Hparent;
      (split;
       [unfold bind at 1, ret at 1; rewrite <- (emits_nil w) at 1;
        exact (Hsecond _ [] w Hos Hparent)
       | repeat split; reflexivity]).
  - eexists _, [_]. intros w Hos. cbv zeta. intros Hparent.
    split;
      [unfold bind at 1; unfold bind at 1, print, ret at 1; cbn [fst snd];
       exact (Hsecond _ [_] w Hos Hparent)
      | repeat split; reflexivity].
Qed.



(** X14: a driver name the module does not know is reported on the
    output, as the first thing the constructor does, but not refused.
    With a storage mode other than [extern] and [mixed] the constructor
    returns in every environment, having done nothing else.  And whenever
    the constructor returns, the object has no driver: [lock] and
    [release] raise [AttributeError] for [driver] in every environment,
    and [createTable] and [insertInto] raise without having handed any
    statement to the driver. *)
Theorem unknown_driver_fails_at_first_use (drv stor spath : string)
    (zipped readOnly : bool) (w : world) :
  drv ∉ ["sqlite"; "postgre"]%string ->
  exists o w',
    __init__ drv stor spath zipped readOnly w = (o, w')
    /\ (exists rest, log w' = log w ++ unknown_driver_report drv :: rest)
    /\ (String.eqb stor "extern" || String.eqb stor "mixed" = false ->
        w' = emit (unknown_driver_report drv) w /\ exists self, o = Return self)
    /\ (forall self, o = Return self ->
          (forall fuel suffix repeat timeoutCounter w2,
              lock fuel self suffix repeat timeoutCounter w2
              = (Raise (AttributeError "driver"), w2))
          /\ (forall lockfilename suffix w2,
                release self lockfilename suffix w2
                = (Raise (AttributeError "driver"), w2))
          /\ (forall tablename indict useTypes save_ before after verbose
                     sortBefore w2,
                exists e trace,
                  createTable self tablename indict useTypes save_ before after
                    verbose sortBefore w2 = (Raise e, emits trace w2)
                  /\ existsb is_execute trace = false)
          /\ (forall tablename indict save_ verbose returnLastRow reported w2,
                exists e trace,
                  insertInto self tablename indict save_ verbose returnLastRow
                    reported w2 = (Raise e, emits trace w2)
                  /\ existsb is_execute trace = false)).
Proof.
  intros Hunknown.
  destruct (__init__ drv stor spath zipped readOnly w) as [o w'] eqn:Hrun.
  exists o, w'. split; [reflexivity |].
  assert (Hreport : (exists rest, log w' = log w ++ unknown_driver_report drv :: rest)
                    /\ (String.eqb stor "extern" || String.eqb stor "mixed" = false ->
                        w' = emit (unknown_driver_report drv) w
                        /\ exists self, o = Return self)).
  { unfold __init__ in Hrun. rewrite bool_decide_false in Hrun by done.
    unfold bind at 1 in Hrun. unfold bind at 1, print, ret at 1 in Hrun.
    cbn [fst snd] in Hrun.
    change (EPrint _) with (unknown_driver_report drv) in Hrun.
    set (w0 := emit (unknown_driver_report drv) w) in *.
    assert (Hlog0 : log w0 = log w ++ [unknown_driver_report drv]) by done.
    destruct (String.eqb stor "extern" || String.eqb stor "mixed").
    - split; [| done]. cbv zeta in Hrun.
      unfold bind at 1, time_strftime at 1 in Hrun.
      unfold bind at 1, os_path_exists, bind at 1, use_os in Hrun.
      destruct (os_imported w0) eqn:Hos.
      + cbn [fst snd] in Hrun.
        destruct (negb _ && negb readOnly).
        * unfold bind at 1, os_makedirs, bind at 1, use_os in Hrun.
          cbn [os_imported emit] in Hrun. rewrite Hos in Hrun.
          destruct (makedirs_chain _ _ _) as [files [e |]];
            injection Hrun as <- <-; eexists; cbn [log emit set_fs];
            rewrite Hlog0, <- !app_assoc; reflexivity.
        * injection Hrun as <- <-. eexists. cbn [log emit].
          rewrite Hlog0, <- !app_assoc. reflexivity.
      + injection Hrun as <- <-. exists []. exact Hlog0.
    - injection Hrun as <- <-. split; [by exists [] |].
      intros _. split; [done | by eexists]. }
  destruct Hreport as (Hlog & Hintern). split; [exact Hlog |].
  split; [exact Hintern |].
  intros self ->.
  destruct (init_object _ _ _ _ _ _ _ _ Hrun) as (Hd & _).
  rewrite bool_decide_false in Hd by done.
  split; [| split; [| split]].
  - intros. unfold lock. by rewrite Hd.
  - intros. unfold release. by rewrite Hd.
  - intros tablename indict useTypes save_ before after verbose sortBefore w2.
    destruct (appendType_printing self indict useTypes sortBefore w2)
      as (printed & Hworld & Hfuel).
    unfold createTable, createTable_query. unfold bind at 1. unfold bind at 1.
    destruct (appendType self indict useTypes sortBefore w2) as [[names | e |] w3];
      simpl in *; subst w3; [| | done].
    + rewrite Hd. unfold bind, getattr, raise.
      eexists _, _. split; [reflexivity | apply no_execute_in_prints].
    + eexists _, _. split; [reflexivity | apply no_execute_in_prints].
  - intros tablename indict save_ verbose returnLastRow reported w2.
    destruct (dict_values_printing indict (dict_keys indict) w2)
      as (printed & Hworld & Hfuel).
    unfold insertInto. unfold bind at 1.
    destruct (dict_values indict (dict_keys indict) w2) as [[values | e |] w3];
      simpl in *; subst w3; [| | done].
    + rewrite Hd. unfold bind, getattr, raise.
      eexists _, _. split; [reflexivity | apply no_execute_in_prints].
    + eexists _, _. split; [reflexivity | apply no_execute_in_prints].
Qed.

Lemma unknown_driver_fails_at_first_use_witness :
  exists self,
    __init__ "mysql" "intern" "./" false false shipped_world
    = (Return self, emit (unknown_driver_report "mysql") shipped_world)
    /\ lock 1 self ".lock" 0 1000 world0 = (Raise (AttributeError "driver"), world0)
    /\ release self None ".lock" world0 = (Raise (AttributeError "driver"), world0).
Proof.
  destruct (unknown_driver_fails_at_first_use "mysql" "intern" "./" false false
              shipped_world) as (o & w' & Hrun & _ & Hintern & Hfacts).
  - by apply (bool_decide_unpack _).
  - destruct (Hintern eq_refl) as (-> & self & ->).
    exists self. split; [exact Hrun |].
    destruct (Hfacts self eq_refl) as (Hlock & Hrelease & _).
    split; [apply Hlock | apply Hrelease].
Defined.

End Construction.

(** ** Arrays stored in files *)

Module ExternalStore.

Import Construction.

(** *** Paths *)

Lemma endswith_mentions c s suffix :
  endswith s suffix = true -> mentions c suffix = true -> mentions c s = true.
Proof.
  induction s as [|a s IH]; cbn [endswith mentions]; intros Hend Hc.
  - rewrite orb_false_r in Hend. apply String.eqb_eq in Hend. by subst.
  - apply orb_true_iff in Hend as [Heq | Hrest].
    + apply String.eqb_eq in Heq. by subst.
    + rewrite (IH Hrest Hc). by rewrite orb_true_r.
Qed.

Lemma endswith_after_separator sep (a field suffix : string) :
  mentions sep suffix = false ->
  endswith (a +:+ String sep field) suffix = true -> endswith field suffix = true.
Proof.
  intros Hsep. induction a as [|x a IH].
  - change ("" +:+ String sep field)%string with (String sep field).
    cbn [endswith]. intros Hend. apply orb_true_iff in Hend as [Heq | Hrest]; [| done].
    apply String.eqb_eq in Heq. subst suffix. simpl in Hsep.
    by rewrite Ascii.eqb_refl in Hsep.
  - rewrite string_app_cons. cbn [endswith]. intros Hend.
    apply orb_true_iff in Hend as [Heq | Hrest]; [| by apply IH].
    apply String.eqb_eq in Heq. subst suffix.
    rewrite <- string_app_cons, mentions_app in Hsep. simpl in Hsep.
    rewrite Ascii.eqb_refl in Hsep. simpl in Hsep. by rewrite orb_true_r in Hsep.
Qed.

(** A name of the allocator does not end in [.npy]: [np.save] appends
    the extension. *)
Lemma name_without_extension prefix w counter :
  endswith (prefix +:+ name_in w counter) ".npy" = false.
Proof.
  destruct (endswith (prefix +:+ name_in w counter) ".npy") eqn:Hend; [| done].
  exfalso. unfold name_in, unique_name_format in Hend.
  set (date := strftime_at "%Y-%m-%d" (localtime w)) in *.
  set (minute := strftime_at "%H%M" (localtime w)) in *.
  replace (prefix +:+ date +:+ "T" +:+ minute +:+ "_" +:+ hostname w +:+ "_"
           +:+ str_of_Z (pid w) +:+ "_" +:+ str_of_Z counter)%string
    with ((prefix +:+ date +:+ "T" +:+ minute +:+ "_" +:+ hostname w +:+ "_"
           +:+ str_of_Z (pid w)) +:+ String "_" (str_of_Z counter))%string in Hend
    by (rewrite !string_app_assoc; reflexivity).
  apply endswith_after_separator in Hend; [| reflexivity].
  apply (endswith_mentions "y") in Hend; [| reflexivity].
  by rewrite str_of_Z_mentions in Hend.
Qed.

Lemma dirname_of_file (dir file : string) :
  mentions "/" file = false -> dirname ((dir +:+ "/") +:+ file) = (dir +:+ "/")%string.
Proof.
  intros Hfile.
  assert (Hbare : forall s, mentions "/" s = false -> dirname s = ""%string).
  { intros [|a s]; [done |]. simpl. intros H.
    apply orb_false_elim in H as [Ha Hs]. by rewrite Hs, Ha. }
  induction dir as [|x dir IH].
  - change (("" +:+ "/") +:+ file)%string with (String "/" file).
    cbn [dirname]. rewrite Hfile. cbn [orb Ascii.eqb Bool.eqb].
    by rewrite (Hbare file Hfile).
  - rewrite !string_app_cons. cbn [dirname].
    rewrite !mentions_app. cbn [mentions]. rewrite Ascii.eqb_refl.
    cbn [orb]. rewrite orb_true_r. cbn [orb]. by rewrite IH.
Qed.

Lemma zeros_mentions c n :
  mentions c "0" = false ->
  mentions c (String.concat "" (replicate n "0"%string)) = false.
Proof.
  intros Hc. induction n as [|n IH]; [done |].
  destruct n as [|n]; [exact Hc |].
  change (String.concat "" (replicate (S (S n)) "0"%string))
    with ("0" +:+ ("" +:+ String.concat "" (replicate (S n) "0"%string)))%string.
  rewrite mentions_app, Hc. exact IH.
Qed.

Lemma zpad_mentions c width z :
  mentions c "-0123456789" = false -> mentions c (zpad width z) = false.
Proof.
  intros Hc. unfold zpad. rewrite mentions_app.
  rewrite (str_of_Z_mentions c z Hc), orb_false_r.
  apply zeros_mentions. simpl in *.
  repeat (apply orb_false_elim in Hc as [? Hc]). by rewrite orb_false_r.
Qed.

(** The names of the allocator contain no slash unless the host name
    does. *)
Lemma name_in_mentions_slash w counter :
  mentions "/" (hostname w) = false -> mentions "/" (name_in w counter) = false.
Proof.
  intros Hhost. unfold name_in, unique_name_format.
  cbn [strftime_at Ascii.eqb Bool.eqb].
  repeat (rewrite ?mentions_app, ?string_app_cons; cbn [mentions]).
  rewrite !zpad_mentions, !str_of_Z_mentions, Hhost by reflexivity.
  reflexivity.
Qed.


Lemma string_app_self (a b : string) : (a +:+ b)%string = a -> b = ""%string.
Proof.
  induction a as [|x a IH]; [done |]. rewrite string_app_cons.
  intros H. injection H as H. by apply IH.
Qed.

Lemma write_file_run path content w :
  fs w !! path <> Some Directory ->
  write_file path content w = (Return tt, written path content w).
Proof.
  intros Hfile. unfold write_file, written.
  destruct (fs w !! path) as [[old |] |]; done.
Qed.

Lemma string_length_app (a b : string) :
  String.length (a +:+ b) = (String.length a + String.length b)%nat.
Proof.
  induction a as [|x a IH]; [done |]. rewrite string_app_cons. simpl. by rewrite IH.
Qed.

Lemma string_app_inv_tail (a b s : string) : (a +:+ s)%string = (b +:+ s)%string -> a = b.
Proof.
  revert b. induction a as [|x a IH]; intros [|y b] Heq; [done | | |].
  - apply (f_equal String.length) in Heq.
    rewrite !string_length_app in Heq. simpl in Heq. lia.
  - apply (f_equal String.length) in Heq.
    rewrite !string_length_app in Heq. simpl in Heq. lia.
  - rewrite !string_app_cons in Heq. injection Heq as -> Heq. f_equal. by apply IH.
Qed.

(** The path of a stored array ends in the counter and the extension. *)
Lemma last_field_target self folder w counter :
  last_field (target_of self folder w counter) = (str_of_Z counter +:+ ".npy")%string.
Proof.
  unfold target_of, name_in, unique_name_format.
  set (date := strftime_at "%Y-%m-%d" (localtime w)).
  set (minute := strftime_at "%H%M" (localtime w)).
  transitivity
    (last_field (((_spath self +:+ folder) +:+ date +:+ "T" +:+ minute +:+ "_"
                  +:+ hostname w +:+ "_" +:+ str_of_Z (pid w))
                 +:+ String "_" (str_of_Z counter +:+ ".npy"))).
  - f_equal. rewrite !string_app_assoc. reflexivity.
  - apply Allocator.last_field_app. rewrite mentions_app.
    by rewrite str_of_Z_mentions.
Qed.

Lemma target_of_inj self folder w c1 c2 :
  target_of self folder w c1 = target_of self folder w c2 -> c1 = c2.
Proof.
  intros Heq. apply (f_equal last_field) in Heq.
  rewrite !last_field_target in Heq.
  apply string_app_inv_tail in Heq. by apply str_of_Z_inj in Heq.
Qed.

Section WithNumpy.

Variable npy_dumps : ndarray -> list byte.
Variable np_asanyarray : pyvalue -> outcome ndarray.
Variable pg_adapt : string -> pyvalue.
Variable npy_loads : list byte -> outcome ndarray.
Variable gzip_decompress : list byte -> outcome (list byte).
Variable utf8_decode : list byte -> outcome string.
Variable pg_STRING : pyvalue -> cursor -> outcome pyvalue.

Lemma np_save_file_run file a w :
  endswith file ".npy" = false ->
  (dirname (file +:+ ".npy") = ""%string
   \/ fs w !! dirname (file +:+ ".npy") = Some Directory) ->
  fs w !! (file +:+ ".npy") <> Some Directory ->
  np_save_file npy_dumps np_asanyarray file (VNdarray a) w
  = (Return tt, written (file +:+ ".npy") (npy_dumps a)
                  (written (file +:+ ".npy") [] w)).
Proof.
  intros Hext Hdir Hfile. unfold np_save_file. rewrite Hext.
  unfold bind at 1, open_wb.
  replace (String.eqb (dirname (file +:+ ".npy")) ""
           || match fs w !! dirname (file +:+ ".npy") with
              | Some Directory => true
              | _ => false
              end) with true
    by (destruct Hdir as [-> | ->]; [done | by rewrite orb_true_r]).
  rewrite write_file_run by done.
  unfold bind at 1, ret at 1.
  rewrite write_file_run; [done |].
  unfold written. simpl. by rewrite lookup_insert_eq.
Qed.

Lemma adapt_array_ext_run self counter dir arr a w :
  driver self = Some "sqlite"%string -> _counter self = Some counter ->
  _folder self = Some (dir +:+ "/")%string ->
  imports_enabled w -> mentions "/" (hostname w) = false ->
  arr = VNdarray a \/ arr = VNdarrayExt (VNdarray a) ->
  let target := target_of self (dir +:+ "/") w counter in
  fs w !! (_spath self +:+ (dir +:+ "/")) = Some Directory ->
  fs w !! target <> Some Directory ->
  _adapt_array_ext npy_dumps np_asanyarray pg_adapt self None arr w
  = (Return (VStr ((dir +:+ "/") +:+ name_in w counter),
             set_counter (counter + 1) self, None),
     written target (npy_dumps a) (written target [] w)).
Proof.
  intros Hd Hc Hfolder Himports Hhost Harr target Hdir Hfile.
  unfold _adapt_array_ext.
  replace (match arr with VNdarrayExt data => data | _ => arr end)
    with (VNdarray a) by (by destruct Harr as [-> | ->]).
  rewrite (bind_return _ _ _ _ _
             (bind_return _ _ _ _ _ (Allocator.getUniqueName_run self w counter Himports Hc))).
  cbn [fst snd ret _folder set_counter _spath driver].
  rewrite Hfolder, Hd. unfold bind at 1. cbn [getattr ret].
  unfold bind at 1.
  rewrite np_save_file_run.
  - reflexivity.
  - apply name_without_extension.
  - right.
    replace (((_spath self +:+ (dir +:+ "/")) +:+ name_in w counter) +:+ ".npy")%string
      with (((_spath self +:+ dir) +:+ "/") +:+ (name_in w counter +:+ ".npy"))%string
      by (by rewrite !string_app_assoc).
    rewrite dirname_of_file.
    + by rewrite string_app_assoc.
    + rewrite mentions_app, name_in_mentions_slash by done. reflexivity.
  - exact Hfile.
Qed.


Lemma typecast_array_ext_load_plain self name content a w :
  loadZipped self = false -> os_imported w = true ->
  fs w !! ((_spath self +:+ name) +:+ ".npy") = Some (RegularFile content) ->
  npy_loads content = Return a ->
  _typecast_array_ext_load npy_loads gzip_decompress self (VStr name) w
  = (Return (VNdarray a),
     emit (EOpenRead ((_spath self +:+ name) +:+ ".npy"))
          (emit (EIsFile ((_spath self +:+ name) +:+ ".npy")) w)).
Proof.
  intros Hzip Hos Hfile Hloads. unfold _typecast_array_ext_load.
  cbn [as_text]. rewrite bind_ret, Hzip, bind_ret.
  rewrite <- string_app_assoc.
  rewrite (bind_return _ _ _ _ _ (Codec.os_path_isfile_run _ w Hos)).
  unfold isfile. rewrite Hfile.
  unfold bind at 1, read_file. cbn [fs emit]. rewrite Hfile.
  unfold bind, lift, ret. by rewrite Hloads.
Qed.

Lemma target_is_new self folder w counter :
  target_of self folder w counter <> (_spath self +:+ folder)%string.
Proof.
  unfold target_of. rewrite string_app_assoc. intros Heq.
  apply string_app_self in Heq.
  assert (Hy : mentions "y" (name_in w counter +:+ ".npy") = true).
  { rewrite mentions_app. by rewrite orb_true_r. }
  by rewrite Heq in Hy.
Qed.

(** X15: the external store round-trips an array on sqlite.  In an
    environment with both optional imports in force, a host name without
    a slash, the directory above the folder of the day in place, nothing
    but a directory (or nothing) at the folder of the day and no directory
    in the way of the file: the constructor with external or mixed
    storage, [loadZipped=False] and [readOnly=False] returns a session;
    [_adapt_array_ext] on an array, or on an [ndarray_ext] wrapping it,
    writes the array's bytes to [storagePath + folder + name + ".npy"] and
    returns the reference [folder + name]; and [_typecast_array_ext],
    given the bytes of that reference as the driver hands them back,
    returns the array, provided the byte codec itself round-trips it. *)
Theorem external_store_then_load (stor spath : string) (w : world)
    (a : ndarray) (arr : pyvalue) (stored : list byte) :
  imports_enabled w -> mentions "/" (hostname w) = false ->
  stor = "extern"%string \/ stor = "mixed"%string ->
  arr = VNdarray a \/ arr = VNdarrayExt (VNdarray a) ->
  let folder := (strftime_at "%Y-%m-%d" (localtime w) +:+ "/")%string in
  let reference := (folder +:+ name_in w 1)%string in
  let target := (((spath +:+ folder) +:+ name_in w 1) +:+ ".npy")%string in
  holds_directory (fs w) (parent_of (spath +:+ folder)) = true ->
  (forall content, fs w !! (spath +:+ folder) <> Some (RegularFile content)) ->
  fs w !! target <> Some Directory ->
  utf8_decode stored = Return reference ->
  npy_loads (npy_dumps a) = Return a ->
  exists self w1 self' w2 w3,
    __init__ "sqlite" stor spath false false w = (Return self, w1)
    /\ _adapt_array_ext npy_dumps np_asanyarray pg_adapt self None arr w1
       = (Return (VStr reference, self', None), w2)
    /\ fs w2 !! target = Some (RegularFile (npy_dumps a))
    /\ _typecast_array_ext npy_loads gzip_decompress utf8_decode pg_STRING
         self' (VBytes stored) None w2
       = (Return (VNdarray a), w3).
Proof.
  intros [Hos Hsocket] Hhost Hmode Harr folder reference target Habove Hfolder
    Hfile Hdecode Hcodec.
  destruct (init_extern_run "sqlite" stor spath false false Hmode)
    as (self0 & printed & Hrun).
  destruct (Hrun w Hos Habove) as (Hinit & Hd & Hspath & Hzip). cbv zeta in Hinit.
  fold folder in Hinit. rewrite orb_false_r in Hinit.
  rewrite bool_decide_true in Hd by (apply list_elem_of_here).
  set (self := set_folder folder (set_counter 1 self0)) in *.
  assert (Hself : driver self = Some "sqlite"%string /\ _counter self = Some 1
                  /\ _folder self = Some folder /\ _spath self = spath
                  /\ loadZipped self = false) by done.
  destruct Hself as (Hd' & Hc & Hf & Hs & Hz).
  assert (Hw1 : exists w1,
             __init__ "sqlite" stor spath false false w = (Return self, w1)
             /\ imports_enabled w1 /\ hostname w1 = hostname w
             /\ name_in w1 1 = name_in w 1
             /\ fs w1 !! (spath +:+ folder) = Some Directory
             /\ fs w1 !! target <> Some Directory).
  { assert (Hnew : target <> (spath +:+ folder)%string).
    { pose proof (target_is_new self folder w 1) as Hne.
      unfold target_of in Hne. by rewrite Hs in Hne. }
    destruct (fs w !! (spath +:+ folder)) as [[content |] |] eqn:Hp.
    - by destruct (Hfolder content).
    - rewrite bool_decide_true in Hinit by done.
      eexists. split; [exact Hinit |]. repeat split; done.
    - rewrite bool_decide_false in Hinit by (by intros [? ?]).
      eexists. split; [exact Hinit |]. repeat split; try done.
      + simpl. apply lookup_insert_eq.
      + simpl. by rewrite lookup_insert_ne. }
  destruct Hw1 as (w1 & Hinit1 & Himports1 & Hhost1 & Hname1 & Hdir1 & Hfile1).
  pose proof (adapt_array_ext_run self 1 (strftime_at "%Y-%m-%d" (localtime w))
                arr a w1 Hd' Hc Hf Himports1) as Hwrite.
  rewrite Hhost1 in Hwrite. specialize (Hwrite Hhost Harr). cbv zeta in Hwrite.
  unfold target_of in Hwrite. rewrite Hs, Hname1 in Hwrite.
  specialize (Hwrite Hdir1 Hfile1). fold folder target reference in Hwrite.
  exists self, w1. eexists _, _, _.
  split; [exact Hinit1 |]. split; [exact Hwrite |].
  split; [unfold written; simpl; apply lookup_insert_eq |].
  rewrite (Codec.typecast_array_ext_stages _ _ _ _ _ _ _ reference);
    [| done | by apply Codec.typecast_array_ext_value_sqlite].
  apply (typecast_array_ext_load_plain _ _ (npy_dumps a)); try done.
  - by destruct Himports1.
  - cbn [_spath set_counter]. rewrite Hs. unfold reference.
    rewrite <- (string_app_assoc spath folder). fold target.
    unfold written. simpl. apply lookup_insert_eq.
Qed.


(** X16: two arrays stored one after the other in one session do not
    collide, also within the same minute.  On a sqlite session with a
    counter and a folder, in an environment with both optional imports in
    force, a host name without a slash, the folder in place under the
    storage path and no directory in the way of the two files: the two
    calls of [_adapt_array_ext] return different references, and
    afterwards each of the two files holds the bytes of its own array. *)
Theorem external_writes_do_not_collide (self : iodb) (counter : Z)
    (dir : string) (a b : ndarray) (w : world) :
  driver self = Some "sqlite"%string -> _counter self = Some counter ->
  _folder self = Some (dir +:+ "/")%string ->
  imports_enabled w -> mentions "/" (hostname w) = false ->
  fs w !! (_spath self +:+ (dir +:+ "/")) = Some Directory ->
  fs w !! target_of self (dir +:+ "/") w counter <> Some Directory ->
  fs w !! target_of self (dir +:+ "/") w (counter + 1) <> Some Directory ->
  exists first second self1 self2 w1 w2,
    _adapt_array_ext npy_dumps np_asanyarray pg_adapt self None (VNdarray a) w
    = (Return (VStr first, self1, None), w1)
    /\ _adapt_array_ext npy_dumps np_asanyarray pg_adapt self1 None (VNdarray b) w1
       = (Return (VStr second, self2, None), w2)
    /\ first <> second
    /\ fs w2 !! ((_spath self +:+ first) +:+ ".npy")
       = Some (RegularFile (npy_dumps a))
    /\ fs w2 !! ((_spath self +:+ second) +:+ ".npy")
       = Some (RegularFile (npy_dumps b)).
Proof.
  intros Hd Hc Hfolder Himports Hhost Hdir Hfile Hnext.
  set (folder := (dir +:+ "/")%string) in *.
  set (t1 := target_of self folder w counter).
  set (t2 := target_of self folder w (counter + 1)).
  assert (Hne : t1 <> t2).
  { intros Heq. apply target_of_inj in Heq. lia. }
  pose proof (adapt_array_ext_run self counter dir (VNdarray a) a w Hd Hc Hfolder
                Himports Hhost (or_introl eq_refl) Hdir Hfile) as Hfirst.
  fold folder t1 in Hfirst.
  set (w1 := written t1 (npy_dumps a) (written t1 [] w)) in *.
  set (self1 := set_counter (counter + 1) self) in *.
  assert (Hdir1 : fs w1 !! (_spath self1 +:+ folder) = Some Directory).
  { unfold w1, written. simpl.
    rewrite !lookup_insert_ne by (apply target_is_new). exact Hdir. }
  assert (Hfile1 : fs w1 !! target_of self1 folder w1 (counter + 1) <> Some Directory).
  { change (target_of self1 folder w1 (counter + 1)) with t2.
    unfold w1, written. simpl. rewrite !lookup_insert_ne by done.
    exact Hnext. }
  pose proof (adapt_array_ext_run self1 (counter + 1) dir (VNdarray b) b w1 Hd
                eq_refl Hfolder Himports Hhost (or_introl eq_refl) Hdir1 Hfile1)
    as Hsecond.
  change (target_of self1 folder w1 (counter + 1)) with t2 in Hsecond.
  change (name_in w1 (counter + 1)) with (name_in w (counter + 1)) in Hsecond.
  eexists _, _, _, _, _, _. split; [exact Hfirst |]. split; [exact Hsecond |].
  split; [| split].
  - intros Heq. apply Hne. unfold t1, t2, target_of.
    rewrite !(string_app_assoc (_spath self) folder). by rewrite Heq.
  - rewrite <- (string_app_assoc (_spath self) folder).
    change (fs (written t2 (npy_dumps b) (written t2 [] w1)) !! t1
            = Some (RegularFile (npy_dumps a))).
    unfold written. simpl. rewrite !lookup_insert_ne by done.
    apply lookup_insert_eq.
  - rewrite <- (string_app_assoc (_spath self) folder).
    change (fs (written t2 (npy_dumps b) (written t2 [] w1)) !! t2
            = Some (RegularFile (npy_dumps b))).
    unfold written. simpl. apply lookup_insert_eq.
Qed.

End WithNumpy.

Lemma external_store_then_load_witness :
  exists self w1 self' w2 w3,
    __init__ "sqlite" "extern" "./" false false world0 = (Return self, w1)
    /\ _adapt_array_ext Npy.dumps (fun _ => Raise (TypeError (lit "not an array")))
         VStr self None (VNdarrayExt (VNdarray pi_digits)) w1
       = (Return (VStr sample_reference, self', None), w2)
    /\ fs w2 !! ("./" +:+ sample_reference +:+ ".npy")%string
       = Some (RegularFile (Npy.dumps pi_digits))
    /\ _typecast_array_ext Npy.loads gzip_unsupported ascii_decode pg_identity
         self' (VBytes (list_byte_of_string sample_reference)) None w2
       = (Return (VNdarray pi_digits), w3).
Proof.
  apply (external_store_then_load Npy.dumps
           (fun _ => Raise (TypeError (lit "not an array"))) VStr Npy.loads
           gzip_unsupported ascii_decode pg_identity "extern" "./" world0
           pi_digits (VNdarrayExt (VNdarray pi_digits))
           (list_byte_of_string sample_reference)).
  - split; reflexivity.
  - reflexivity.
  - by left.
  - by right.
  - reflexivity.
  - intros content. vm_compute. discriminate.
  - vm_compute. discriminate.
  - vm_compute. reflexivity.
  - vm_compute. reflexivity.
Defined.

Lemma external_writes_do_not_collide_witness :
  let w := set_fs {[ "./2024-01-01/"%string := Directory ]} world0 in
  exists first second self1 self2 w1 w2,
    _adapt_array_ext Npy.dumps (fun _ => Raise (TypeError (lit "not an array")))
      VStr extern_session None (VNdarray pi_digits) w
    = (Return (VStr first, self1, None), w1)
    /\ _adapt_array_ext Npy.dumps (fun _ => Raise (TypeError (lit "not an array")))
         VStr self1 None (VNdarray matrix_array) w1
       = (Return (VStr second, self2, None), w2)
    /\ first <> second
    /\ fs w2 !! (("./" +:+ first) +:+ ".npy")%string
       = Some (RegularFile (Npy.dumps pi_digits))
    /\ fs w2 !! (("./" +:+ second) +:+ ".npy")%string
       = Some (RegularFile (Npy.dumps matrix_array)).
Proof.
  intros w.
  apply (external_writes_do_not_collide Npy.dumps
           (fun _ => Raise (TypeError (lit "not an array"))) VStr
           extern_session 1 "2024-01-01" pi_digits matrix_array w).
  - reflexivity.
  - reflexivity.
  - reflexivity.
  - split; reflexivity.
  - reflexivity.
  - vm_compute. reflexivity.
  - vm_compute. discriminate.
  - vm_compute. discriminate.
Defined.

End ExternalStore.

(** ** Deleting rows together with their files *)

Module Deletion.

Import AdvisoryLock.

Lemma concat_text_rows (rows : list (list string)) :
  concat (map (map VStr) rows) = map VStr (concat rows).
Proof.
  induction rows as [|row rows IH]; [done |]. simpl. by rewrite IH, map_app.
Qed.

Lemma delete_files_run (names : list string) : forall w,
  os_imported w = true ->
  (forall name, name ∈ names -> fs w !! (name +:+ ".npy") <> Some Directory) ->
  exists w' trace,
    sqliteConnection.delete_files (map VStr names) w = (Return tt, w')
    /\ os_imported w' = true
    /\ (forall p, fs w' !! p
                  = if bool_decide (p ∈ map (fun name => name +:+ ".npy")%string names)
                    then None else fs w !! p)
    /\ log w' = log w ++ trace /\ existsb is_execute trace = false.
Proof.
  induction names as [|name names IH]; intros w Hos Hfiles.
  - exists w, []. repeat split; try done. by rewrite app_nil_r.
  - cbn [map sqliteConnection.delete_files sqliteConnection.with_npy].
    rewrite bind_ret.
    rewrite (bind_return _ _ _ _ _ (os_path_exists_run _ w Hos)).
    set (path := (name +:+ ".npy")%string).
    assert (Hrest : forall w1,
               os_imported w1 = true ->
               (forall p, fs w1 !! p = if bool_decide (p = path) then None else fs w !! p) ->
               forall trace1, log w1 = log w ++ trace1 ->
               existsb is_execute trace1 = false ->
               exists w' trace,
                 sqliteConnection.delete_files (map VStr names) w1 = (Return tt, w')
                 /\ os_imported w' = true
                 /\ (forall p, fs w' !! p
                               = if bool_decide
                                      (p ∈ path :: map (fun name => name +:+ ".npy")%string names)
                                 then None else fs w !! p)
                 /\ log w' = log w ++ trace /\ existsb is_execute trace = false).
    { intros w1 Hos1 Hfs1 trace1 Hlog1 Hquiet1.
      destruct (IH w1 Hos1) as (w' & trace & Hrun & Hos' & Hfs' & Hlog' & Hquiet').
      { intros other Hother. rewrite Hfs1. case_bool_decide; [done |].
        apply Hfiles. by right. }
      exists w', (trace1 ++ trace). split; [exact Hrun |]. split; [exact Hos' |].
      split; [| split].
      - intros p. rewrite Hfs', Hfs1.
        destruct (decide (p = path)) as [-> | Hne].
        + rewrite (bool_decide_true (path ∈ path :: _)) by left.
          rewrite (bool_decide_true (path = path)) by done. by case_bool_decide.
        + rewrite (bool_decide_false (p = path)) by done.
          repeat case_bool_decide; try done.
          * exfalso. match goal with H : ¬ _ ∈ _ :: _ |- _ => apply H end. by right.
          * exfalso. match goal with H : _ ∈ _ :: _ |- _ =>
                                       apply elem_of_cons in H as [? | ?] end; done.
      - by rewrite Hlog', Hlog1, app_assoc.
      - by rewrite existsb_app, Hquiet1, Hquiet'. }
    destruct (fs w !! path) as [[content |] |] eqn:Hp.
    + rewrite bool_decide_true by done.
      rewrite (bind_return _ _ _ _ _
                 (os_remove_file path content (emit (EExists path) w) Hos Hp)).
      eapply Hrest with (trace1 := [EExists path; ERemove path]).
      * exact Hos.
      * intros p. simpl. case_bool_decide as Hpath.
        -- subst p. apply lookup_delete_eq.
        -- by rewrite lookup_delete_ne.
      * simpl. by rewrite <- app_assoc.
      * reflexivity.
    + exfalso. apply (Hfiles name); [left | exact Hp].
    + rewrite bool_decide_false by (by intros [? ?]).
      unfold bind at 1. unfold bind at 1, print at 1. unfold print at 1.
      eapply Hrest
        with (trace1 := [EExists path;
                         EPrint [Msg "delete: No such file: '{}'" [AStr path]];
                         EPrint [lit "delete: The db record will be deleted anyway"]]).
      * exact Hos.
      * intros p. simpl. case_bool_decide as Hpath; [by subst p | done].
      * simpl. by rewrite <- !app_assoc.
      * reflexivity.
Qed.

(** X17: with [os] in reach (its import restored),
    [sqliteConnection.delete], when the SELECT answers with text
    references none of which names a directory once [.npy] is appended,
    always reaches its DELETE statement: it executes the SELECT first and
    the DELETE last and no other statement, and in between removes the
    listed files, a missing file being reported and passed over.
    Afterwards none of the listed paths exists and every other path is
    untouched.  ([execute] is taken to return.) *)
Theorem delete_removes_listed_files (file_cols db_from db_filter : string)
    (rows : list (list string)) (w : world) :
  os_imported w = true ->
  (forall name, name ∈ concat rows -> fs w !! (name +:+ ".npy") <> Some Directory) ->
  let paths := map (fun name => name +:+ ".npy")%string (concat rows) in
  exists w' trace,
    sqliteConnection.delete file_cols db_from db_filter (map (map VStr) rows) w
    = (Return tt, w')
    /\ (forall p, fs w' !! p = if bool_decide (p ∈ paths) then None else fs w !! p)
    /\ log w'
       = log w
         ++ [EExecute ("SELECT " +:+ file_cols +:+ " from " +:+ db_from
                       +:+ " WHERE " +:+ db_filter) []]
         ++ trace
         ++ [EExecute ("DELETE FROM " +:+ db_from +:+ " WHERE " +:+ db_filter) []]
    /\ existsb is_execute trace = false.
Proof.
  intros Hos Hfiles paths.
  unfold sqliteConnection.delete. rewrite concat_text_rows.
  unfold bind at 1, execute at 1. unfold bind at 1, print at 1.
  set (w0 := emit (EPrint _) (emit (EExecute _ _) w)).
  destruct (delete_files_run (concat rows) w0 Hos Hfiles)
    as (w1 & trace & Hrun & Hos1 & Hfs & Hlog & Hquiet).
  unfold bind at 1. rewrite Hrun.
  unfold bind, print, execute.
  eexists _, (EPrint _ :: trace ++ [EPrint _]).
  split; [reflexivity |]. split; [exact Hfs |]. split.
  - simpl. rewrite Hlog. simpl. rewrite <- !app_assoc. reflexivity.
  - simpl. rewrite existsb_app, Hquiet. reflexivity.
Qed.

Lemma delete_removes_listed_files_witness :
  let w := set_fs {[ "a.npy"%string := RegularFile [] ]} world0 in
  exists w' trace,
    sqliteConnection.delete "path" "data" "id > 3"
      (map (map VStr) [["a"]; ["b"]]%string) w
    = (Return tt, w')
    /\ (forall p, fs w' !! p
                  = if bool_decide (p ∈ ["a.npy"; "b.npy"]%string)
                    then None else fs w !! p)
    /\ log w'
       = log w ++ [EExecute "SELECT path from data WHERE id > 3" []] ++ trace
         ++ [EExecute "DELETE FROM data WHERE id > 3" []]
    /\ existsb is_execute trace = false.
Proof.
  intros w.
  apply (delete_removes_listed_files "path" "data" "id > 3"
           [["a"]; ["b"]]%string w); [reflexivity |].
  intros name Hname.
  repeat (apply elem_of_cons in Hname as [-> | Hname]);
    [vm_compute; discriminate | vm_compute; discriminate
    | by apply elem_of_nil in Hname].
Defined.

End Deletion.

(** ** Adapter registration *)

Module Registration.

(** The type names and the driver of the object [__init__] returns. *)
Lemma init_type_names drv stor spath zipped readOnly w self w' :
  drv = "sqlite"%string \/ drv = "postgre"%string ->
  __init__ drv stor spath zipped readOnly w = (Return self, w') ->
  driver self = Some drv
  /\ _arrayType self
     = Some (if String.eqb drv "sqlite" then "ARRAY"
             else if String.eqb stor "intern" then "BYTEA" else "TEXT")%string
  /\ _arrayType_ext self
     = Some (if String.eqb drv "sqlite" then "ARRAY_EXT" else "TEXT")%string.
Proof.
  intros Hdrv Hrun. unfold __init__ in Hrun.
  apply bind_inv in Hrun as (self0 & w0 & Hself0 & Hrun).
  assert (Hfields : driver self0 = Some drv
     /\ _arrayType self0
        = Some (if String.eqb drv "sqlite" then "ARRAY"
                else if String.eqb stor "intern" then "BYTEA" else "TEXT")%string
     /\ _arrayType_ext self0
        = Some (if String.eqb drv "sqlite" then "ARRAY_EXT" else "TEXT")%string).
  { destruct Hdrv as [-> | ->]; by injection Hself0 as <- _. }
  destruct (String.eqb stor "extern" || String.eqb stor "mixed").
  - cbv zeta in Hrun.
    apply bind_inv in Hrun as (date & w1 & _ & Hrun).
    apply bind_inv in Hrun as (present & w2 & _ & Hrun).
    destruct (negb present && negb readOnly).
    + apply bind_inv in Hrun as (? & w3 & _ & Hrun). by injection Hrun as <- _.
    + by injection Hrun as <- _.
  - by injection Hrun as <- _.
Qed.

(** X18: on sqlite, in each of the three storage modes, what
    [_setAdapters] registers fits what [__init__] and [detectType] name:
    the adapter in force for [np.ndarray] writes what the converter
    registered under the column type inferred for an array reads, and the
    same holds for the adapter of [ndarray_ext], where there is one, and
    the column type of the marker text [ndarray_ext]. *)
Theorem sqlite_adapters_match_converters (stor spath : string)
    (zipped readOnly : bool) (w : world) (self : iodb) (w' : world)
    (arr : ndarray) :
  stor ∈ ["intern"; "extern"; "mixed"]%string ->
  __init__ "sqlite" stor spath zipped readOnly w = (Return self, w') ->
  exists reg,
    _setAdapters self stor no_registrations = Return reg
    /\ (exists a c T,
          adapter_for C_np_ndarray (sqlite_adapters reg) = Some a
          /\ (forall w2, detectType self (VNdarray arr) "sqlite" w2
                         = (Return (Some T), w2))
          /\ converter_for T (sqlite_converters reg) = Some c
          /\ reads_back a c = true)
    /\ (forall a, adapter_for C_ndarray_ext (sqlite_adapters reg) = Some a ->
          exists c T,
            (forall w2, fst (detectType self (VStr "ndarray_ext") "sqlite" w2)
                        = Return (Some T))
            /\ converter_for T (sqlite_converters reg) = Some c
            /\ reads_back a c = true).
Proof.
  intros Hstor Hrun.
  destruct (init_type_names _ _ _ _ _ _ _ _ (or_introl eq_refl) Hrun)
    as (Hd & Ht & Hte).
  cbn [String.eqb Ascii.eqb Bool.eqb] in Ht, Hte.
  assert (Hdetect : forall w2, detectType self (VNdarray arr) "sqlite" w2
                               = (Return (Some "ARRAY"%string), w2)).
  { intros w2. cbn. by rewrite Ht. }
  assert (Hmarker : forall w2, fst (detectType self (VStr "ndarray_ext") "sqlite" w2)
                               = Return (Some "ARRAY_EXT"%string)).
  { intros w2. cbn. by rewrite Hte. }
  unfold _setAdapters, _setAdapterIn_extern, _setAdapterIn_intern,
    _setAdapterOut_extern, _setAdapterOut_intern, _setAdapterIn, _setAdapterOut.
  rewrite Hd, Ht, Hte.
  repeat (apply elem_of_cons in Hstor as [-> | Hstor]);
    [| | | by apply elem_of_nil in Hstor];
    cbn; eexists; (split; [reflexivity |]); split.
  - exists Adapt_array, Typecast_array, "ARRAY"%string. by repeat split.
  - intros a [=].
  - exists Adapt_array_ext, Typecast_array_ext, "ARRAY"%string. by repeat split.
  - intros a [=].
  - exists Adapt_array, Typecast_array, "ARRAY"%string. by repeat split.
  - intros a [= <-]. exists Typecast_array_ext, "ARRAY_EXT"%string. by repeat split.
Qed.

Lemma sqlite_adapters_match_converters_witness :
  exists self w' reg,
    __init__ "sqlite" "mixed" "./" false true world0 = (Return self, w')
    /\ _setAdapters self "mixed" no_registrations = Return reg
    /\ (exists a c T,
          adapter_for C_np_ndarray (sqlite_adapters reg) = Some a
          /\ (forall w2, detectType self (VNdarray pi_digits) "sqlite" w2
                         = (Return (Some T), w2))
          /\ converter_for T (sqlite_converters reg) = Some c
          /\ reads_back a c = true).
Proof.
  assert (Hrun : exists self w',
             __init__ "sqlite" "mixed" "./" false true world0 = (Return self, w'))
    by (eexists _, _; vm_compute; reflexivity).
  destruct Hrun as (self & w' & Hrun).
  destruct (sqlite_adapters_match_converters "mixed" "./" false true world0
              self w' pi_digits) as (reg & Hreg & Harray & _).
  - by apply (bool_decide_unpack _).
  - exact Hrun.
  - exists self, w', reg. split; [exact Hrun |]. split; [exact Hreg | exact Harray].
Defined.

(** X19: on postgres the column type inferred for an array is [BYTEA]
    with internal storage and [TEXT] otherwise, while the adapter in force
    for [np.ndarray] is the file adapter with external storage only: in
    mixed mode an array goes through the binary adapter into a column
    declared [TEXT]. *)
Theorem postgres_array_column_type (stor spath : string)
    (zipped readOnly : bool) (w : world) (self : iodb) (w' : world)
    (arr : ndarray) :
  stor ∈ ["intern"; "extern"; "mixed"]%string ->
  __init__ "postgre" stor spath zipped readOnly w = (Return self, w') ->
  exists reg,
    _setAdapters self stor no_registrations = Return reg
    /\ adapter_for C_np_ndarray (pg_adapters reg)
       = Some (if String.eqb stor "extern" then Adapt_array_ext else Adapt_array)
    /\ (forall w2, detectType self (VNdarray arr) "postgre" w2
                   = (Return (Some (if String.eqb stor "intern" then "BYTEA"
                                    else "TEXT")%string), w2)).
Proof.
  intros Hstor Hrun.
  destruct (init_type_names _ _ _ _ _ _ _ _ (or_intror eq_refl) Hrun)
    as (Hd & Ht & Hte).
  cbn [String.eqb Ascii.eqb Bool.eqb] in Ht, Hte.
  assert (Hdetect : forall w2,
             detectType self (VNdarray arr) "postgre" w2
             = (Return (Some (if String.eqb stor "intern" then "BYTEA"
                              else "TEXT")%string), w2)).
  { intros w2. cbn. by rewrite Ht. }
  unfold _setAdapters, _setAdapterIn_extern, _setAdapterIn_intern,
    _setAdapterOut_extern, _setAdapterOut_intern, _setAdapterIn, _setAdapterOut.
  rewrite Hd, Ht, Hte.
  repeat (apply elem_of_cons in Hstor as [-> | Hstor]);
    [| | | by apply elem_of_nil in Hstor];
    cbn; eexists; (split; [reflexivity |]); (split; [reflexivity |]);
    exact Hdetect.
Qed.

Lemma postgres_array_column_type_witness :
  exists self w' reg,
    __init__ "postgre" "mixed" "./" false true world0 = (Return self, w')
    /\ _setAdapters self "mixed" no_registrations = Return reg
    /\ adapter_for C_np_ndarray (pg_adapters reg) = Some Adapt_array
    /\ (forall w2, detectType self (VNdarray pi_digits) "postgre" w2
                   = (Return (Some "TEXT"%string), w2)).
Proof.
  assert (Hrun : exists self w',
             __init__ "postgre" "mixed" "./" false true world0 = (Return self, w'))
    by (eexists _, _; vm_compute; reflexivity).
  destruct Hrun as (self & w' & Hrun).
  destruct (postgres_array_column_type "mixed" "./" false true world0
              self w' pi_digits) as (reg & Hreg & Hadapter & Htype).
  - by apply (bool_decide_unpack _).
  - exact Hrun.
  - exists self, w', reg. split; [exact Hrun |]. split; [exact Hreg |].
    split; [exact Hadapter | exact Htype].
Defined.

End Registration.
